(** * Majd platform: routing, fallback and context shaping

    A shallow embedding of the orchestration core of the Majd multi-provider
    gateway (TaskRouter, ContextManager, ThinkingEngine, ResponseSynthesizer
    and OrchestrationLayer) together with the properties its specification
    states about it.

    Conventions of the embedding.
    - A JavaScript string is a [string] whose characters are code units
      below 256 (the Latin-1 range).
    - A JavaScript number is a rational [Q]; arithmetic is exact.
    - A function that may throw returns a [Result]; [try]/[catch] is
      [tryCatch].  Asynchronous calls are awaited in program order, so the
      embedding is sequential.  Effectful functions live in a state and
      error monad over the trace of effects; recursion between
      [processRequest] and [handleFallback] is bounded by fuel.
    - External collaborators (vector database, learned classifier, provider
      modules) are oracles over the trace of effects performed so far.
    - Timestamps, processing times and log lines are left out, except the
      log line that names the fallback platform. *)

From Stdlib Require Import String Ascii List ZArith QArith Bool Lia Lqa Arith.
From Stdlib Require Import DecimalString.
Import ListNotations.
Close Scope Q_scope.
Open Scope string_scope.
Set Warnings "-register-all".

(* ------------------------------------------------------------------ *)
(** ** JavaScript preliminaries *)

Module JS.

(** Outcome of evaluating a function body: a value, or a thrown error
    (with its [message]). *)
Inductive Result (A : Type) : Type :=
| Return (a : A)
| Throw (message : string).
Arguments Return {A} a.
Arguments Throw {A} message.

Definition bindR {A B} (r : Result A) (k : A -> Result B) : Result B :=
  match r with
  | Return a => k a
  | Throw m => Throw m
  end.

(** [try { body } catch (error) { handler(error.message) }] *)
Definition tryCatchR {A} (body : Result A) (handler : string -> Result A)
  : Result A :=
  match body with
  | Throw m => handler m
  | other => other
  end.

Definition newline : string := String (ascii_of_nat 10) EmptyString.

(** Property names every object literal inherits from [Object.prototype];
    a lookup [table[key]] with one of these keys yields a truthy value that
    is none of the table's own entries. *)
Definition objectPrototypeKeys : list string :=
  [ "constructor"; "__proto__"; "hasOwnProperty"; "isPrototypeOf";
    "propertyIsEnumerable"; "toLocaleString"; "toString"; "valueOf";
    "__defineGetter__"; "__defineSetter__"; "__lookupGetter__";
    "__lookupSetter__" ].

Definition isInheritedKey (key : string) : bool :=
  existsb (String.eqb key) objectPrototypeKeys.

(** Truthiness of a string and of an optional (possibly [undefined]) string. *)
Definition truthyString (s : string) : bool := negb (String.eqb s "").

Definition truthyOpt (o : option string) : bool :=
  match o with
  | Some s => truthyString s
  | None => false
  end.

(** Template-literal rendering of a possibly undefined string. *)
Definition showOpt (o : option string) : string :=
  match o with
  | Some s => s
  | None => "undefined"
  end.

End JS.

(* ------------------------------------------------------------------ *)
(** ** String operations used by the classifier and the token estimate *)

Module Text.

Definition code (c : ascii) : N := N_of_ascii c.

(** The character class [[a-z]]. *)
Definition isLowerAZ (c : ascii) : bool :=
  ((97 <=? code c) && (code c <=? 122))%N.

(** The character class [[A-Za-z]]. *)
Definition isLetterAZ (c : ascii) : bool :=
  (((65 <=? code c) && (code c <=? 90)) || ((97 <=? code c) && (code c <=? 122)))%N.

(** The character class [\s] restricted to code units below 256. *)
Definition isWhitespace (c : ascii) : bool :=
  existsb (N.eqb (code c)) [9; 10; 11; 12; 13; 32; 160]%N.

(** [String.prototype.toLowerCase] on one code unit: A-Z and the Latin-1
    capitals U+00C0..U+00DE (except the multiplication sign U+00D7). *)
Definition toLowerCaseChar (c : ascii) : ascii :=
  let n := code c in
  if (((65 <=? n) && (n <=? 90))
      || ((192 <=? n) && (n <=? 222) && negb (n =? 215)))%N
  then ascii_of_N (n + 32)
  else c.

Fixpoint toLowerCase (s : string) : string :=
  match s with
  | EmptyString => EmptyString
  | String c r => String (toLowerCaseChar c) (toLowerCase r)
  end.

Fixpoint startsWith (s pre : string) {struct pre} : bool :=
  match pre, s with
  | EmptyString, _ => true
  | String p pre', String c s' => Ascii.eqb p c && startsWith s' pre'
  | String _ _, EmptyString => false
  end.

(** [s.includes(sub)] *)
Fixpoint includes (s sub : string) : bool :=
  startsWith s sub
  || match s with
     | EmptyString => false
     | String _ r => includes r sub
     end.

(** Drop the longest prefix matching [[a-z]*]. *)
Fixpoint skipLowerAZ (s : string) : string :=
  match s with
  | EmptyString => EmptyString
  | String c r => if isLowerAZ c then skipLowerAZ r else s
  end.

(** Does the regular expression [```[a-z]*\n] match at the start of [s]?
    Since a newline is not in [[a-z]], the greedy star never backtracks. *)
Definition codeFenceAt (s : string) : bool :=
  match s with
  | String "`" (String "`" (String "`" r)) => startsWith (skipLowerAZ r) JS.newline
  | _ => false
  end.

(** [s.match(/```[a-z]*\n/g)] is truthy: the pattern matches somewhere. *)
Fixpoint matchCodeFence (s : string) : bool :=
  codeFenceAt s
  || match s with
     | EmptyString => false
     | String _ r => matchCodeFence r
     end.

(** Number of maximal runs of whitespace in [s]; [inRun] tells whether the
    previous code unit was whitespace. *)
Fixpoint whitespaceRuns (inRun : bool) (s : string) : nat :=
  match s with
  | EmptyString => 0
  | String c r =>
      if isWhitespace c
      then (if inRun then 0 else 1) + whitespaceRuns true r
      else whitespaceRuns false r
  end.

(** [s.split(/\s+/).length]: one more piece than there are separators. *)
Definition splitWhitespaceLength (s : string) : nat :=
  S (whitespaceRuns false s).

End Text.

(* ------------------------------------------------------------------ *)
(** ** Data model *)

(** ConversationTurn, as stored by and read from the vector database. *)
Record Turn : Type := mkTurn {
  turn_userId : string;
  turn_userInput : string;
  turn_aiResponse : string;
  turn_platform : string;
  turn_taskType : string;
  turn_isSystemMessage : bool
}.

(** One entry of a [messages] array. *)
Record Message : Type := mkMessage {
  msg_role : string;
  msg_content : string
}.

(** One entry of a Gemini [contents] array; [parts] holds the [text]s. *)
Record Content : Type := mkContent {
  cnt_role : string;
  cnt_parts : list string
}.

(** Fields that some formatters add next to [messages]. *)
Inductive PromptExtras : Type :=
| NoExtras
| PerplexityExtras (search include_citations : bool)
| CopilotExtras (language editorContent : string)
| Grok3Extras (use_realtime_data : bool).

(** A platform prompt: [{ messages, ... }] or [{ contents }]. *)
Inductive PlatformPrompt : Type :=
| MessagesPrompt (messages : list Message) (extras : PromptExtras)
| ContentsPrompt (contents : list Content).

(** The result of [generateThinkingPrompts]. *)
Record ThinkingPrompts : Type := mkThinkingPrompts {
  systemPrompt : string;
  reasoningSteps : list string;
  templates : list (string * option string)
}.

(** A JavaScript value as it comes out of a provider: parsed JSON, a plain
    string, or [undefined]. *)
Inductive Value : Type :=
| VUndefined
| VNull
| VBool (b : bool)
| VNum (q : Q)
| VStr (s : string)
| VArr (items : list Value)
| VObj (fields : list (string * Value)).

(** Array helpers shared by the components. *)
Fixpoint findIndex {A} (p : A -> bool) (l : list A) : option nat :=
  match l with
  | [] => None
  | x :: r => if p x then Some 0 else option_map S (findIndex p r)
  end.

Fixpoint updateAt {A} (i : nat) (f : A -> A) (l : list A) : list A :=
  match l, i with
  | [], _ => []
  | x :: r, 0 => f x :: r
  | x :: r, S j => x :: updateAt j f r
  end.

(* ------------------------------------------------------------------ *)
(** ** Requests, routing decisions and responses *)

Record UserPreferences : Type := mkUserPreferences {
  preferredPlatform : option string
}.

(** The [options] object of a request; an absent field is [None] or
    [false]. *)
Record Options : Type := mkOptions {
  userPreferences : option UserPreferences;
  optimizeCost : bool;
  isPremiumUser : bool;
  enableFallback : option bool;
  isFallback : bool;
  isFallbackSecondary : bool;
  overridePlatform : option string;
  enableSemanticSearch : bool;
  maxRelevantItems : option nat;
  responseFormat : option string;
  includeThinking : option bool;
  includeAttribution : option bool;
  mergeStrategy : option string;
  includeSectionHeaders : option bool
}.

(** [{}] *)
Definition noOptions : Options :=
  mkOptions None false false None false false None false None None None None
            None None.

(** RoutingDecision: the object [routeRequest] returns. *)
Record RoutingInfo : Type := mkRoutingInfo {
  ri_userId : string;
  ri_userInput : string;
  ri_taskType : string;
  ri_platform : option string;
  ri_secondary : option string;
  ri_fallback : option string;
  ri_isErrorFallback : bool
}.

(** ProcessedResponse and the error objects that stand in for it. *)
Record Response : Type := mkResponse {
  content : Value;
  formattedResponse : string;
  platform : option string;
  taskType : option string;
  userId : option string;
  format : option string;
  thinkingProcess : option Value;
  error : option string;
  originalError : option string;
  sources : list (option string * option string);
  routingInfo : option RoutingInfo
}.

(** [{ ...response, processingTime, routingInfo }] *)
Definition withRoutingInfo (response : Response) (info : RoutingInfo)
  : Response :=
  mkResponse (content response) (formattedResponse response)
    (platform response) (taskType response) (userId response)
    (format response) (thinkingProcess response) (error response)
    (originalError response) (sources response) (Some info).

(** The options [formatResponse] reads. *)
Record FormatOptions : Type := mkFormatOptions {
  fo_includeThinking : bool;
  fo_includeAttribution : bool;
  fo_platform : option string
}.

(** ECMAScript operations on arbitrary values that the embedding does not
    define: [JSON.stringify], conversion to string (template literals and
    [+=]) and conversion to number ([None] is NaN). *)
Record Builtins : Type := mkBuiltins {
  JSON_stringify : Value -> string;
  ToString : Value -> string;
  ToNumber : Value -> option Q
}.

(* ------------------------------------------------------------------ *)
(** ** External collaborators and effects *)

(** What the learned classifier hands back: an exception, [null], or an
    object with a [confidence] (any value: a number, but also a string, a
    boolean or nothing at all) and a [taskType]. *)
Inductive MLOutcome : Type :=
| MLThrows (message : string)
| MLNull
| MLResult (confidence : Value) (taskType : string).

(** Effects visible outside the orchestration layer, in program order. *)
Inductive Event : Type :=
| ProviderCall (platform : string) (prompt : PlatformPrompt)
| SavedTurn (userId userInput : string) (aiResponse : Value)
            (platform taskType : string)
| UsingFallback (fallbackPlatform originalPlatform : option string).

Definition Trace : Type := list Event.

(** The environment of a run.  Every collaborator answers as a function of
    the trace so far, so its answers may change from one call to the next. *)
Record Env : Type := mkEnv {
  builtins : Builtins;
  (* methods whose text the sources do not contain: the tail of
     thinkingEngine.js and the merge strategies of the synthesizer *)
  generateThinkingInstructions : ThinkingPrompts -> JS.Result string;
  extractThinkingProcess : Value -> ThinkingPrompts -> JS.Result Value;
  mergeSequential : list Response -> JS.Result string;
  mergeBestFirst : list Response -> JS.Result string;
  mergeTaskSpecific : list Response -> JS.Result string;
  (* rendering as text, markdown, HTML or JSON; it rests on the missing
     [formatThinkingProcess] and is left abstract *)
  formatResponse :
    Value -> option Value -> string -> FormatOptions -> JS.Result string;
  (* configuration: [None] is a key that config does not define *)
  ML_CONFIDENCE_THRESHOLD : option Q;
  MAX_CONTEXT_LENGTH : option nat;
  (* collaborators *)
  classifier_isInitialized : Trace -> bool;
  classifier_classify : Trace -> string -> list Turn -> MLOutcome;
  getConversationHistory : Trace -> string -> nat -> JS.Result (list Turn);
  searchSimilarConversations :
    Trace -> string -> string -> nat -> JS.Result (list Turn);
  saveConversationTurn : Trace -> Event -> JS.Result unit;
  platformModulesLoad : Trace -> bool;
  generateResponse : Trace -> string -> PlatformPrompt -> JS.Result Value
}.

(** State (the trace) and errors; [None] is a recursion out of fuel. *)
Definition M (A : Type) : Type := Trace -> option (JS.Result A * Trace).

Definition ret {A} (a : A) : M A := fun t => Some (JS.Return a, t).

Definition throw {A} (message : string) : M A :=
  fun t => Some (JS.Throw message, t).

Definition lift {A} (r : JS.Result A) : M A := fun t => Some (r, t).

Definition bind {A B} (c : M A) (k : A -> M B) : M B :=
  fun t =>
    match c t with
    | Some (JS.Return a, t') => k a t'
    | Some (JS.Throw m, t') => Some (JS.Throw m, t')
    | None => None
    end.

(** [try { body } catch (error) { handler(error.message) }] *)
Definition tryCatch {A} (body : M A) (handler : string -> M A) : M A :=
  fun t =>
    match body t with
    | Some (JS.Throw m, t') => handler m t'
    | other => other
    end.

Definition ask : M Trace := fun t => Some (JS.Return t, t).

Definition emit (e : Event) : M unit := fun t => Some (JS.Return tt, (t ++ [e])%list).

Definition outOfFuel {A} : M A := fun _ => None.

Declare Scope monad_scope.
Delimit Scope monad_scope with monad.
Notation "x <- c ;; k" := (bind c (fun x => k))
  (at level 61, c at next level, right associativity) : monad_scope.
Notation "c ;;; k" := (bind c (fun _ => k))
  (at level 61, right associativity) : monad_scope.
Open Scope monad_scope.

(** The platforms a provider module exists for. *)
Definition providers : list string :=
  ["chatgpt"; "perplexity"; "gemini"; "copilot"; "deepseek"; "grok3";
   "vertix"; "local"].

(** The provider calls of a trace, in order. *)
Definition providerCalls (t : Trace) : list string :=
  flat_map (fun e => match e with ProviderCall p _ => [p] | _ => [] end) t.

(* ------------------------------------------------------------------ *)
(** ** ContextManager *)

Module ContextManager.

Definition contextWindowSizes (platform : string) : option Q :=
  if String.eqb platform "chatgpt" then Some 128000%Q
  else if String.eqb platform "perplexity" then Some 32000%Q
  else if String.eqb platform "gemini" then Some 1000000%Q
  else if String.eqb platform "copilot" then Some 64000%Q
  else if String.eqb platform "deepseek" then Some 128000%Q
  else if String.eqb platform "grok3" then Some 128000%Q
  else if String.eqb platform "vertix" then Some 32000%Q
  else if String.eqb platform "local" then Some 32000%Q
  else None.

(** [a > b] on numbers.  Numbers are exact rationals here, while the
    source computes in binary64: the estimates below are multiples of 0.1,
    and so is the limit of an integer window size, so the two agree
    whenever the exact operands differ; where the exact operands are equal
    the rounding of the source decides. *)
Definition gt (a b : Q) : bool := negb (Qle_bool a b).

(** [text ? text.split(/\s+/).length * 1.3 : 0] *)
Definition estimateTokens (text : string) : Q :=
  if JS.truthyString text
  then (inject_Z (Z.of_nat (Text.splitWhitespaceLength text)) * 1.3)%Q
  else 0%Q.

Definition turnTokens (turn : Turn) : Q :=
  (estimateTokens (turn_userInput turn) + estimateTokens (turn_aiResponse turn))%Q.

(** The loop of [optimizeContext].  [remaining] holds [context[i]],
    [context[i-1]], ..., [context[0]] (most recent first); hitting the
    limit is the [break]; [turn :: optimizedContext] is the [unshift]. *)
Fixpoint optimizeLoop (contextWindowSize : Q) (remaining : list Turn)
    (totalTokens : Q) (optimizedContext : list Turn) : list Turn :=
  match remaining with
  | [] => optimizedContext
  | turn :: older =>
      if gt (totalTokens + turnTokens turn)%Q (contextWindowSize * 0.9)%Q
      then optimizedContext
      else optimizeLoop contextWindowSize older
             (totalTokens + turnTokens turn)%Q (turn :: optimizedContext)
  end.

Definition optimizeContext (context : list Turn) (contextWindowSize : Q)
  : list Turn :=
  optimizeLoop contextWindowSize (rev context) 0%Q [].

Definition separatorTurn : Turn :=
  mkTurn "" "" "--- Relevant past conversations ---" "" "" true.

Definition mergeAndOptimizeContext (recentContext relevantHistory : list Turn)
    (contextWindowSize : Q) : list Turn :=
  let combinedContext :=
    (recentContext
     ++ (match relevantHistory with [] => [] | _ => [separatorTurn] end)
     ++ relevantHistory)%list in
  optimizeContext combinedContext contextWindowSize.

(** The [context.forEach] shared by the [messages]-shaped formatters. *)
Definition turnMessages (turn : Turn) : list Message :=
  if turn_isSystemMessage turn
  then [mkMessage "system" (turn_aiResponse turn)]
  else mkMessage "user" (turn_userInput turn)
       :: (if JS.truthyString (turn_aiResponse turn)
           then [mkMessage "assistant" (turn_aiResponse turn)]
           else []).

Definition formatMessages (system : string) (context : list Turn)
  : list Message :=
  mkMessage "system" system :: flat_map turnMessages context.

Definition formatForChatGPT (context : list Turn) : PlatformPrompt :=
  MessagesPrompt
    (formatMessages "You are Majd, an advanced AI assistant that combines the capabilities of multiple AI systems. You provide detailed reasoning and show your thinking process step by step when solving complex problems." context)
    NoExtras.

Definition formatForPerplexity (context : list Turn) : PlatformPrompt :=
  MessagesPrompt
    (formatMessages "You are Majd, an advanced AI research assistant. Provide comprehensive answers with citations and sources when available." context)
    (PerplexityExtras true true).

Definition turnContents (turn : Turn) : list Content :=
  if turn_isSystemMessage turn
  then [mkContent "system" [turn_aiResponse turn]]
  else mkContent "user" [turn_userInput turn]
       :: (if JS.truthyString (turn_aiResponse turn)
           then [mkContent "model" [turn_aiResponse turn]]
           else []).

Definition formatForGemini (context : list Turn) : PlatformPrompt :=
  ContentsPrompt
    (mkContent "system" ["You are Majd, an advanced AI assistant with exceptional reasoning capabilities. Show your thinking process step by step."]
     :: flat_map turnContents context).

Definition formatForCopilot (context : list Turn) : PlatformPrompt :=
  MessagesPrompt
    (formatMessages "You are Majd, an advanced AI coding assistant. Provide detailed code explanations and step-by-step solutions to programming problems." context)
    (CopilotExtras "javascript" "").

Definition formatForDeepSeek (context : list Turn) : PlatformPrompt :=
  MessagesPrompt
    (formatMessages "You are Majd, an advanced AI assistant with exceptional mathematical and reasoning capabilities. Show your step-by-step thinking process when solving problems." context)
    NoExtras.

Definition formatForGrok3 (context : list Turn) : PlatformPrompt :=
  MessagesPrompt
    (formatMessages "You are Majd, an advanced AI assistant with real-time data analysis capabilities. Provide insightful analysis and up-to-date information." context)
    (Grok3Extras true).

Definition formatForVertix (context : list Turn) : PlatformPrompt :=
  MessagesPrompt
    (formatMessages "You are Majd, an advanced AI assistant with specialized domain expertise. Provide industry-specific insights and domain knowledge." context)
    NoExtras.

Definition formatForLocal (context : list Turn) : PlatformPrompt :=
  MessagesPrompt
    (formatMessages "You are Majd, an advanced AI assistant. Provide helpful and accurate responses." context)
    NoExtras.

(** [platform] may be [undefined]; the [switch] then takes its default
    (no case label is the string "undefined"). *)
Definition formatContextForPlatform (context : list Turn)
    (platform : option string) : PlatformPrompt :=
  let platform := JS.showOpt platform in
  if String.eqb platform "chatgpt" then formatForChatGPT context
  else if String.eqb platform "perplexity" then formatForPerplexity context
  else if String.eqb platform "gemini" then formatForGemini context
  else if String.eqb platform "copilot" then formatForCopilot context
  else if String.eqb platform "deepseek" then formatForDeepSeek context
  else if String.eqb platform "grok3" then formatForGrok3 context
  else if String.eqb platform "vertix" then formatForVertix context
  else if String.eqb platform "local" then formatForLocal context
  else formatForChatGPT context.

(** *** Reading and writing the store *)

(** The options [getContext] reads. *)
Record GetContextOptions : Type := mkGetContextOptions {
  gc_platform : option string;
  gc_userInput : option string;
  gc_enableSemanticSearch : bool;
  gc_maxRelevantItems : option nat
}.

Definition noGetContextOptions : GetContextOptions :=
  mkGetContextOptions None None false None.

(** [optimizeContext] under [this.contextWindowSizes[platform] || 32000]: a
    platform naming an inherited property yields a non-number, the limit is
    NaN, no comparison succeeds and every turn is kept. *)
Definition optimizeFor (platform : string) (context : list Turn) : list Turn :=
  match contextWindowSizes platform with
  | Some size => optimizeContext context size
  | None =>
      if JS.isInheritedKey platform then context
      else optimizeContext context 32000%Q
  end.

Definition mergeAndOptimizeFor (platform : string)
    (recentContext relevantHistory : list Turn) : list Turn :=
  match contextWindowSizes platform with
  | Some size => mergeAndOptimizeContext recentContext relevantHistory size
  | None =>
      if JS.isInheritedKey platform
      then (recentContext
            ++ (match relevantHistory with [] => [] | _ => [separatorTurn] end)
            ++ relevantHistory)%list
      else mergeAndOptimizeContext recentContext relevantHistory 32000%Q
  end.

Section Store.

Variable env : Env.

(** [config.MAX_CONTEXT_LENGTH || 10] *)
Definition maxContextLength : nat :=
  match MAX_CONTEXT_LENGTH env with
  | Some (S n) => S n
  | _ => 10
  end.

Definition getContext (userId : string) (options : GetContextOptions)
  : M (list Turn) :=
  tryCatch
    (let platform :=
       if JS.truthyOpt (gc_platform options) then JS.showOpt (gc_platform options)
       else "chatgpt" in
     t <- ask ;;
     conversationHistory <- lift (getConversationHistory env t userId maxContextLength) ;;
     let optimizedContext := optimizeFor platform conversationHistory in
     if gc_enableSemanticSearch options && JS.truthyOpt (gc_userInput options)
     then
       relevantHistory <-
         lift (searchSimilarConversations env t userId
                 (JS.showOpt (gc_userInput options))
                 (match gc_maxRelevantItems options with
                  | Some (S n) => S n
                  | _ => 3
                  end)) ;;
       ret (mergeAndOptimizeFor platform optimizedContext relevantHistory)
     else ret optimizedContext)
    (fun _ => ret []).

(** [saveContext]; [platform] and [taskType] come from the metadata. *)
Definition saveContext (userId userInput : string) (aiResponse : Value)
    (platform : option string) (taskType : string) : M bool :=
  tryCatch
    (let conversationTurn :=
       SavedTurn userId userInput aiResponse
         (if JS.truthyOpt platform then JS.showOpt platform else "unknown")
         (if JS.truthyString taskType then taskType else "general") in
     t <- ask ;;
     emit conversationTurn ;;;
     lift (saveConversationTurn env t conversationTurn) ;;;
     ret true)
    (fun _ => ret false).

End Store.

End ContextManager.

(* ------------------------------------------------------------------ *)
(** ** ThinkingEngine *)

Module ThinkingEngine.

(** [this.reasoningSteps]: key to label. *)
Definition reasoningStepsTable (key : string) : option string :=
  if String.eqb key "PROBLEM_UNDERSTANDING" then Some "problem_understanding"
  else if String.eqb key "INFORMATION_GATHERING" then Some "information_gathering"
  else if String.eqb key "APPROACH_SELECTION" then Some "approach_selection"
  else if String.eqb key "STEP_BY_STEP_REASONING" then Some "step_by_step_reasoning"
  else if String.eqb key "VERIFICATION" then Some "verification"
  else if String.eqb key "CONCLUSION" then Some "conclusion"
  else None.

(** [this.reasoningTemplates]: its keys are the labels, not the keys of
    [reasoningSteps]. *)
Definition reasoningTemplates (label : string) : option string :=
  if String.eqb label "problem_understanding" then Some "Let me understand the problem: {problem}"
  else if String.eqb label "information_gathering" then Some "Relevant information I need to consider: {information}"
  else if String.eqb label "approach_selection" then Some "I'll approach this by: {approach}"
  else if String.eqb label "step_by_step_reasoning" then Some "Step {step_number}: {step_content}"
  else if String.eqb label "verification" then Some "Let me verify my solution: {verification}"
  else if String.eqb label "conclusion" then Some "Therefore, the answer is: {conclusion}"
  else None.

Definition generalReasoning : list string :=
  ["PROBLEM_UNDERSTANDING"; "APPROACH_SELECTION"; "STEP_BY_STEP_REASONING"; "CONCLUSION"].

(** Own entries of [this.taskTypeReasoningMap]. *)
Definition taskTypeReasoningMap (taskType : string) : option (list string) :=
  if String.eqb taskType "research" then
    Some ["PROBLEM_UNDERSTANDING"; "INFORMATION_GATHERING"; "APPROACH_SELECTION"; "STEP_BY_STEP_REASONING"; "CONCLUSION"]
  else if String.eqb taskType "reasoning" then
    Some ["PROBLEM_UNDERSTANDING"; "APPROACH_SELECTION"; "STEP_BY_STEP_REASONING"; "VERIFICATION"; "CONCLUSION"]
  else if String.eqb taskType "code" then
    Some ["PROBLEM_UNDERSTANDING"; "APPROACH_SELECTION"; "STEP_BY_STEP_REASONING"; "VERIFICATION"; "CONCLUSION"]
  else if String.eqb taskType "creative" then
    Some ["PROBLEM_UNDERSTANDING"; "APPROACH_SELECTION"; "STEP_BY_STEP_REASONING"; "CONCLUSION"]
  else if String.eqb taskType "data_analysis" then
    Some ["PROBLEM_UNDERSTANDING"; "INFORMATION_GATHERING"; "APPROACH_SELECTION"; "STEP_BY_STEP_REASONING"; "VERIFICATION"; "CONCLUSION"]
  else if String.eqb taskType "domain_expertise" then
    Some ["PROBLEM_UNDERSTANDING"; "INFORMATION_GATHERING"; "APPROACH_SELECTION"; "STEP_BY_STEP_REASONING"; "CONCLUSION"]
  else if String.eqb taskType "general" then Some generalReasoning
  else None.

Definition generateSystemPrompt (taskType : string) : string :=
  let basePrompt := "You are Majd, an advanced AI assistant that shows explicit reasoning and thinking processes. " in
  let taskSpecificPrompt :=
    if String.eqb taskType "research" then
      "For this research task, show your information gathering process, evaluate sources, and synthesize findings. Cite sources when available."
    else if String.eqb taskType "reasoning" then
      "For this reasoning task, break down the problem, show each logical step, verify your work, and explain your conclusion."
    else if String.eqb taskType "code" then
      "For this coding task, analyze the requirements, plan your approach, implement the solution step by step, and test your code."
    else if String.eqb taskType "creative" then
      "For this creative task, explain your inspiration, outline your approach, and show how you developed the creative elements."
    else if String.eqb taskType "data_analysis" then
      "For this data analysis task, describe your methodology, show your analysis process, verify your findings, and present conclusions."
    else if String.eqb taskType "domain_expertise" then
      "For this domain-specific task, apply specialized knowledge, explain industry-specific concepts, and provide expert insights."
    else
      "Break down your thinking process into clear steps, showing how you arrive at your answer." in
  let thinkingStylePrompt :=
    "Always make your reasoning explicit using a step-by-step approach. "
    ++ "First understand the problem, then gather relevant information, select an approach, "
    ++ "work through the solution methodically, verify your answer when appropriate, and provide a clear conclusion." in
  basePrompt ++ taskSpecificPrompt ++ " " ++ thinkingStylePrompt.

(** [generateThinkingPrompts].  A task type naming an inherited property
    makes [reasoningStepKeys] a non-array, and [reasoningStepKeys.map]
    throws.  The templates are looked up under the step key, which
    [reasoningTemplates] does not hold. *)
Definition generateThinkingPrompts (taskType userInput : string)
  : JS.Result ThinkingPrompts :=
  if JS.isInheritedKey taskType
  then JS.Throw "reasoningStepKeys.map is not a function"
  else
    let reasoningStepKeys :=
      match taskTypeReasoningMap taskType with
      | Some keys => keys
      | None => generalReasoning
      end in
    JS.Return
      (mkThinkingPrompts
         (generateSystemPrompt taskType)
         (map (fun step => JS.showOpt (reasoningStepsTable step)) reasoningStepKeys)
         (map (fun step => (JS.showOpt (reasoningStepsTable step), reasoningTemplates step))
              reasoningStepKeys)).

(** Modelled from the spec: [findLastIndex], a helper of thinkingEngine.js
    whose text is not part of the sources; by its name and use ("append the
    reasoning-phase instructions to the last user-role message") it returns
    the index of the last element satisfying the predicate, none if no
    element does. *)
Fixpoint findLastIndex {A} (p : A -> bool) (l : list A) : option nat :=
  match l with
  | [] => None
  | x :: r =>
      match findLastIndex p r with
      | Some i => Some (S i)
      | None => if p x then Some 0 else None
      end
  end.

Section Enhance.

(** [generateThinkingInstructions] lies in the part of thinkingEngine.js
    that the sources do not contain; it is a parameter, and it may throw. *)
Variable generateThinkingInstructions : ThinkingPrompts -> JS.Result string.

Definition isSystem (m : Message) : bool := String.eqb (msg_role m) "system".
Definition isUser (m : Message) : bool := String.eqb (msg_role m) "user".

(** The statements that the enhancers of the [messages] shape share, on
    the cloned [messages]; [merge] is what becomes of the content of a
    system message that is already there.  The instructions are generated
    only when there is a user message to append them to. *)
Definition enhanceMessagesBy (merge : string -> string -> string)
    (messages : list Message) (thinkingPrompts : ThinkingPrompts)
  : JS.Result (list Message) :=
  let systemMessageIndex := findIndex isSystem messages in
  let messages1 :=
    match systemMessageIndex with
    | Some i =>
        updateAt i
          (fun m => mkMessage (msg_role m)
                      (merge (systemPrompt thinkingPrompts) (msg_content m)))
          messages
    | None => mkMessage "system" (systemPrompt thinkingPrompts) :: messages
    end in
  let lastUserMessageIndex := findLastIndex isUser messages1 in
  match lastUserMessageIndex with
  | Some j =>
      JS.bindR (generateThinkingInstructions thinkingPrompts)
        (fun thinkingInstructions =>
           JS.Return
             (updateAt j
                (fun m => mkMessage (msg_role m)
                            (msg_content m ++ JS.newline ++ JS.newline
                             ++ thinkingInstructions))
                messages1))
  | None => JS.Return messages1
  end.

(** [`${thinkingPrompts.systemPrompt} ${content}`] *)
Definition prependInstruction (systemPrompt content : string) : string :=
  systemPrompt ++ " " ++ content.

Definition enhanceMessages := enhanceMessagesBy prependInstruction.

Definition enhanceChatGPTPrompt (platformPrompt : PlatformPrompt)
    (thinkingPrompts : ThinkingPrompts) : JS.Result PlatformPrompt :=
  match platformPrompt with
  | MessagesPrompt messages extras =>
      JS.bindR (enhanceMessages messages thinkingPrompts)
               (fun messages' => JS.Return (MessagesPrompt messages' extras))
  | ContentsPrompt _ =>
      JS.Throw "Cannot read properties of undefined (reading 'findIndex')"
  end.

(** The Perplexity, Copilot, DeepSeek and Grok3 enhancers repeat the body
    of [enhanceChatGPTPrompt] word for word. *)
Definition enhancePerplexityPrompt := enhanceChatGPTPrompt.
Definition enhanceCopilotPrompt := enhanceChatGPTPrompt.
Definition enhanceDeepSeekPrompt := enhanceChatGPTPrompt.
Definition enhanceGrok3Prompt := enhanceChatGPTPrompt.

(** Modelled from the spec: [enhanceVertixPrompt] and [enhanceLocalPrompt]
    lie in the part of thinkingEngine.js that the sources do not contain.
    "Regardless of schema, the rule is identical: prepend/merge the thinking
    system-instruction into the existing (or a newly created) system
    message, and append the reasoning-phase instructions to the last
    user-role message"; the function "must not duplicate a system message
    already present", and a second call "must not duplicate the injected
    system instruction (second call is a no-op or safely merges)".  So the
    instruction is prepended to a system message unless that message
    starts with it already. *)
Definition mergeInstruction (systemPrompt content : string) : string :=
  if Text.startsWith content systemPrompt then content
  else systemPrompt ++ " " ++ content.

Definition enhanceMergingPrompt (platformPrompt : PlatformPrompt)
    (thinkingPrompts : ThinkingPrompts) : JS.Result PlatformPrompt :=
  match platformPrompt with
  | MessagesPrompt messages extras =>
      JS.bindR (enhanceMessagesBy mergeInstruction messages thinkingPrompts)
               (fun messages' => JS.Return (MessagesPrompt messages' extras))
  | ContentsPrompt _ =>
      JS.Throw "Cannot read properties of undefined (reading 'findIndex')"
  end.

Definition enhanceVertixPrompt := enhanceMergingPrompt.
Definition enhanceLocalPrompt := enhanceMergingPrompt.

Definition isSystemContent (c : Content) : bool := String.eqb (cnt_role c) "system".
Definition isUserContent (c : Content) : bool := String.eqb (cnt_role c) "user".

(** [contents[i].parts[0].text = f(contents[i].parts[0].text)]; reading
    [parts[0].text] throws when [parts] is empty. *)
Definition withFirstPart (f : string -> string) (c : Content) : Content :=
  mkContent (cnt_role c)
    (match cnt_parts c with
     | text :: rest => f text :: rest
     | [] => []
     end).

Definition updateFirstPart (i : nat) (f : string -> string)
    (contents : list Content) : JS.Result (list Content) :=
  match nth_error contents i with
  | Some (mkContent _ (_ :: _)) =>
      JS.Return (updateAt i (withFirstPart f) contents)
  | _ => JS.Throw "Cannot read properties of undefined (reading 'text')"
  end.

Definition enhanceContents (contents : list Content)
    (thinkingPrompts : ThinkingPrompts) : JS.Result (list Content) :=
  let systemMessageIndex := findIndex isSystemContent contents in
  JS.bindR
    (match systemMessageIndex with
     | Some i =>
         updateFirstPart i
           (fun text => systemPrompt thinkingPrompts ++ " " ++ text) contents
     | None =>
         JS.Return (mkContent "system" [systemPrompt thinkingPrompts] :: contents)
     end)
    (fun contents1 =>
       let lastUserMessageIndex := findLastIndex isUserContent contents1 in
       match lastUserMessageIndex with
       | Some j =>
           JS.bindR (generateThinkingInstructions thinkingPrompts)
             (fun thinkingInstructions =>
                updateFirstPart j
                  (fun text => text ++ JS.newline ++ JS.newline
                               ++ thinkingInstructions)
                  contents1)
       | None => JS.Return contents1
       end).

Definition enhanceGeminiPrompt (platformPrompt : PlatformPrompt)
    (thinkingPrompts : ThinkingPrompts) : JS.Result PlatformPrompt :=
  match platformPrompt with
  | ContentsPrompt contents =>
      JS.bindR (enhanceContents contents thinkingPrompts)
               (fun contents' => JS.Return (ContentsPrompt contents'))
  | MessagesPrompt _ _ =>
      JS.Throw "Cannot read properties of undefined (reading 'findIndex')"
  end.

Definition enhancePromptWithThinking (platformPrompt : PlatformPrompt)
    (thinkingPrompts : ThinkingPrompts) (platform : option string)
  : JS.Result PlatformPrompt :=
  let platform := JS.showOpt platform in
  if String.eqb platform "chatgpt" then enhanceChatGPTPrompt platformPrompt thinkingPrompts
  else if String.eqb platform "perplexity" then enhancePerplexityPrompt platformPrompt thinkingPrompts
  else if String.eqb platform "gemini" then enhanceGeminiPrompt platformPrompt thinkingPrompts
  else if String.eqb platform "copilot" then enhanceCopilotPrompt platformPrompt thinkingPrompts
  else if String.eqb platform "deepseek" then enhanceDeepSeekPrompt platformPrompt thinkingPrompts
  else if String.eqb platform "grok3" then enhanceGrok3Prompt platformPrompt thinkingPrompts
  else if String.eqb platform "vertix" then enhanceVertixPrompt platformPrompt thinkingPrompts
  else if String.eqb platform "local" then enhanceLocalPrompt platformPrompt thinkingPrompts
  else enhanceChatGPTPrompt platformPrompt thinkingPrompts.

End Enhance.

End ThinkingEngine.

(* ------------------------------------------------------------------ *)
(** ** ResponseSynthesizer *)

Module ResponseSynthesizer.

Definition truthy (v : Value) : bool :=
  match v with
  | VUndefined | VNull => false
  | VBool b => b
  | VNum q => negb (Qeq_bool q 0)
  | VStr s => JS.truthyString s
  | VArr _ | VObj _ => true
  end.

(** Own property of a parsed JSON object; a repeated key keeps its last
    binding. *)
Fixpoint lookupField (key : string) (fields : list (string * Value))
  : option Value :=
  match fields with
  | [] => None
  | (k, v) :: rest =>
      match lookupField key rest with
      | Some w => Some w
      | None => if String.eqb key k then Some v else None
      end
  end.

Definition lengthValue (n : nat) : Value := VNum (inject_Z (Z.of_nat n)).

(** [v.key] for the property names the extractors read (none of them is
    inherited or an array or string method). *)
Definition getProp (v : Value) (key : string) : JS.Result Value :=
  match v with
  | VUndefined =>
      JS.Throw ("Cannot read properties of undefined (reading '" ++ key ++ "')")
  | VNull =>
      JS.Throw ("Cannot read properties of null (reading '" ++ key ++ "')")
  | VObj fields =>
      JS.Return (match lookupField key fields with Some w => w | None => VUndefined end)
  | VArr items =>
      JS.Return (if String.eqb key "length" then lengthValue (List.length items)
                 else VUndefined)
  | VStr s =>
      JS.Return (if String.eqb key "length" then lengthValue (String.length s)
                 else VUndefined)
  | VBool _ | VNum _ => JS.Return VUndefined
  end.

(** [v[0]] *)
Definition getFirst (v : Value) : JS.Result Value :=
  match v with
  | VUndefined => JS.Throw "Cannot read properties of undefined (reading '0')"
  | VNull => JS.Throw "Cannot read properties of null (reading '0')"
  | VObj fields =>
      JS.Return (match lookupField "0" fields with Some w => w | None => VUndefined end)
  | VArr items => JS.Return (match items with x :: _ => x | [] => VUndefined end)
  | VStr s =>
      JS.Return (match s with
                 | String c _ => VStr (String c EmptyString)
                 | EmptyString => VUndefined
                 end)
  | VBool _ | VNum _ => JS.Return VUndefined
  end.

Section Extract.

Variable builtins : Builtins.

(** Conversion to string; a string converts to itself. *)
Definition toText (v : Value) : string :=
  match v with
  | VStr s => s
  | other => ToString builtins other
  end.

(** [v > 0] *)
Definition gtZero (v : Value) : bool :=
  match v with
  | VNum q => negb (Qle_bool q 0)
  | other =>
      match ToNumber builtins other with
      | Some q => negb (Qle_bool q 0)
      | None => false
      end
  end.

(** [x && x.length > 0] for a value [x] already read. *)
Definition nonEmpty (x : Value) : JS.Result bool :=
  if truthy x
  then JS.bindR (getProp x "length") (fun len => JS.Return (gtZero len))
  else JS.Return false.

(** [typeof response === 'string' ? response : JSON.stringify(response)] *)
Definition stringifyRaw (response : Value) : Value :=
  match response with
  | VStr s => VStr s
  | VUndefined => VUndefined
  | other => VStr (JSON_stringify builtins other)
  end.

(** [response.choices[0].message.content] behind its guard; shared by the
    ChatGPT, Copilot and DeepSeek extractors, whose bodies are the same. *)
Definition extractChatGPTContent (response : Value) : JS.Result Value :=
  JS.bindR (getProp response "choices") (fun choices =>
  JS.bindR (nonEmpty choices) (fun guard =>
  if guard
  then JS.bindR (getFirst choices) (fun choice =>
       JS.bindR (getProp choice "message") (fun message =>
       getProp message "content"))
  else JS.Return (stringifyRaw response))).

Definition extractCopilotContent := extractChatGPTContent.
Definition extractDeepSeekContent := extractChatGPTContent.

(** The [forEach] over the citations; [index] counts from 0. *)
Fixpoint appendCitations (citations : list Value) (index : nat)
    (content : string) : JS.Result string :=
  match citations with
  | [] => JS.Return content
  | citation :: rest =>
      JS.bindR (getProp citation "title") (fun title =>
      JS.bindR (getProp citation "url") (fun url =>
      appendCitations rest (S index)
        (content ++ NilEmpty.string_of_uint (Nat.to_uint (index + 1)) ++ ". ["
         ++ toText title ++ "](" ++ toText url ++ ")"
         ++ JS.newline)))
  end.

Definition extractPerplexityContent (response : Value) : JS.Result Value :=
  JS.bindR (getProp response "answer") (fun answer =>
  if truthy answer
  then
    JS.bindR (getProp answer "text") (fun text =>
    JS.bindR (getProp answer "citations") (fun citations =>
    JS.bindR (nonEmpty citations) (fun guard =>
    if guard
    then
      let content :=
        toText text ++ JS.newline ++ JS.newline ++ "**Sources:**"
        ++ JS.newline in
      match citations with
      | VArr items =>
          JS.bindR (appendCitations items 0 content) (fun c => JS.Return (VStr c))
      | _ => JS.Throw "response.answer.citations.forEach is not a function"
      end
    else JS.Return text)))
  else JS.Return (stringifyRaw response)).

Definition extractGeminiContent (response : Value) : JS.Result Value :=
  JS.bindR (getProp response "candidates") (fun candidates =>
  JS.bindR (nonEmpty candidates) (fun guard =>
  if guard
  then JS.bindR (getFirst candidates) (fun candidate =>
       JS.bindR (getProp candidate "content") (fun content =>
       JS.bindR (getProp content "parts") (fun parts =>
       JS.bindR (getFirst parts) (fun part =>
       getProp part "text"))))
  else JS.Return (stringifyRaw response))).

Definition extractGrok3Content (response : Value) : JS.Result Value :=
  JS.bindR (getProp response "output") (fun output =>
  if truthy output
  then JS.bindR (getProp output "content") (fun content =>
       if truthy content then JS.Return content
       else JS.Return (stringifyRaw response))
  else JS.Return (stringifyRaw response)).

Definition extractVertixContent (response : Value) : JS.Result Value :=
  JS.bindR (getProp response "content") (fun content =>
  if truthy content then JS.Return content
  else JS.Return (stringifyRaw response)).

Definition extractLocalContent (response : Value) : JS.Result Value :=
  JS.bindR (getProp response "output") (fun output =>
  if truthy output then JS.Return output
  else JS.Return (stringifyRaw response)).

Definition extractContent (response : Value) (platform : option string)
  : JS.Result Value :=
  let platform := JS.showOpt platform in
  if String.eqb platform "chatgpt" then extractChatGPTContent response
  else if String.eqb platform "perplexity" then extractPerplexityContent response
  else if String.eqb platform "gemini" then extractGeminiContent response
  else if String.eqb platform "copilot" then extractCopilotContent response
  else if String.eqb platform "deepseek" then extractDeepSeekContent response
  else if String.eqb platform "grok3" then extractGrok3Content response
  else if String.eqb platform "vertix" then extractVertixContent response
  else if String.eqb platform "local" then extractLocalContent response
  else JS.Return (stringifyRaw response).

(** "Returns a string": the value is a JavaScript string. *)
Definition isString (v : Value) : bool :=
  match v with
  | VStr _ => true
  | _ => false
  end.

End Extract.

(** *** Processing and merging *)

(** The options object [processRequest] hands to [processResponse]. *)
Record ProcessOptions : Type := mkProcessOptions {
  po_format : option string;
  po_includeThinking : bool;
  po_includeAttribution : bool;
  po_extractThinking : bool
}.

(** The options object [processMultiPlatformRequest] hands to
    [mergeResponses]. *)
Record MergeOptions : Type := mkMergeOptions {
  mo_format : option string;
  mo_mergeStrategy : option string;
  mo_includeSectionHeaders : bool
}.

Definition orElse (o : option string) (default : string) : string :=
  if JS.truthyOpt o then JS.showOpt o else default.

Section Synthesis.

Variable env : Env.

Definition processResponse (response : Value) (requestInfo : RoutingInfo)
    (thinkingPrompts : option ThinkingPrompts) (options : ProcessOptions)
  : JS.Result Response :=
  let format := orElse (po_format options) "markdown" in
  JS.tryCatchR
    (JS.bindR (extractContent (builtins env) response (ri_platform requestInfo))
       (fun content =>
     JS.bindR
       (match thinkingPrompts with
        | Some prompts =>
            if po_extractThinking options
            then JS.bindR (extractThinkingProcess env content prompts)
                          (fun thinking => JS.Return (Some thinking))
            else JS.Return None
        | None => JS.Return None
        end)
       (fun thinking =>
     JS.bindR
       (formatResponse env content thinking format
          (mkFormatOptions (po_includeThinking options)
                           (po_includeAttribution options) None))
       (fun formatted =>
     JS.Return
       (mkResponse content formatted (ri_platform requestInfo)
          (Some (ri_taskType requestInfo)) (Some (ri_userId requestInfo))
          (Some format) thinking None None [] None)))))
    (fun message =>
       JS.Return
         (mkResponse
            (VStr "I encountered an issue processing the response. Please try again.")
            "I encountered an issue processing the response. Please try again."
            (ri_platform requestInfo) (Some (ri_taskType requestInfo))
            (Some (ri_userId requestInfo)) (Some format) None (Some message)
            None [] None)).

Definition mergeResponses (responses : list Response) (options : MergeOptions)
  : JS.Result Response :=
  JS.tryCatchR
    (match responses with
     | [] => JS.Throw "No responses to merge"
     | [single] => JS.Return single
     | first :: _ =>
         let format :=
           if JS.truthyOpt (mo_format options) then JS.showOpt (mo_format options)
           else orElse (format first) "markdown" in
         let mergeStrategy := orElse (mo_mergeStrategy options) "sequential" in
         JS.bindR
           (if String.eqb mergeStrategy "sequential" then mergeSequential env responses
            else if String.eqb mergeStrategy "best_first" then mergeBestFirst env responses
            else if String.eqb mergeStrategy "task_specific" then mergeTaskSpecific env responses
            else mergeSequential env responses)
           (fun content =>
         JS.bindR
           (formatResponse env (VStr content) None format
              (mkFormatOptions false false (Some "merged")))
           (fun formatted =>
         JS.Return
           (mkResponse (VStr content) formatted (Some "merged") (taskType first)
              (userId first) (Some format) None None None
              (map (fun r => (platform r, taskType r)) responses) None)))
     end)
    (fun message =>
       JS.Return
         (mkResponse
            (VStr "I encountered an issue merging the responses. Please try again.")
            "I encountered an issue merging the responses. Please try again."
            (Some "merged")
            (Some (orElse (match responses with r :: _ => taskType r | [] => None end) "unknown"))
            (Some (orElse (match responses with r :: _ => userId r | [] => None end) "unknown"))
            (Some (orElse (mo_format options) "markdown"))
            None (Some message) None [] None)).

End Synthesis.

End ResponseSynthesizer.

(* ------------------------------------------------------------------ *)
(** ** TaskRouter *)

Module TaskRouter.

(** [this.taskTypes] *)
Definition RESEARCH : string := "research".
Definition REASONING : string := "reasoning".
Definition CODE : string := "code".
Definition CREATIVE : string := "creative".
Definition DATA_ANALYSIS : string := "data_analysis".
Definition DOMAIN_EXPERTISE : string := "domain_expertise".
Definition GENERAL : string := "general".

(** An entry of [this.platformMapping]; the fields of a value that is not
    an entry are [undefined]. *)
Record PlatformMap : Type := mkPlatformMap {
  primary : option string;
  secondary : option string;
  fallback : option string
}.

Definition entry (p s f : string) : PlatformMap :=
  mkPlatformMap (Some p) (Some s) (Some f).

(** Own entries of [this.platformMapping]. *)
Definition platformMapping (taskType : string) : option PlatformMap :=
  if String.eqb taskType RESEARCH then Some (entry "perplexity" "gemini" "local")
  else if String.eqb taskType REASONING then Some (entry "deepseek" "gemini" "local")
  else if String.eqb taskType CODE then Some (entry "copilot" "deepseek" "local")
  else if String.eqb taskType CREATIVE then Some (entry "chatgpt" "gemini" "local")
  else if String.eqb taskType DATA_ANALYSIS then Some (entry "grok3" "gemini" "local")
  else if String.eqb taskType DOMAIN_EXPERTISE then Some (entry "vertix" "chatgpt" "local")
  else if String.eqb taskType GENERAL then Some (entry "chatgpt" "deepseek" "local")
  else None.

(** [this.platformMapping[taskType] || this.platformMapping[GENERAL]]: an
    inherited property is truthy and has none of the three fields. *)
Definition platformMapFor (taskType : string) : PlatformMap :=
  match platformMapping taskType with
  | Some platformMap => platformMap
  | None =>
      if JS.isInheritedKey taskType then mkPlatformMap None None None
      else entry "chatgpt" "deepseek" "local"
  end.

Definition ruleBasedClassification (userInput : string) (context : list Turn)
  : string :=
  let input := Text.toLowerCase userInput in
  if Text.includes input "code"
     || Text.includes input "function"
     || Text.includes input "programming"
     || Text.includes input "debug"
     || Text.includes input "algorithm"
     || Text.matchCodeFence input
  then CODE
  else if Text.includes input "research"
     || Text.includes input "find information"
     || Text.includes input "search for"
     || Text.includes input "look up"
     || Text.includes input "what is"
     || Text.includes input "tell me about"
  then RESEARCH
  else if Text.includes input "solve"
     || Text.includes input "calculate"
     || Text.includes input "math"
     || Text.includes input "logic"
     || Text.includes input "prove"
     || Text.includes input "explain why"
  then REASONING
  else if Text.includes input "write a"
     || Text.includes input "create a"
     || Text.includes input "generate a"
     || Text.includes input "design"
     || Text.includes input "story"
     || Text.includes input "poem"
  then CREATIVE
  else if Text.includes input "analyze"
     || Text.includes input "data"
     || Text.includes input "trends"
     || Text.includes input "statistics"
     || Text.includes input "graph"
     || Text.includes input "chart"
  then DATA_ANALYSIS
  else if Text.includes input "industry"
     || Text.includes input "sector"
     || Text.includes input "specialized"
     || Text.includes input "expert"
     || Text.includes input "professional"
  then DOMAIN_EXPERTISE
  else GENERAL.

(** The object [getPlatformForTask] returns. *)
Record PlatformInfo : Type := mkPlatformInfo {
  pi_platform : option string;
  pi_taskType : string;
  pi_secondary : option string;
  pi_fallback : option string;
  pi_isUserPreferred : bool;
  pi_isCostOptimized : bool
}.

(** [options.userPreferences && options.userPreferences.preferredPlatform] *)
Definition preferredPlatformOf (options : Options) : option string :=
  match userPreferences options with
  | Some preferences =>
      if JS.truthyOpt (preferredPlatform preferences)
      then preferredPlatform preferences
      else None
  | None => None
  end.

Definition getPlatformForTask (taskType : string) (options : Options)
  : PlatformInfo :=
  let platformMap := platformMapFor taskType in
  match preferredPlatformOf options with
  | Some preferred =>
      mkPlatformInfo (Some preferred) taskType None None true false
  | None =>
      if optimizeCost options && negb (isPremiumUser options)
      then mkPlatformInfo (fallback platformMap) taskType None None false true
      else mkPlatformInfo (primary platformMap) taskType
             (secondary platformMap) (fallback platformMap) false false
  end.

(** Conversion to number, as [>] applies it to an operand that is compared
    with a number: [true] is 1, [false] and [null] are 0, [undefined] is NaN
    ([None]); strings and objects are converted by the builtin. *)
Definition toNumber (builtins : Builtins) (v : Value) : option Q :=
  match v with
  | VNum q => Some q
  | VBool true => Some 1%Q
  | VBool false => Some 0%Q
  | VNull => Some 0%Q
  | VUndefined => None
  | other => ToNumber builtins other
  end.

(** [confidence > config.ML_CONFIDENCE_THRESHOLD]: the confidence is
    converted to a number; a comparison with NaN or with a threshold that
    the configuration does not define is false. *)
Definition exceedsThreshold (builtins : Builtins) (confidence : Value)
    (threshold : option Q) : bool :=
  match toNumber builtins confidence, threshold with
  | Some c, Some th => negb (Qle_bool c th)
  | _, _ => false
  end.

Section Routing.

Variable env : Env.

Definition classifyTask (userInput userId : string) (options : Options)
  : M string :=
  tryCatch
    (context <- ContextManager.getContext env userId
                  ContextManager.noGetContextOptions ;;
     t <- ask ;;
     if classifier_isInitialized env t
     then
       match classifier_classify env t userInput context with
       | MLThrows message => throw message
       | MLNull =>
           throw "Cannot read properties of null (reading 'confidence')"
       | MLResult confidence taskType =>
           if exceedsThreshold (builtins env) confidence
                (ML_CONFIDENCE_THRESHOLD env)
           then ret taskType
           else ret (ruleBasedClassification userInput context)
       end
     else ret (ruleBasedClassification userInput context))
    (fun _ => ret GENERAL).

Definition routeRequest (userInput userId : string) (options : Options)
  : M RoutingInfo :=
  tryCatch
    (taskType <- classifyTask userInput userId options ;;
     let platformInfo := getPlatformForTask taskType options in
     ret (mkRoutingInfo userId userInput taskType
            (pi_platform platformInfo) (pi_secondary platformInfo)
            (pi_fallback platformInfo) false))
    (fun _ =>
       ret (mkRoutingInfo userId userInput GENERAL
              (Some "chatgpt") (Some "deepseek") (Some "local") true)).

End Routing.

End TaskRouter.

(* ------------------------------------------------------------------ *)
(** ** OrchestrationLayer *)

Module OrchestrationLayer.

(** What [platformModules[platform]] can be: a provider module, or a
    property the table inherits, which has no [generateResponse]. *)
Inductive PlatformModule : Type :=
| ProviderModule (name : string)
| InheritedProperty.

(** [{ ...options, isFallback: true, isFallbackSecondary: ..., overridePlatform: ... }] *)
Definition fallbackOptions (options : Options) (fallbackPlatform : option string)
  : Options :=
  mkOptions (userPreferences options) (optimizeCost options)
    (isPremiumUser options) (enableFallback options)
    true (negb (isFallbackSecondary options)) fallbackPlatform
    (enableSemanticSearch options) (maxRelevantItems options)
    (responseFormat options) (includeThinking options)
    (includeAttribution options) (mergeStrategy options)
    (includeSectionHeaders options).

(** [{ ...options, overridePlatform: platform, enableFallback: false }] *)
Definition branchOptions (options : Options) (platform : string) : Options :=
  mkOptions (userPreferences options) (optimizeCost options)
    (isPremiumUser options) (Some false)
    (isFallback options) (isFallbackSecondary options) (Some platform)
    (enableSemanticSearch options) (maxRelevantItems options)
    (responseFormat options) (includeThinking options)
    (includeAttribution options) (mergeStrategy options)
    (includeSectionHeaders options).

(** [x !== false] *)
Definition notFalse (o : option bool) : bool :=
  match o with
  | Some false => false
  | _ => true
  end.

(** The fallback platform [handleFallback] determines. *)
Definition fallbackPlatformOf (options : Options) (routingInfo : RoutingInfo)
  : option string :=
  if isFallbackSecondary options
  then ri_fallback routingInfo
  else ri_secondary routingInfo.

Definition errorResponse (text : string) (message : string)
    (original : option string) (userId : string) : Response :=
  mkResponse (VStr text) text None None (Some userId) None None
    (Some message) original [] None.

Section Orchestration.

Variable env : Env.

(** [getPlatformModule]: a failing [require] is caught and gives [null]. *)
Definition getPlatformModule (platform : option string)
  : M (option PlatformModule) :=
  t <- ask ;;
  if platformModulesLoad env t
  then
    let key := JS.showOpt platform in
    if existsb (String.eqb key) providers then ret (Some (ProviderModule key))
    else if JS.isInheritedKey key then ret (Some InheritedProperty)
    else ret None
  else ret None.

(** [platformModule.generateResponse(enhancedPrompt, ...)] *)
Definition callGenerateResponse (platformModule : PlatformModule)
    (enhancedPrompt : PlatformPrompt) : M Value :=
  match platformModule with
  | ProviderModule name =>
      t <- ask ;;
      emit (ProviderCall name enhancedPrompt) ;;;
      lift (generateResponse env t name enhancedPrompt)
  | InheritedProperty =>
      throw "platformModule.generateResponse is not a function"
  end.

(** The [try] block of [processRequest]. *)
Definition processRequestBody (userInput userId : string) (options : Options)
  : M Response :=
  routingInfo <- TaskRouter.routeRequest env userInput userId options ;;
  context <- ContextManager.getContext env userId
               (ContextManager.mkGetContextOptions (ri_platform routingInfo)
                  (Some userInput) (enableSemanticSearch options) None) ;;
  thinkingPrompts <-
    lift (ThinkingEngine.generateThinkingPrompts (ri_taskType routingInfo) userInput) ;;
  let platformContext :=
    ContextManager.formatContextForPlatform context (ri_platform routingInfo) in
  enhancedPrompt <-
    lift (ThinkingEngine.enhancePromptWithThinking
            (generateThinkingInstructions env) platformContext thinkingPrompts
            (ri_platform routingInfo)) ;;
  platformModule <- getPlatformModule (ri_platform routingInfo) ;;
  match platformModule with
  | None =>
      throw ("Platform module not found for " ++ JS.showOpt (ri_platform routingInfo))
  | Some module =>
      platformResponse <- callGenerateResponse module enhancedPrompt ;;
      processedResponse <-
        lift (ResponseSynthesizer.processResponse env platformResponse
                routingInfo (Some thinkingPrompts)
                (ResponseSynthesizer.mkProcessOptions
                   (Some (ResponseSynthesizer.orElse (responseFormat options) "markdown"))
                   (notFalse (includeThinking options))
                   (notFalse (includeAttribution options))
                   true)) ;;
      ContextManager.saveContext env userId userInput (content processedResponse)
        (ri_platform routingInfo) (ri_taskType routingInfo) ;;;
      ret (withRoutingInfo processedResponse routingInfo)
  end.

(** [handleFallback], with the [processRequest] it calls back as a
    parameter.  The call [return this.processRequest(...)] is not awaited,
    so it lies outside what the [catch] of [handleFallback] guards. *)
Definition handleFallbackWith
    (processRequest : string -> string -> Options -> M Response)
    (userInput userId : string) (message : string) (options : Options)
  : M Response :=
  decision <-
    tryCatch
      (routingInfo <- TaskRouter.routeRequest env userInput userId options ;;
       let fallbackPlatform := fallbackPlatformOf options routingInfo in
       emit (UsingFallback fallbackPlatform (ri_platform routingInfo)) ;;;
       ret (inl (fallbackOptions options fallbackPlatform)))
      (fun fallbackError =>
         ret (inr (errorResponse
                     "I encountered an issue processing your request, and fallback options also failed. Please try again later."
                     fallbackError (Some message) userId))) ;;
  match decision with
  | inl options' => processRequest userInput userId options'
  | inr response => ret response
  end.

Fixpoint processRequest (fuel : nat) (userInput userId : string)
    (options : Options) : M Response :=
  match fuel with
  | 0 => outOfFuel
  | S fuel' =>
      tryCatch
        (processRequestBody userInput userId options)
        (fun message =>
           if notFalse (enableFallback options) && negb (isFallback options)
           then handleFallbackWith (processRequest fuel')
                  userInput userId message options
           else
             ret (errorResponse
                    "I encountered an issue processing your request. Please try again."
                    message None userId))
  end.

Definition handleFallback (fuel : nat) :=
  handleFallbackWith (processRequest fuel).

(** The [for] loop of [processMultiPlatformRequest]. *)
Fixpoint processOnEach (fuel : nat) (userInput userId : string)
    (platforms : list string) (options : Options)
    (platformResponses : list Response) : M (list Response) :=
  match platforms with
  | [] => ret platformResponses
  | platform :: rest =>
      platformResponses' <-
        tryCatch
          (platformResponse <-
             processRequest fuel userInput userId (branchOptions options platform) ;;
           ret (platformResponses ++ [platformResponse])%list)
          (fun _ => ret platformResponses) ;;
      processOnEach fuel userInput userId rest options platformResponses'
  end.

Definition processMultiPlatformRequest (fuel : nat) (userInput userId : string)
    (platforms : list string) (options : Options) : M Response :=
  tryCatch
    (routingInfo <- TaskRouter.routeRequest env userInput userId options ;;
     platformResponses <- processOnEach fuel userInput userId platforms options [] ;;
     mergedResponse <-
       lift (ResponseSynthesizer.mergeResponses env platformResponses
               (ResponseSynthesizer.mkMergeOptions
                  (Some (ResponseSynthesizer.orElse (responseFormat options) "markdown"))
                  (Some (ResponseSynthesizer.orElse (mergeStrategy options) "task_specific"))
                  (notFalse (includeSectionHeaders options)))) ;;
     ret (withRoutingInfo mergedResponse routingInfo))
    (fun message =>
       ret (errorResponse
              "I encountered an issue processing your multi-platform request. Please try again."
              message None userId)).

End Orchestration.

End OrchestrationLayer.

(* ------------------------------------------------------------------ *)
(** ** Sample environments and inputs *)

Module Samples.

(** Conversion of a string to a number, for unsigned decimal literals
    (digits, optionally a point and more digits) and the empty string;
    every other string is NaN here. *)
Definition digitOf (c : ascii) : option Z :=
  let n := nat_of_ascii c in
  if (48 <=? n)%nat && (n <=? 57)%nat then Some (Z.of_nat (n - 48)) else None.

Fixpoint readDigits (s : string) (value : Z) (count : nat)
  : option (Z * nat) :=
  match s with
  | EmptyString => Some (value, count)
  | String c rest =>
      match digitOf c with
      | Some d => readDigits rest (10 * value + d)%Z (S count)
      | None => None
      end
  end.

Fixpoint splitAtPoint (s : string) : string * option string :=
  match s with
  | EmptyString => (EmptyString, None)
  | String c rest =>
      if Ascii.eqb c "."%char then (EmptyString, Some rest)
      else let (whole, fraction) := splitAtPoint rest in
           (String c whole, fraction)
  end.

Definition decimalToNumber (s : string) : option Q :=
  match s with
  | EmptyString => Some 0%Q
  | _ =>
      let (whole, fraction) := splitAtPoint s in
      match readDigits whole 0 0, fraction with
      | Some (w, S _), None => Some (inject_Z w)
      | Some (w, S _), Some digits =>
          match readDigits digits 0 0 with
          | Some (f, places) =>
              Some (inject_Z w
                    + Qmake f (Z.to_pos (10 ^ Z.of_nat places)))%Q
          | None => None
          end
      | _, _ => None
      end
  end.

Definition sampleBuiltins : Builtins :=
  mkBuiltins (fun _ => "[json]") (fun _ => "[value]")
    (fun v => match v with
              | VStr s => decimalToNumber s
              | _ => None
              end).

(** A working provider answer in the ChatGPT shape. *)
Definition chatAnswer (text : string) : Value :=
  VObj [("choices", VArr [VObj [("message", VObj [("content", VStr text)])]])].

(** An environment with an empty store, a store that accepts every turn,
    and the given classifier and provider behaviour. *)
Definition sampleEnv (initialized : bool) (classify : string -> MLOutcome)
    (threshold : option Q)
    (provider : Trace -> string -> JS.Result Value) : Env :=
  mkEnv sampleBuiltins
    (fun _ => JS.Return "Think step by step.")
    (fun _ _ => JS.Return VNull)
    (fun _ => JS.Return "[sequential]")
    (fun _ => JS.Return "[best first]")
    (fun _ => JS.Return "[task specific]")
    (fun content _ _ _ => JS.Return (ResponseSynthesizer.toText sampleBuiltins content))
    threshold None
    (fun _ => initialized)
    (fun _ input _ => classify input)
    (fun _ _ _ => JS.Return [])
    (fun _ _ _ _ => JS.Return [])
    (fun _ _ => JS.Return tt)
    (fun _ => true)
    (fun t name _ => provider t name).

(** No learned classifier; every provider call fails. *)
Definition allFail : Env :=
  sampleEnv false (fun _ => MLNull) None
    (fun _ name => JS.Throw (name ++ " API error: Request failed with status code 401")).

(** No learned classifier; every provider call succeeds. *)
Definition allWork : Env :=
  sampleEnv false (fun _ => MLNull) None
    (fun _ name => JS.Return (chatAnswer ("answer from " ++ name))).

(** No learned classifier; the first provider call of a run fails, later
    ones succeed. *)
Definition firstFails : Env :=
  sampleEnv false (fun _ => MLNull) None
    (fun t name =>
       match providerCalls t with
       | [] => JS.Throw (name ++ " API error: Request failed with status code 401")
       | _ => JS.Return (chatAnswer ("answer from " ++ name))
       end).

(** An initialised learned classifier that throws. *)
Definition classifierThrows : Env :=
  sampleEnv true (fun _ => MLThrows "model not loaded") (Some 0.7%Q)
    (fun _ name => JS.Return (chatAnswer ("answer from " ++ name))).

(** An initialised learned classifier that is unsure of its label. *)
Definition classifierUnsure : Env :=
  sampleEnv true (fun _ => MLResult (VNum 0.4%Q) "creative") (Some 0.7%Q)
    (fun _ name => JS.Return (chatAnswer ("answer from " ++ name))).

(** An initialised learned classifier that reports the given confidence
    for the label creative. *)
Definition classifierReports (confidence : Value) : Env :=
  sampleEnv true (fun _ => MLResult confidence "creative") (Some 0.7%Q)
    (fun _ name => JS.Return (chatAnswer ("answer from " ++ name))).

(** An initialised learned classifier that is sure of a fixed label. *)
Definition classifierSays (label : string) : Env :=
  sampleEnv true (fun _ => MLResult (VNum 0.95%Q) label) (Some 0.7%Q)
    (fun _ name => JS.Return (chatAnswer ("answer from " ++ name))).

(** Three stored turns of 2.6 + 2.6, 3.9 + 2.6 and 1.3 + 1.3 tokens. *)
Definition threeTurns : list Turn :=
  [ mkTurn "u1" "first question" "first answer" "chatgpt" "general" false;
    mkTurn "u1" "a second question" "second answer" "chatgpt" "general" false;
    mkTurn "u1" "third" "fine" "chatgpt" "general" false ].

Definition sampleInstructions (thinkingPrompts : ThinkingPrompts)
  : JS.Result string :=
  JS.Return "Think step by step.".

(** The thinking prompts of a [code] task. *)
Definition codeThinking : ThinkingPrompts :=
  match ThinkingEngine.generateThinkingPrompts "code" "debug this" with
  | JS.Return thinkingPrompts => thinkingPrompts
  | JS.Throw _ => mkThinkingPrompts "" [] []
  end.

(** A Gemini prompt after one enhancement. *)
Definition enhancedOnce : PlatformPrompt :=
  match ThinkingEngine.enhancePromptWithThinking sampleInstructions
          (ContextManager.formatForGemini threeTurns) codeThinking
          (Some "gemini") with
  | JS.Return prompt => prompt
  | JS.Throw _ => ContentsPrompt []
  end.

Definition preferring (platform : string) : Options :=
  mkOptions (Some (mkUserPreferences (Some platform))) false false None false
            false None false None None None None None None.

Definition costOptimized : Options :=
  mkOptions None true false None false false None false None None None None
            None None.

End Samples.

(* ------------------------------------------------------------------ *)
(** ** Vocabulary of the properties *)

(** Characters that [toLowerCase] leaves alone. *)
Definition lowerFixed (c : ascii) : bool :=
  Ascii.eqb (Text.toLowerCaseChar c) c.

Fixpoint allChars (p : ascii -> bool) (s : string) : bool :=
  match s with
  | EmptyString => true
  | String c r => p c && allChars p r
  end.

(** An opening fence of the form that the pattern of the code rule,
    [/```[a-z]*\n/] on the lower-cased input, recognises: three backticks,
    a run of letters a-z in either case (possibly empty) and a newline. *)
Definition hasRecognisedFence (input : string) : Prop :=
  exists before language rest,
    allChars Text.isLetterAZ language = true
    /\ input = before ++ "```" ++ language ++ JS.newline ++ rest.

(** C5 as the specification words it: an input that contains "debug" or a
    fenced code block marker (three backticks) is classified as [code]
    when the learned classifier is out of play. *)
Definition keywordInputsAreCode (env : Env) (userInput userId : string)
    (options : Options) (t : Trace) : Prop :=
  Text.includes userInput "debug" = true
  \/ Text.includes userInput "```" = true ->
  classifier_isInitialized env t = false
  \/ (forall context, exists confidence label,
         classifier_classify env t userInput context = MLResult confidence label
         /\ TaskRouter.exceedsThreshold (builtins env) confidence
              (ML_CONFIDENCE_THRESHOLD env) = false) ->
  TaskRouter.classifyTask env userInput userId options t
  = Some (JS.Return "code", t).

(** A fenced block whose language tag is not made of letters only. *)
Definition fencedCpp : string :=
  "```c++" ++ JS.newline ++ "int x = 1;" ++ JS.newline ++ "```".

(** C7 as the specification words it: a failure of the learned classifier
    is treated as low confidence and the answer is the rule-based one. *)
Definition failureFallsThroughToRules (env : Env) (userInput userId : string)
    (options : Options) (t : Trace) : Prop :=
  classifier_isInitialized env t = true ->
  (forall context, exists message,
      classifier_classify env t userInput context = MLThrows message) ->
  exists context,
    TaskRouter.classifyTask env userInput userId options t
    = Some (JS.Return (TaskRouter.ruleBasedClassification userInput context), t).

(** The classifier and the store answer alike at every point of a run. *)
Definition traceInsensitive (env : Env) : Prop :=
  forall t t' : Trace,
    classifier_isInitialized env t = classifier_isInitialized env t'
    /\ (forall userInput context,
           classifier_classify env t userInput context
           = classifier_classify env t' userInput context)
    /\ (forall userId maxTurns,
           getConversationHistory env t userId maxTurns
           = getConversationHistory env t' userId maxTurns)
    /\ (forall userId query topK,
           searchSimilarConversations env t userId query topK
           = searchSimilarConversations env t' userId query topK).

(** The cumulative estimated token count of a list of turns. *)
Definition cumulativeTokens (turns : list Turn) : Q :=
  fold_right (fun turn total => (ContextManager.turnTokens turn + total)%Q)
             0%Q turns.

(** The number of system messages of a prompt, and the text of the first
    one ([content], or [parts[0].text] in the Gemini shape). *)
Definition systemCount (prompt : PlatformPrompt) : nat :=
  match prompt with
  | MessagesPrompt messages _ =>
      List.length (filter ThinkingEngine.isSystem messages)
  | ContentsPrompt contents =>
      List.length (filter ThinkingEngine.isSystemContent contents)
  end.

Definition systemText (prompt : PlatformPrompt) : option string :=
  match prompt with
  | MessagesPrompt messages _ =>
      option_map msg_content (find ThinkingEngine.isSystem messages)
  | ContentsPrompt contents =>
      match find ThinkingEngine.isSystemContent contents with
      | Some entry => hd_error (cnt_parts entry)
      | None => None
      end
  end.

(** C6 as the specification words it: enhancing an enhanced prompt again
    leaves the system messages as they are. *)
Definition enhancementIdempotent
    (instructions : ThinkingPrompts -> JS.Result string) (prompt : PlatformPrompt)
    (thinkingPrompts : ThinkingPrompts) (platform : option string) : Prop :=
  forall once twice,
    ThinkingEngine.enhancePromptWithThinking instructions prompt
      thinkingPrompts platform = JS.Return once ->
    ThinkingEngine.enhancePromptWithThinking instructions once
      thinkingPrompts platform = JS.Return twice ->
    systemCount twice = systemCount once
    /\ systemText twice = systemText once.



(* ------------------------------------------------------------------ *)
(** ** Vocabulary of the further properties *)

(** [this.contextWindowSizes[platform] || 32000] for a platform that names
    no inherited property. *)
Definition windowSizeFor (platform : string) : Q :=
  match ContextManager.contextWindowSizes platform with
  | Some size => size
  | None => 32000%Q
  end.

(** The platform [getContext] budgets for: [options.platform || 'chatgpt']. *)
Definition contextPlatform (options : ContextManager.GetContextOptions)
  : string :=
  if JS.truthyOpt (ContextManager.gc_platform options)
  then JS.showOpt (ContextManager.gc_platform options)
  else "chatgpt".

(** The same options with semantic search switched on or off. *)
Definition withSemanticSearch (enabled : bool)
    (options : ContextManager.GetContextOptions)
  : ContextManager.GetContextOptions :=
  ContextManager.mkGetContextOptions
    (ContextManager.gc_platform options) (ContextManager.gc_userInput options)
    enabled (ContextManager.gc_maxRelevantItems options).

(** The number of entries of a prompt and the texts of its user entries, in
    order. *)
Definition entryCount (prompt : PlatformPrompt) : nat :=
  match prompt with
  | MessagesPrompt messages _ => List.length messages
  | ContentsPrompt contents => List.length contents
  end.

Definition userTexts (prompt : PlatformPrompt) : list string :=
  match prompt with
  | MessagesPrompt messages _ =>
      map msg_content (filter ThinkingEngine.isUser messages)
  | ContentsPrompt contents =>
      flat_map cnt_parts (filter ThinkingEngine.isUserContent contents)
  end.

(** The user inputs of the turns that are not system messages, in order. *)
Definition userInputsOf (context : list Turn) : list string :=
  map turn_userInput (filter (fun turn => negb (turn_isSystemMessage turn)) context).

(** The closed enumeration of task types ([this.taskTypes]) and the fixed
    vocabulary of reasoning phases ([this.reasoningSteps]). *)
Definition taskTypes : list string :=
  [ TaskRouter.RESEARCH; TaskRouter.REASONING; TaskRouter.CODE;
    TaskRouter.CREATIVE; TaskRouter.DATA_ANALYSIS; TaskRouter.DOMAIN_EXPERTISE;
    TaskRouter.GENERAL ].

Definition reasoningLabels : list string :=
  [ "problem_understanding"; "information_gathering"; "approach_selection";
    "step_by_step_reasoning"; "verification"; "conclusion" ].

(** Well-formed answers of the providers, in the shape each extractor of
    [ResponseSynthesizer] reads. *)
Module Shapes.

Definition chat (text : string) : Value :=
  VObj [("choices", VArr [VObj [("message", VObj [("content", VStr text)])]])].

Definition gemini (text : string) : Value :=
  VObj [("candidates",
         VArr [VObj [("content",
                      VObj [("parts", VArr [VObj [("text", VStr text)]])])]])].

Definition grok3 (text : string) : Value :=
  VObj [("output", VObj [("content", VStr text)])].

Definition vertix (text : string) : Value := VObj [("content", VStr text)].

Definition localModel (text : string) : Value := VObj [("output", VStr text)].

Definition citation (source : string * string) : Value :=
  VObj [("title", VStr (fst source)); ("url", VStr (snd source))].

Definition perplexity (text : string) (sources : list (string * string))
  : Value :=
  VObj [("answer",
         VObj [("text", VStr text); ("citations", VArr (map citation sources))])].

End Shapes.

(** The line the Perplexity extractor writes for a source, and the lines of
    a list of sources numbered from [number] on. *)
Definition sourceLine (number : nat) (source : string * string) : string :=
  NilEmpty.string_of_uint (Nat.to_uint number) ++ ". [" ++ fst source ++ "]("
  ++ snd source ++ ")" ++ JS.newline.

Fixpoint sourceLines (number : nat) (sources : list (string * string))
  : string :=
  match sources with
  | [] => ""
  | source :: rest => sourceLine number source ++ sourceLines (S number) rest
  end.

(** The top-level properties the extractors read. *)
Definition extractorKeys : list string :=
  [ "choices"; "answer"; "candidates"; "output"; "content" ].

Definition withStrategy (strategy : option string)
    (options : ResponseSynthesizer.MergeOptions)
  : ResponseSynthesizer.MergeOptions :=
  ResponseSynthesizer.mkMergeOptions (ResponseSynthesizer.mo_format options)
    strategy (ResponseSynthesizer.mo_includeSectionHeaders options).

(** The canned texts of the [catch] blocks of [processResponse] and
    [mergeResponses]. *)
Definition processingIssue : string :=
  "I encountered an issue processing the response. Please try again.".

Definition mergingIssue : string :=
  "I encountered an issue merging the responses. Please try again.".

(** The turns a run hands to the store: user, input and saved answer. *)
Definition savedTurns (trace : Trace) : list (string * string * Value) :=
  flat_map (fun event =>
              match event with
              | SavedTurn userId userInput aiResponse _ _ =>
                  [(userId, userInput, aiResponse)]
              | _ => []
              end) trace.


(** The fallback hops a run announces. *)
Definition fallbackHops (trace : Trace) : nat :=
  List.length (filter (fun event =>
                         match event with
                         | UsingFallback _ _ => true
                         | _ => false
                         end) trace).

(** The options [processRequest] hands to [processResponse], the options it
    hands to [getContext], and the turn it hands to [saveContext]. *)
Definition processOptionsFor (options : Options)
  : ResponseSynthesizer.ProcessOptions :=
  ResponseSynthesizer.mkProcessOptions
    (Some (ResponseSynthesizer.orElse (responseFormat options) "markdown"))
    (OrchestrationLayer.notFalse (includeThinking options))
    (OrchestrationLayer.notFalse (includeAttribution options))
    true.

Definition contextOptionsFor (userInput : string) (options : Options)
    (routingInfo : RoutingInfo) : ContextManager.GetContextOptions :=
  ContextManager.mkGetContextOptions (ri_platform routingInfo)
    (Some userInput) (enableSemanticSearch options) None.

Definition savedEvent (userId userInput : string) (aiResponse : Value)
    (routingInfo : RoutingInfo) : Event :=
  SavedTurn userId userInput aiResponse
    (if JS.truthyOpt (ri_platform routingInfo)
     then JS.showOpt (ri_platform routingInfo) else "unknown")
    (if JS.truthyString (ri_taskType routingInfo)
     then ri_taskType routingInfo else "general").

(** Whether [processRequest] hands a failure to [handleFallback]. *)
Definition fallbackAllowed (options : Options) : bool :=
  OrchestrationLayer.notFalse (enableFallback options)
  && negb (isFallback options).

Definition requestIssue : string :=
  "I encountered an issue processing your request. Please try again.".

(** The ways one pass through the [try] block of [processRequest] can end,
    from the trace [t]: with which result, and with which events. *)
Inductive Attempt (env : Env) (userInput userId : string) (options : Options)
    (t : Trace) : JS.Result Response -> Trace -> Prop :=
| Rejected (message : string) :
    Attempt env userInput userId options t (JS.Throw message) []
| ProviderFailed (routingInfo : RoutingInfo) (context : list Turn)
    (thinkingPrompts : ThinkingPrompts) (prompt : PlatformPrompt)
    (message : string) :
    TaskRouter.routeRequest env userInput userId options t
    = Some (JS.Return routingInfo, t) ->
    ContextManager.getContext env userId
      (contextOptionsFor userInput options routingInfo) t
    = Some (JS.Return context, t) ->
    ThinkingEngine.enhancePromptWithThinking (generateThinkingInstructions env)
      (ContextManager.formatContextForPlatform context (ri_platform routingInfo))
      thinkingPrompts (ri_platform routingInfo)
    = JS.Return prompt ->
    generateResponse env t (JS.showOpt (ri_platform routingInfo)) prompt
    = JS.Throw message ->
    Attempt env userInput userId options t (JS.Throw message)
      [ProviderCall (JS.showOpt (ri_platform routingInfo)) prompt]
| Answered (routingInfo : RoutingInfo) (context : list Turn)
    (thinkingPrompts : ThinkingPrompts) (prompt : PlatformPrompt)
    (platformResponse : Value) (processedResponse : Response) :
    TaskRouter.routeRequest env userInput userId options t
    = Some (JS.Return routingInfo, t) ->
    ContextManager.getContext env userId
      (contextOptionsFor userInput options routingInfo) t
    = Some (JS.Return context, t) ->
    ThinkingEngine.enhancePromptWithThinking (generateThinkingInstructions env)
      (ContextManager.formatContextForPlatform context (ri_platform routingInfo))
      thinkingPrompts (ri_platform routingInfo)
    = JS.Return prompt ->
    generateResponse env t (JS.showOpt (ri_platform routingInfo)) prompt
    = JS.Return platformResponse ->
    ResponseSynthesizer.processResponse env platformResponse routingInfo
      (Some thinkingPrompts) (processOptionsFor options)
    = JS.Return processedResponse ->
    Attempt env userInput userId options t
      (JS.Return (withRoutingInfo processedResponse routingInfo))
      [ProviderCall (JS.showOpt (ri_platform routingInfo)) prompt;
       savedEvent userId userInput (content processedResponse) routingInfo].

(** The ways a [processRequest] can end: the first attempt answers; it
    fails and the failure is final; or it fails and one fallback attempt
    follows, announced in the log, whose failure is final. *)
Inductive Run (env : Env) (userInput userId : string) (options : Options)
    (t : Trace) : Response -> Trace -> Prop :=
| FirstAnswers (response : Response) (extra : Trace) :
    Attempt env userInput userId options t (JS.Return response) extra ->
    Run env userInput userId options t response extra
| FirstFails (message : string) (extra : Trace) :
    Attempt env userInput userId options t (JS.Throw message) extra ->
    fallbackAllowed options = false ->
    Run env userInput userId options t
      (OrchestrationLayer.errorResponse requestIssue message None userId) extra
| FallbackEnds (message : string) (extra : Trace) (routingInfo : RoutingInfo)
    (result : JS.Result Response) (extra' : Trace) :
    Attempt env userInput userId options t (JS.Throw message) extra ->
    fallbackAllowed options = true ->
    TaskRouter.routeRequest env userInput userId options (t ++ extra)%list
    = Some (JS.Return routingInfo, (t ++ extra)%list) ->
    let fallbackPlatform :=
      OrchestrationLayer.fallbackPlatformOf options routingInfo in
    let hop := UsingFallback fallbackPlatform (ri_platform routingInfo) in
    Attempt env userInput userId
      (OrchestrationLayer.fallbackOptions options fallbackPlatform)
      ((t ++ extra) ++ [hop])%list result extra' ->
    Run env userInput userId options t
      (match result with
       | JS.Return response => response
       | JS.Throw message' =>
           OrchestrationLayer.errorResponse requestIssue message' None userId
       end)
      (extra ++ hop :: extra')%list.

(** Further sample environments. *)
Module MoreSamples.

(** A store that holds [threeTurns] for every user and retrieves nothing. *)
Definition storedThree : Env :=
  mkEnv Samples.sampleBuiltins
    (fun _ => JS.Return "Think step by step.")
    (fun _ _ => JS.Return VNull)
    (fun _ => JS.Return "[sequential]")
    (fun _ => JS.Return "[best first]")
    (fun _ => JS.Return "[task specific]")
    (fun content _ _ _ =>
       JS.Return (ResponseSynthesizer.toText Samples.sampleBuiltins content))
    None None
    (fun _ => false)
    (fun _ _ _ => MLNull)
    (fun _ _ _ => JS.Return Samples.threeTurns)
    (fun _ _ _ _ => JS.Return [])
    (fun _ _ => JS.Return tt)
    (fun _ => true)
    (fun _ name _ => JS.Return (Samples.chatAnswer ("answer from " ++ name))).

(** The same store with a similarity search that fails. *)
Definition searchFails : Env :=
  mkEnv Samples.sampleBuiltins
    (fun _ => JS.Return "Think step by step.")
    (fun _ _ => JS.Return VNull)
    (fun _ => JS.Return "[sequential]")
    (fun _ => JS.Return "[best first]")
    (fun _ => JS.Return "[task specific]")
    (fun content _ _ _ =>
       JS.Return (ResponseSynthesizer.toText Samples.sampleBuiltins content))
    None None
    (fun _ => false)
    (fun _ _ _ => MLNull)
    (fun _ _ _ => JS.Return Samples.threeTurns)
    (fun _ _ _ _ => JS.Throw "index unavailable")
    (fun _ _ => JS.Return tt)
    (fun _ => true)
    (fun _ name _ => JS.Return (Samples.chatAnswer ("answer from " ++ name))).

End MoreSamples.

Module RouterSamples.

(** An initialised learned classifier, sure of its label, under a
    configuration that defines no confidence threshold. *)
Definition noThreshold (label : string) : Env :=
  Samples.sampleEnv true (fun _ => MLResult (VNum 0.95%Q) label) None
    (fun _ name => JS.Return (Samples.chatAnswer ("answer from " ++ name))).

End RouterSamples.

Module RunSamples.

(** A request for which fallback is switched off. *)
Definition withoutFallback : Options :=
  mkOptions None false false (Some false) false false None false None None
            None None None None.

End RunSamples.

(* ------------------------------------------------------------------ *)
(** ** ResponseSynthesizer: rendering *)

(** [formatResponse] and the functions it calls.  Left abstract are the
    collaborators whose result rests on text outside the sources or on the
    clock: [thinkingEngine.formatThinkingProcess], the regular-expression
    rewriting of [markdownToHTML], the JSON rendering of [formatJSON], and
    the text of a function inherited from [Object.prototype]. *)
Module ResponseFormatting.

(** [attributions[platform] || '']: a text, or a property the table
    inherits. *)
Inductive Attribution : Type :=
| AttributionText (text : string)
| InheritedValue (key : string).

(** Own entries of [attributions]. *)
Definition attributions (platform : string) : option string :=
  if String.eqb platform "chatgpt" then Some "*Response powered by ChatGPT*"
  else if String.eqb platform "perplexity" then Some "*Response powered by Perplexity AI*"
  else if String.eqb platform "gemini" then Some "*Response powered by Google Gemini*"
  else if String.eqb platform "copilot" then Some "*Response powered by GitHub Copilot*"
  else if String.eqb platform "deepseek" then Some "*Response powered by DeepSeek*"
  else if String.eqb platform "grok3" then Some "*Response powered by Grok3*"
  else if String.eqb platform "vertix" then Some "*Response powered by Vertix*"
  else if String.eqb platform "local" then Some "*Response powered by Majd local models*"
  else None.

Definition generateAttribution (platform : option string) : Attribution :=
  if JS.truthyOpt platform
  then
    match attributions (JS.showOpt platform) with
    | Some text => AttributionText text
    | None =>
        if JS.isInheritedKey (JS.showOpt platform)
        then InheritedValue (JS.showOpt platform)
        else AttributionText ""
    end
  else AttributionText "".

Definition isAttribution (attribution : Attribution) : bool :=
  match attribution with
  | AttributionText text => JS.truthyString text
  | InheritedValue _ => true
  end.

(** [options.thinkingPosition === position] *)
Definition positionIs (thinkingPosition : option string) (position : string)
  : bool :=
  match thinkingPosition with
  | Some p => String.eqb p position
  | None => false
  end.

Definition doubleQuote : string := String (ascii_of_nat 34) EmptyString.

Section Formatting.

Variable builtins : Builtins.
Variable formatThinkingProcess : Value -> string -> JS.Result string.
Variable markdownToHTML : Value -> JS.Result string.
Variable formatJSON : Value -> option Value -> FormatOptions -> string.
Variable inheritedText : string -> string.

Definition attributionText (attribution : Attribution) : string :=
  match attribution with
  | AttributionText text => text
  | InheritedValue key => inheritedText key
  end.

Definition formatMarkdown (content : Value) (thinking : string)
    (attribution : Attribution) (thinkingPosition : option string) : string :=
  let markdown := "" in
  let markdown :=
    if JS.truthyString thinking && positionIs thinkingPosition "before"
    then markdown ++ thinking ++ JS.newline ++ JS.newline
    else markdown in
  let markdown := markdown ++ ResponseSynthesizer.toText builtins content in
  let markdown :=
    if JS.truthyString thinking
       && (negb (JS.truthyOpt thinkingPosition)
           || positionIs thinkingPosition "after")
    then markdown ++ JS.newline ++ JS.newline ++ thinking
    else markdown in
  if isAttribution attribution
  then markdown ++ JS.newline ++ JS.newline ++ attributionText attribution
  else markdown.

Definition formatHTML (content : Value) (thinking : string)
    (attribution : Attribution) (thinkingPosition : option string)
  : JS.Result string :=
  let html := "<div class=" ++ doubleQuote ++ "majd-response" ++ doubleQuote ++ ">" in
  let html :=
    if JS.truthyString thinking && positionIs thinkingPosition "before"
    then html ++ thinking
    else html in
  JS.bindR (markdownToHTML content) (fun converted =>
  let html :=
    html ++ "<div class=" ++ doubleQuote ++ "response-content" ++ doubleQuote
    ++ ">" ++ converted ++ "</div>" in
  let html :=
    if JS.truthyString thinking
       && (negb (JS.truthyOpt thinkingPosition)
           || positionIs thinkingPosition "after")
    then html ++ thinking
    else html in
  let html :=
    if isAttribution attribution
    then html ++ "<div class=" ++ doubleQuote ++ "attribution" ++ doubleQuote
         ++ ">" ++ attributionText attribution ++ "</div>"
    else html in
  JS.Return (html ++ "</div>")).

Definition formatResponse (content : Value) (thinkingProcess : option Value)
    (format : string) (options : FormatOptions)
    (thinkingPosition : option string) : JS.Result string :=
  let attribution :=
    if fo_includeAttribution options
    then generateAttribution (fo_platform options)
    else AttributionText "" in
  JS.bindR
    (match thinkingProcess with
     | Some process =>
         if ResponseSynthesizer.truthy process && fo_includeThinking options
         then formatThinkingProcess process format
         else JS.Return ""
     | None => JS.Return ""
     end)
    (fun formattedThinking =>
       if String.eqb format "markdown"
       then JS.Return (formatMarkdown content formattedThinking attribution
                         thinkingPosition)
       else if String.eqb format "html"
       then formatHTML content formattedThinking attribution thinkingPosition
       else if String.eqb format "json"
       then JS.Return (formatJSON content thinkingProcess options)
       else JS.Return
              (ResponseSynthesizer.toText builtins content
               ++ (if isAttribution attribution
                   then JS.newline ++ JS.newline ++ attributionText attribution
                   else ""))).

End Formatting.

End ResponseFormatting.

(** The same processing options with attribution switched on or off. *)
Definition withAttribution (enabled : bool)
    (options : ResponseSynthesizer.ProcessOptions)
  : ResponseSynthesizer.ProcessOptions :=
  ResponseSynthesizer.mkProcessOptions
    (ResponseSynthesizer.po_format options)
    (ResponseSynthesizer.po_includeThinking options) enabled
    (ResponseSynthesizer.po_extractThinking options).

(** An environment renders with [ResponseFormatting.formatResponse], under
    some behaviour of the collaborators left abstract there; the options
    the synthesizer passes on hold no [thinkingPosition]. *)
Definition rendersWith (env : Env)
    (formatThinkingProcess : Value -> string -> JS.Result string)
    (markdownToHTML : Value -> JS.Result string)
    (formatJSON : Value -> option Value -> FormatOptions -> string)
    (inheritedText : string -> string) : Prop :=
  forall content thinkingProcess format options,
    formatResponse env content thinkingProcess format options
    = ResponseFormatting.formatResponse (builtins env) formatThinkingProcess
        markdownToHTML formatJSON inheritedText content thinkingProcess format
        options None.

Module RenderSamples.

(** The environment of [Samples.allWork], rendering with
    [ResponseFormatting.formatResponse]. *)
Definition sampleThinking (process : Value) (format : string)
  : JS.Result string :=
  JS.Return "**Thinking:** step by step".

Definition sampleHTML (content : Value) : JS.Result string :=
  JS.Return ("<p>" ++ ResponseSynthesizer.toText Samples.sampleBuiltins content
             ++ "</p>").

Definition sampleJSON (content : Value) (thinkingProcess : option Value)
    (options : FormatOptions) : string := "{}".

Definition sampleInherited (key : string) : string :=
  "function " ++ key ++ "() { [native code] }".

Definition rendering : Env :=
  mkEnv Samples.sampleBuiltins
    (generateThinkingInstructions Samples.allWork)
    (extractThinkingProcess Samples.allWork)
    (mergeSequential Samples.allWork)
    (mergeBestFirst Samples.allWork)
    (mergeTaskSpecific Samples.allWork)
    (fun content thinkingProcess format options =>
       ResponseFormatting.formatResponse Samples.sampleBuiltins sampleThinking
         sampleHTML sampleJSON sampleInherited content thinkingProcess format
         options None)
    (ML_CONFIDENCE_THRESHOLD Samples.allWork)
    (MAX_CONTEXT_LENGTH Samples.allWork)
    (classifier_isInitialized Samples.allWork)
    (classifier_classify Samples.allWork)
    (getConversationHistory Samples.allWork)
    (searchSimilarConversations Samples.allWork)
    (saveConversationTurn Samples.allWork)
    (platformModulesLoad Samples.allWork)
    (generateResponse Samples.allWork).

Definition chatRouting : RoutingInfo :=
  mkRoutingInfo "u1" "hello" "general" (Some "chatgpt") (Some "deepseek")
    (Some "local") false.

End RenderSamples.

(* ================================================================== *)
(** * Properties *)

(** ** The model on the scenarios of the specification *)

Example scenario_reverse_a_string :
  TaskRouter.ruleBasedClassification "Write a function to reverse a string" []
  = "code"
  /\ TaskRouter.getPlatformForTask "code" noOptions
     = TaskRouter.mkPlatformInfo (Some "copilot") "code" (Some "deepseek")
         (Some "local") false false.
Proof. split; reflexivity. Qed.

Example scenario_split_counts_pieces :
  Text.splitWhitespaceLength "a  b" = 2
  /\ Text.splitWhitespaceLength " a " = 3
  /\ (ContextManager.estimateTokens "a b c" == 3.9)%Q
  /\ (ContextManager.estimateTokens "" == 0)%Q.
Proof. repeat split. Qed.

Example scenario_trim_keeps_most_recent :
  ContextManager.optimizeContext Samples.threeTurns 10
  = [mkTurn "u1" "third" "fine" "chatgpt" "general" false]
  /\ ContextManager.optimizeContext Samples.threeTurns 20
     = Samples.threeTurns.
Proof. split; reflexivity. Qed.

Example scenario_cost_optimized_route :
  TaskRouter.routeRequest Samples.allWork "solve x + 1 = 2" "u1"
    Samples.costOptimized []
  = Some (JS.Return
            (mkRoutingInfo "u1" "solve x + 1 = 2" "reasoning" (Some "local")
               None None false), []).
Proof. reflexivity. Qed.

Example scenario_confidence_is_converted :
  TaskRouter.classifyTask (Samples.classifierReports (VStr "0.95"))
    "debug this" "u1" noOptions []
  = Some (JS.Return "creative", [])
  /\ TaskRouter.classifyTask (Samples.classifierReports (VBool true))
       "debug this" "u1" noOptions []
     = Some (JS.Return "creative", [])
  /\ TaskRouter.classifyTask (Samples.classifierReports (VStr "high"))
       "debug this" "u1" noOptions []
     = Some (JS.Return "code", [])
  /\ TaskRouter.classifyTask (Samples.classifierReports VUndefined)
       "debug this" "u1" noOptions []
     = Some (JS.Return "code", []).
Proof. repeat split; vm_compute; reflexivity. Qed.

Example scenario_merging_enhancer_does_not_repeat :
  forall once twice,
    ThinkingEngine.enhancePromptWithThinking Samples.sampleInstructions
      (ContextManager.formatForVertix Samples.threeTurns) Samples.codeThinking
      (Some "vertix") = JS.Return once ->
    ThinkingEngine.enhancePromptWithThinking Samples.sampleInstructions once
      Samples.codeThinking (Some "vertix") = JS.Return twice ->
    systemCount twice = systemCount once
    /\ systemText twice = systemText once.
Proof.
  intros once twice H1. vm_compute in H1. injection H1 as <-.
  intros H2. vm_compute in H2. injection H2 as <-.
  split; vm_compute; reflexivity.
Qed.

Example scenario_inherited_task_type :
  TaskRouter.routeRequest (Samples.classifierSays "constructor") "hello" "u1"
    noOptions []
  = Some (JS.Return
            (mkRoutingInfo "u1" "hello" "constructor" None None None false),
          []).
Proof. reflexivity. Qed.

(** Merging a single response returns it unchanged. *)
Lemma mergeResponses_single (env : Env) (response : Response)
    (options : ResponseSynthesizer.MergeOptions) :
  ResponseSynthesizer.mergeResponses env [response] options
  = JS.Return response.
Proof. reflexivity. Qed.

(** ** Strings *)

Section TextFacts.

Import Text.

Lemma toLowerCase_app (a b : string) :
  toLowerCase (a ++ b) = toLowerCase a ++ toLowerCase b.
Proof.
  induction a as [|c a IH]; simpl; [reflexivity | now rewrite IH].
Qed.

Lemma startsWith_toLowerCase (s pre : string) :
  allChars lowerFixed pre = true ->
  startsWith s pre = true ->
  startsWith (toLowerCase s) pre = true.
Proof.
  revert s. induction pre as [|p pre IH]; intros s Hfix H; [reflexivity|].
  destruct s as [|c s]; simpl in *; [discriminate|].
  apply andb_true_iff in Hfix as [Hp Hpre].
  apply andb_true_iff in H as [Hc Hs].
  apply Ascii.eqb_eq in Hc. subst c.
  apply Ascii.eqb_eq in Hp. rewrite Hp, Ascii.eqb_refl. simpl.
  now apply IH.
Qed.

Lemma includes_toLowerCase (s sub : string) :
  allChars lowerFixed sub = true ->
  includes s sub = true ->
  includes (toLowerCase s) sub = true.
Proof.
  intros Hfix. induction s as [|c s IH]; simpl; intros H.
  - apply orb_true_iff in H as [H|H]; [|discriminate].
    apply (startsWith_toLowerCase EmptyString sub Hfix) in H.
    simpl in H. now rewrite H.
  - apply orb_true_iff in H as [H|H].
    + apply (startsWith_toLowerCase (String c s) sub Hfix) in H.
      simpl in H. now rewrite H.
    + rewrite (IH H). apply orb_true_r.
Qed.

Lemma matchCodeFence_here (s : string) :
  codeFenceAt s = true -> matchCodeFence s = true.
Proof.
  intros H. destruct s as [|c s]; [discriminate H|].
  change (codeFenceAt (String c s) || matchCodeFence s = true).
  now rewrite H.
Qed.

Lemma matchCodeFence_app (before s : string) :
  matchCodeFence s = true -> matchCodeFence (before ++ s) = true.
Proof.
  intros H. induction before as [|c before IH]; [exact H|].
  change (codeFenceAt (String c (before ++ s)) || matchCodeFence (before ++ s) = true).
  rewrite IH. apply orb_true_r.
Qed.

Lemma lower_letter_isLowerAZ (c : ascii) :
  isLetterAZ c = true -> isLowerAZ (toLowerCaseChar c) = true.
Proof.
  destruct c as [[] [] [] [] [] [] [] []]; intros H;
    solve [reflexivity | discriminate H].
Qed.

Lemma skipLowerAZ_language (language : string) (c : ascii) (rest : string) :
  allChars isLetterAZ language = true ->
  isLowerAZ c = false ->
  skipLowerAZ (toLowerCase language ++ String c rest) = String c rest.
Proof.
  intros Hl Hc. induction language as [|a language IH].
  - simpl. now rewrite Hc.
  - simpl in Hl. apply andb_true_iff in Hl as [Ha Hl].
    simpl. now rewrite (lower_letter_isLowerAZ a Ha), IH.
Qed.

Lemma matchCodeFence_marker (input : string) :
  hasRecognisedFence input -> matchCodeFence (toLowerCase input) = true.
Proof.
  intros (before & language & rest & Hl & ->).
  rewrite toLowerCase_app. apply matchCodeFence_app, matchCodeFence_here.
  rewrite !toLowerCase_app.
  change (startsWith
            (skipLowerAZ (toLowerCase language
                          ++ String (ascii_of_nat 10) (toLowerCase rest)))
            JS.newline = true).
  rewrite (skipLowerAZ_language language (ascii_of_nat 10) (toLowerCase rest)
             Hl eq_refl).
  reflexivity.
Qed.

End TextFacts.

(** ** Classification and routing *)

Section RoutingFacts.

Variable env : Env.

(** [getContext] catches everything and leaves no effect behind. *)
Lemma getContext_returns (userId : string)
    (options : ContextManager.GetContextOptions) (t : Trace) :
  exists context,
    ContextManager.getContext env userId options t = Some (JS.Return context, t).
Proof.
  unfold ContextManager.getContext, tryCatch, bind, ask, lift, ret.
  destruct (getConversationHistory env t userId _) as [history|m];
    [|eexists; reflexivity].
  destruct (_ && _); [|eexists; reflexivity].
  destruct (searchSimilarConversations env t userId _ _) as [relevant|m];
    eexists; reflexivity.
Qed.

Lemma ruleBased_debug (userInput : string) (context : list Turn) :
  Text.includes userInput "debug" = true ->
  TaskRouter.ruleBasedClassification userInput context = TaskRouter.CODE.
Proof.
  intros H. apply (includes_toLowerCase userInput "debug" eq_refl) in H.
  unfold TaskRouter.ruleBasedClassification. cbv zeta.
  rewrite H, !orb_true_r. reflexivity.
Qed.

Lemma ruleBased_fence (userInput : string) (context : list Turn) :
  hasRecognisedFence userInput ->
  TaskRouter.ruleBasedClassification userInput context = TaskRouter.CODE.
Proof.
  intros H. apply matchCodeFence_marker in H.
  unfold TaskRouter.ruleBasedClassification. cbv zeta.
  rewrite H, !orb_true_r. reflexivity.
Qed.

(** With the learned classifier out of play, [classifyTask] is the rule
    engine. *)
Lemma classifyTask_rules (userInput userId : string) (options : Options)
    (t : Trace) :
  classifier_isInitialized env t = false
  \/ (forall context, exists confidence label,
         classifier_classify env t userInput context = MLResult confidence label
         /\ TaskRouter.exceedsThreshold (builtins env) confidence
              (ML_CONFIDENCE_THRESHOLD env) = false) ->
  exists context,
    TaskRouter.classifyTask env userInput userId options t
    = Some (JS.Return (TaskRouter.ruleBasedClassification userInput context), t).
Proof.
  intros H.
  destruct (getContext_returns userId ContextManager.noGetContextOptions t)
    as [context Hc].
  exists context.
  unfold TaskRouter.classifyTask, tryCatch, bind. rewrite Hc.
  unfold ask, ret, throw.
  destruct H as [H|H].
  - now rewrite H.
  - destruct (H context) as (confidence & label & Hr & Hlow).
    rewrite Hr, Hlow. now destruct (classifier_isInitialized env t).
Qed.

(** [classifyTask] never throws and leaves no effect behind. *)
Lemma classifyTask_returns (userInput userId : string) (options : Options)
    (t : Trace) :
  exists label,
    TaskRouter.classifyTask env userInput userId options t
    = Some (JS.Return label, t).
Proof.
  destruct (getContext_returns userId ContextManager.noGetContextOptions t)
    as [context Hc].
  unfold TaskRouter.classifyTask, tryCatch, bind. rewrite Hc.
  unfold ask, ret, throw.
  destruct (classifier_isInitialized env t); [|eexists; reflexivity].
  destruct (classifier_classify env t userInput context)
    as [m| |confidence label]; try (eexists; reflexivity).
  destruct (TaskRouter.exceedsThreshold _ _); eexists; reflexivity.
Qed.

(** A classifier that throws sends [classifyTask] straight to GENERAL. *)
Lemma classifyTask_failure (userInput userId : string) (options : Options)
    (t : Trace) :
  classifier_isInitialized env t = true ->
  (forall context, exists message,
      classifier_classify env t userInput context = MLThrows message) ->
  TaskRouter.classifyTask env userInput userId options t
  = Some (JS.Return TaskRouter.GENERAL, t).
Proof.
  intros Hi Hthrow.
  destruct (getContext_returns userId ContextManager.noGetContextOptions t)
    as [context Hc].
  unfold TaskRouter.classifyTask, tryCatch, bind. rewrite Hc.
  unfold ask, ret, throw. rewrite Hi.
  destruct (Hthrow context) as [m Hm]. now rewrite Hm.
Qed.

(** [routeRequest] never throws, leaves no effect behind, and builds its
    decision from [getPlatformForTask] at the classified task type. *)
Lemma routeRequest_returns (userInput userId : string) (options : Options)
    (t : Trace) :
  exists label,
    TaskRouter.classifyTask env userInput userId options t
    = Some (JS.Return label, t)
    /\ TaskRouter.routeRequest env userInput userId options t
       = Some (JS.Return
                 (let platformInfo := TaskRouter.getPlatformForTask label options in
                  mkRoutingInfo userId userInput label
                    (TaskRouter.pi_platform platformInfo)
                    (TaskRouter.pi_secondary platformInfo)
                    (TaskRouter.pi_fallback platformInfo) false), t).
Proof.
  destruct (classifyTask_returns userInput userId options t) as [label Hl].
  exists label. split; [exact Hl|].
  unfold TaskRouter.routeRequest, tryCatch, bind. now rewrite Hl.
Qed.

End RoutingFacts.

(** C5 (amended): every input that contains "debug" or an opening code
    fence of the form the rule recognises (three backticks, a possibly
    empty run of letters, a newline) is classified as [code] whenever the
    learned classifier is not initialised or reports a confidence that does
    not exceed the configured threshold. *)
Theorem C5_keyword_inputs_classify_as_code (env : Env)
    (userInput userId : string) (options : Options) (t : Trace) :
  Text.includes userInput "debug" = true \/ hasRecognisedFence userInput ->
  classifier_isInitialized env t = false
  \/ (forall context, exists confidence label,
         classifier_classify env t userInput context = MLResult confidence label
         /\ TaskRouter.exceedsThreshold (builtins env) confidence
              (ML_CONFIDENCE_THRESHOLD env) = false) ->
  TaskRouter.classifyTask env userInput userId options t
  = Some (JS.Return "code", t).
Proof.
  intros Hkey Hml.
  destruct (classifyTask_rules env userInput userId options t Hml)
    as [context ->].
  destruct Hkey as [Hdebug|Hfence].
  - now rewrite (ruleBased_debug userInput context Hdebug).
  - now rewrite (ruleBased_fence userInput context Hfence).
Qed.

Lemma C5_witness :
  TaskRouter.classifyTask Samples.classifierUnsure
    "Please DEBUG my debug build" "u1" noOptions []
  = Some (JS.Return "code", [])
  /\ TaskRouter.classifyTask Samples.allWork
       ("Why does this fail? ```JS" ++ JS.newline ++ "let x;") "u1"
       noOptions []
     = Some (JS.Return "code", []).
Proof.
  split.
  - apply C5_keyword_inputs_classify_as_code.
    + left. reflexivity.
    + right. intros context. exists (VNum 0.4%Q), "creative".
      split; reflexivity.
  - apply C5_keyword_inputs_classify_as_code.
    + right. exists "Why does this fail? ", "JS", "let x;".
      split; reflexivity.
    + left. reflexivity.
Defined.

(** C5 as stated fails: a fenced block opened by three backticks and the
    tag c++ holds a fenced code block marker, yet with the learned
    classifier switched off it is not classified as [code]: the pattern
    asks for letters only between the backticks and the newline. *)
Lemma C5_counterexample :
  ~ keywordInputsAreCode Samples.allWork fencedCpp "u1" noOptions [].
Proof.
  intros H.
  assert (Hcode : TaskRouter.classifyTask Samples.allWork fencedCpp "u1"
                    noOptions []
                  = Some (JS.Return "code", [])).
  { apply H; [right|left]; reflexivity. }
  vm_compute in Hcode. discriminate Hcode.
Qed.

(** C7 (amended): [classifyTask] never raises; when the learned classifier
    fails, the error is caught and [classifyTask] returns [general] at
    once, without consulting the rule-based classifier. *)
Theorem C7_classifyTask_never_raises (env : Env)
    (userInput userId : string) (options : Options) (t : Trace) :
  (exists label,
      TaskRouter.classifyTask env userInput userId options t
      = Some (JS.Return label, t))
  /\ (classifier_isInitialized env t = true ->
      (forall context, exists message,
          classifier_classify env t userInput context = MLThrows message) ->
      TaskRouter.classifyTask env userInput userId options t
      = Some (JS.Return "general", t)).
Proof.
  split.
  - apply classifyTask_returns.
  - apply classifyTask_failure.
Qed.

Lemma C7_witness :
  TaskRouter.classifyTask Samples.classifierThrows "tell me a joke" "u1"
    noOptions []
  = Some (JS.Return "general", []).
Proof.
  apply (proj2 (C7_classifyTask_never_raises Samples.classifierThrows
                  "tell me a joke" "u1" noOptions [])).
  - reflexivity.
  - intros context. exists "model not loaded". reflexivity.
Defined.

(** C7 as stated fails: with a learned classifier that throws, the input
    "debug this" comes back as [general], while the rule-based classifier
    it is said to fall through to answers [code]. *)
Lemma C7_counterexample :
  ~ failureFallsThroughToRules Samples.classifierThrows "debug this" "u1"
      noOptions [].
Proof.
  unfold failureFallsThroughToRules. intros H.
  destruct H as [context H]; [reflexivity | |].
  - intros context. exists "model not loaded". reflexivity.
  - vm_compute in H. discriminate H.
Qed.

(** ** Platform selection *)

Lemma getPlatformForTask_preferred (label preferred : string) (options : Options) :
  TaskRouter.preferredPlatformOf options = Some preferred ->
  TaskRouter.getPlatformForTask label options
  = TaskRouter.mkPlatformInfo (Some preferred) label None None true false.
Proof.
  intros H. unfold TaskRouter.getPlatformForTask. now rewrite H.
Qed.

Lemma getPlatformForTask_costOptimized (label : string) (options : Options) :
  TaskRouter.preferredPlatformOf options = None ->
  optimizeCost options = true -> isPremiumUser options = false ->
  TaskRouter.getPlatformForTask label options
  = TaskRouter.mkPlatformInfo
      (TaskRouter.fallback (TaskRouter.platformMapFor label)) label
      None None false true.
Proof.
  intros H Hc Hp. unfold TaskRouter.getPlatformForTask. now rewrite H, Hc, Hp.
Qed.

(** Own entries of the mapping table name providers only. *)
Lemma platformMapFor_members (label : string) :
  JS.isInheritedKey label = false ->
  exists p s f,
    TaskRouter.platformMapFor label = TaskRouter.entry p s f
    /\ In p providers /\ In s providers /\ In f providers.
Proof.
  intros H. unfold TaskRouter.platformMapFor, TaskRouter.platformMapping.
  rewrite H.
  repeat match goal with
         | |- context [String.eqb label ?k] => destruct (String.eqb label k)
         end;
    do 3 eexists; (split; [reflexivity|]); simpl; tauto.
Qed.

Lemma getPlatformForTask_member (label : string) (options : Options) :
  TaskRouter.preferredPlatformOf options = None ->
  JS.isInheritedKey label = false ->
  exists p,
    TaskRouter.pi_platform (TaskRouter.getPlatformForTask label options) = Some p
    /\ In p providers.
Proof.
  intros H Hk. unfold TaskRouter.getPlatformForTask. rewrite H.
  destruct (platformMapFor_members label Hk) as (p & s & f & -> & Hp & Hs & Hf).
  destruct (_ && _); simpl; eauto.
Qed.

(** Routing looks at the preference, the cost flags and nothing else: the
    options a fallback hop or a multi-platform branch adds do not change
    the decision. *)
Lemma getPlatformForTask_fallbackOptions (label : string) (options : Options)
    (fallbackPlatform : option string) :
  TaskRouter.getPlatformForTask label
    (OrchestrationLayer.fallbackOptions options fallbackPlatform)
  = TaskRouter.getPlatformForTask label options.
Proof. reflexivity. Qed.

Lemma getPlatformForTask_branchOptions (label : string) (options : Options)
    (platform : string) :
  TaskRouter.getPlatformForTask label
    (OrchestrationLayer.branchOptions options platform)
  = TaskRouter.getPlatformForTask label options.
Proof. reflexivity. Qed.

Lemma routeRequest_ignores_overridePlatform (env : Env)
    (userInput userId : string) (options : Options)
    (fallbackPlatform : option string) (t : Trace) :
  TaskRouter.routeRequest env userInput userId
    (OrchestrationLayer.fallbackOptions options fallbackPlatform) t
  = TaskRouter.routeRequest env userInput userId options t.
Proof. reflexivity. Qed.

(** C10: on the user-preference branch and on the cost-optimisation branch
    the object [getPlatformForTask] returns, and with it the decision
    [routeRequest] builds, has neither [secondary] nor [fallback]; so
    [handleFallback] determines the fallback platform [undefined] and
    hands it on as [overridePlatform]. *)
Theorem C10_override_and_cost_branches_have_no_fallback (env : Env)
    (fuel : nat) (userInput userId message : string) (options : Options)
    (t : Trace) :
  TaskRouter.preferredPlatformOf options <> None
  \/ (optimizeCost options = true /\ isPremiumUser options = false) ->
  (forall label,
      TaskRouter.pi_secondary (TaskRouter.getPlatformForTask label options) = None
      /\ TaskRouter.pi_fallback (TaskRouter.getPlatformForTask label options) = None)
  /\ exists routingInfo,
       TaskRouter.routeRequest env userInput userId options t
       = Some (JS.Return routingInfo, t)
       /\ ri_secondary routingInfo = None
       /\ ri_fallback routingInfo = None
       /\ OrchestrationLayer.fallbackPlatformOf options routingInfo = None
       /\ OrchestrationLayer.handleFallback env fuel userInput userId message
            options t
          = OrchestrationLayer.processRequest env fuel userInput userId
              (OrchestrationLayer.fallbackOptions options None)
              (t ++ [UsingFallback None (ri_platform routingInfo)])%list.
Proof.
  intros Hbranch.
  assert (Hnone : forall label,
             TaskRouter.pi_secondary (TaskRouter.getPlatformForTask label options) = None
             /\ TaskRouter.pi_fallback (TaskRouter.getPlatformForTask label options) = None).
  { intros label.
    destruct (TaskRouter.preferredPlatformOf options) as [preferred|] eqn:Hp.
    - now rewrite (getPlatformForTask_preferred label preferred options Hp).
    - destruct Hbranch as [Hbranch|[Hc Hu]]; [congruence|].
      now rewrite (getPlatformForTask_costOptimized label options Hp Hc Hu). }
  split; [exact Hnone|].
  destruct (routeRequest_returns env userInput userId options t)
    as (label & _ & Hroute).
  destruct (Hnone label) as [Hs Hf].
  eexists. split; [exact Hroute|]. cbv zeta. simpl.
  assert (Hfp : (if isFallbackSecondary options
                 then TaskRouter.pi_fallback (TaskRouter.getPlatformForTask label options)
                 else TaskRouter.pi_secondary (TaskRouter.getPlatformForTask label options))
                = None)
    by (destruct (isFallbackSecondary options); assumption).
  split; [exact Hs|]. split; [exact Hf|]. split; [exact Hfp|].
  unfold OrchestrationLayer.handleFallback, OrchestrationLayer.handleFallbackWith.
  unfold bind at 1. unfold tryCatch, bind at 1. rewrite Hroute.
  cbv zeta. unfold OrchestrationLayer.fallbackPlatformOf. simpl.
  rewrite Hfp. reflexivity.
Qed.

Lemma C10_witness :
  exists routingInfo,
    TaskRouter.routeRequest Samples.allFail "debug this" "u1"
      (Samples.preferring "gemini") []
    = Some (JS.Return routingInfo, [])
    /\ ri_secondary routingInfo = None
    /\ ri_fallback routingInfo = None
    /\ OrchestrationLayer.fallbackPlatformOf (Samples.preferring "gemini")
         routingInfo = None
    /\ OrchestrationLayer.handleFallback Samples.allFail 1 "debug this" "u1"
         "gemini API error" (Samples.preferring "gemini") []
       = OrchestrationLayer.processRequest Samples.allFail 1 "debug this" "u1"
           (OrchestrationLayer.fallbackOptions (Samples.preferring "gemini") None)
           ([] ++ [UsingFallback None (ri_platform routingInfo)])%list.
Proof.
  refine (proj2 (C10_override_and_cost_branches_have_no_fallback
                   Samples.allFail 1 "debug this" "u1" "gemini API error"
                   (Samples.preferring "gemini") [] _)).
  left. intros H. vm_compute in H. discriminate H.
Defined.

(** ** Dispatch *)

Section DispatchFacts.

Variable env : Env.

Lemma routeRequest_preferred (userInput userId preferred : string)
    (options : Options) (t : Trace) :
  TaskRouter.preferredPlatformOf options = Some preferred ->
  exists label,
    TaskRouter.routeRequest env userInput userId options t
    = Some (JS.Return
              (mkRoutingInfo userId userInput label (Some preferred) None None
                 false), t).
Proof.
  intros H.
  destruct (routeRequest_returns env userInput userId options t)
    as (label & _ & Hroute).
  exists label. rewrite Hroute. cbv zeta.
  now rewrite (getPlatformForTask_preferred label preferred options H).
Qed.

(** A preferred platform outside the provider set stops the [try] block of
    [processRequest] before any effect: at the latest, no platform module
    is found for it. *)
Lemma processRequestBody_rejects (userInput userId preferred : string)
    (options : Options) (t : Trace) :
  TaskRouter.preferredPlatformOf options = Some preferred ->
  ~ In preferred providers ->
  exists message,
    OrchestrationLayer.processRequestBody env userInput userId options t
    = Some (JS.Throw message, t).
Proof.
  intros Hp Hnot.
  destruct (routeRequest_preferred userInput userId preferred options t Hp)
    as [label Hroute].
  unfold OrchestrationLayer.processRequestBody.
  unfold bind at 1. rewrite Hroute. cbn [ri_platform ri_taskType].
  match goal with
  | |- context [ContextManager.getContext env userId ?o] =>
      destruct (getContext_returns env userId o t) as [context Hc]
  end.
  unfold bind at 1. rewrite Hc.
  unfold bind at 1, lift at 1.
  destruct (ThinkingEngine.generateThinkingPrompts label userInput)
    as [thinkingPrompts|m]; [|eexists; reflexivity].
  unfold bind at 1, lift at 1.
  destruct (ThinkingEngine.enhancePromptWithThinking _ _ _ _)
    as [enhancedPrompt|m]; [|eexists; reflexivity].
  unfold bind at 1, OrchestrationLayer.getPlatformModule, bind at 1, ask.
  assert (Hmem : existsb (String.eqb preferred) providers = false).
  { apply not_true_is_false. intros Hex. apply Hnot.
    apply existsb_exists in Hex as (x & Hin & Heq).
    apply String.eqb_eq in Heq. now subst x. }
  cbn [JS.showOpt]. rewrite Hmem.
  destruct (platformModulesLoad env t); [|eexists; reflexivity].
  destruct (JS.isInheritedKey preferred); eexists; reflexivity.
Qed.

(** So the whole request, fallback hop included, invokes no provider and
    ends in an error response. *)
Lemma processRequest_rejects (n : nat) (userInput userId preferred : string)
    (options : Options) (t : Trace) :
  TaskRouter.preferredPlatformOf options = Some preferred ->
  ~ In preferred providers ->
  exists response t',
    OrchestrationLayer.processRequest env (S (S n)) userInput userId options t
    = Some (JS.Return response, t')
    /\ providerCalls t' = providerCalls t
    /\ error response <> None.
Proof.
  intros Hp Hnot.
  destruct (processRequestBody_rejects userInput userId preferred options t Hp Hnot)
    as [message Hbody].
  cbn [OrchestrationLayer.processRequest]. unfold tryCatch at 1. rewrite Hbody.
  destruct (OrchestrationLayer.notFalse (enableFallback options)
            && negb (isFallback options)).
  - destruct (routeRequest_preferred userInput userId preferred options t Hp)
      as [label Hroute].
    unfold OrchestrationLayer.handleFallbackWith.
    unfold bind at 1. unfold tryCatch at 1, bind at 1. rewrite Hroute.
    cbn [ri_platform]. unfold bind at 1, emit at 1, ret at 1.
    set (options' := OrchestrationLayer.fallbackOptions options _).
    set (t1 := (t ++ _)%list).
    destruct (processRequestBody_rejects userInput userId preferred options' t1
                Hp Hnot) as [message' Hbody'].
    unfold tryCatch at 1. rewrite Hbody'. cbn.
    rewrite andb_false_r. unfold ret.
    do 2 eexists. split; [reflexivity|]. split; [|discriminate].
    unfold t1, providerCalls. rewrite flat_map_app. cbn. apply app_nil_r.
  - do 2 eexists. split; [reflexivity|]. split; [reflexivity|discriminate].
Qed.

End DispatchFacts.

(** C9 (amended): the decision of [routeRequest] carries a member of the
    provider set, except that a preferred platform supplied by the caller
    is taken verbatim (and an inherited property name as task type selects
    no entry of the table).  A preferred platform outside the set is not
    rejected by [routeRequest] but by [processRequest], before any provider
    is invoked: the request ends in an error response. *)
Theorem C9_platform_membership_and_rejection (env : Env) (n : nat)
    (userInput userId : string) (options : Options) (t : Trace) :
  exists routingInfo,
    TaskRouter.routeRequest env userInput userId options t
    = Some (JS.Return routingInfo, t)
    /\ ((exists p, ri_platform routingInfo = Some p /\ In p providers)
        \/ (exists preferred,
               TaskRouter.preferredPlatformOf options = Some preferred
               /\ ri_platform routingInfo = Some preferred
               /\ ~ In preferred providers
               /\ exists response t',
                    OrchestrationLayer.processRequest env (S (S n)) userInput
                      userId options t
                    = Some (JS.Return response, t')
                    /\ providerCalls t' = providerCalls t
                    /\ error response <> None)
        \/ (TaskRouter.preferredPlatformOf options = None
            /\ JS.isInheritedKey (ri_taskType routingInfo) = true)).
Proof.
  destruct (routeRequest_returns env userInput userId options t)
    as (label & _ & Hroute).
  eexists. split; [exact Hroute|]. cbv zeta. cbn [ri_platform ri_taskType].
  destruct (TaskRouter.preferredPlatformOf options) as [preferred|] eqn:Hp.
  - rewrite (getPlatformForTask_preferred label preferred options Hp).
    cbn [TaskRouter.pi_platform].
    destruct (in_dec string_dec preferred providers) as [Hin|Hnot].
    + left. eauto.
    + right. left. exists preferred. repeat split; try assumption.
      apply (processRequest_rejects env n userInput userId preferred options t Hp Hnot).
  - destruct (JS.isInheritedKey label) eqn:Hk.
    + right. right. split; reflexivity.
    + left. apply (getPlatformForTask_member label options Hp Hk).
Qed.

(** C9 as stated fails: a preferred platform that names no provider comes
    out of [routeRequest] as the platform of the decision. *)
Lemma C9_counterexample :
  exists routingInfo,
    TaskRouter.routeRequest Samples.allWork "hello" "u1"
      (Samples.preferring "foo") []
    = Some (JS.Return routingInfo, [])
    /\ ri_platform routingInfo = Some "foo"
    /\ ~ In "foo" providers.
Proof.
  eexists. split; [vm_compute; reflexivity|]. split; [reflexivity|].
  simpl. intros H. repeat (destruct H as [H|H]; [discriminate H|]). exact H.
Qed.

(** ** Termination and the length of the fallback chain *)

Section ChainFacts.

Variable env : Env.

Lemma providerCalls_app (a b : Trace) :
  providerCalls (a ++ b)%list = (providerCalls a ++ providerCalls b)%list.
Proof. apply flat_map_app. Qed.

(** [saveContext] never throws; its one effect is the saved turn. *)
Lemma saveContext_returns (userId userInput : string) (aiResponse : Value)
    (platform : option string) (taskType : string) (t : Trace) :
  exists saved turn,
    ContextManager.saveContext env userId userInput aiResponse platform
      taskType t
    = Some (JS.Return saved, (t ++ [turn])%list)
    /\ providerCalls [turn] = [].
Proof.
  unfold ContextManager.saveContext, tryCatch, bind, ask, emit, lift, ret.
  destruct (saveConversationTurn env t _); do 2 eexists; split; reflexivity.
Qed.

(** One pass through the [try] block of [processRequest] ends (it never
    runs out of fuel) and invokes at most one provider: the one of the
    platform that [routeRequest] decided on. *)
Lemma processRequestBody_calls (userInput userId : string)
    (options : Options) (t : Trace) (routingInfo : RoutingInfo) :
  TaskRouter.routeRequest env userInput userId options t
  = Some (JS.Return routingInfo, t) ->
  exists result extra,
    OrchestrationLayer.processRequestBody env userInput userId options t
    = Some (result, (t ++ extra)%list)
    /\ (providerCalls extra = []
        \/ providerCalls extra = [JS.showOpt (ri_platform routingInfo)]).
Proof.
  intros Hroute.
  unfold OrchestrationLayer.processRequestBody.
  unfold bind at 1. rewrite Hroute.
  match goal with
  | |- context [ContextManager.getContext env userId ?o] =>
      destruct (getContext_returns env userId o t) as [context Hc]
  end.
  unfold bind at 1. rewrite Hc.
  assert (Hquiet : forall m : string,
             exists (result : JS.Result Response) (extra : Trace),
               Some (JS.Throw (A:=Response) m, t) = Some (result, (t ++ extra)%list)
               /\ (providerCalls extra = []
                   \/ providerCalls extra = [JS.showOpt (ri_platform routingInfo)])).
  { intros m. exists (JS.Throw m), []. rewrite app_nil_r.
    split; [reflexivity|left; reflexivity]. }
  unfold bind at 1, lift at 1.
  destruct (ThinkingEngine.generateThinkingPrompts _ userInput)
    as [thinkingPrompts|m]; [|apply Hquiet].
  unfold bind at 1, lift at 1.
  destruct (ThinkingEngine.enhancePromptWithThinking _ _ _ _)
    as [enhancedPrompt|m]; [|apply Hquiet].
  unfold bind at 1, OrchestrationLayer.getPlatformModule, bind at 1, ask.
  destruct (platformModulesLoad env t); [|apply Hquiet].
  destruct (existsb _ providers); [|destruct (JS.isInheritedKey _); apply Hquiet].
  unfold ret at 1.
  unfold bind at 1, OrchestrationLayer.callGenerateResponse, bind at 1, ask,
    bind at 1, emit, lift at 1.
  destruct (generateResponse env t _ enhancedPrompt) as [platformResponse|m].
  - unfold bind at 1, lift at 1.
    destruct (ResponseSynthesizer.processResponse env platformResponse _ _ _)
      as [processedResponse|m].
    + match goal with
      | |- context [ContextManager.saveContext env ?a ?b ?c ?d ?e] =>
          destruct (saveContext_returns a b c d e
                      (t ++ [ProviderCall (JS.showOpt (ri_platform routingInfo))
                                          enhancedPrompt])%list)
            as (saved & turn & Hsave & Hturn)
      end.
      unfold bind at 1. rewrite Hsave. unfold ret.
      do 2 eexists. rewrite <- app_assoc. split; [reflexivity|].
      right. rewrite providerCalls_app, Hturn. reflexivity.
    + do 2 eexists. split; [reflexivity|right; reflexivity].
  - do 2 eexists. split; [reflexivity|right; reflexivity].
Qed.

Lemma processRequestBody_effect (userInput userId : string)
    (options : Options) (t : Trace) :
  exists result extra,
    OrchestrationLayer.processRequestBody env userInput userId options t
    = Some (result, (t ++ extra)%list)
    /\ List.length (providerCalls extra) <= 1.
Proof.
  destruct (routeRequest_returns env userInput userId options t)
    as (label & _ & Hroute).
  destruct (processRequestBody_calls userInput userId options t _ Hroute)
    as (result & extra & Hbody & [Hcalls|Hcalls]);
    exists result, extra; (split; [exact Hbody|]); rewrite Hcalls; simpl; lia.
Qed.

(** With fuel for two passes [processRequest] always returns a response:
    it neither throws nor runs out of fuel, and it invokes a provider at
    most twice (the first attempt and one fallback hop). *)
Lemma processRequest_returns (n : nat) (userInput userId : string)
    (options : Options) (t : Trace) :
  exists response extra,
    OrchestrationLayer.processRequest env (S (S n)) userInput userId options t
    = Some (JS.Return response, (t ++ extra)%list)
    /\ List.length (providerCalls extra) <= 2.
Proof.
  destruct (processRequestBody_effect userInput userId options t)
    as (result & extra & Hbody & Hcalls).
  cbn [OrchestrationLayer.processRequest]. unfold tryCatch at 1. rewrite Hbody.
  destruct result as [response|message].
  { exists response, extra. split; [reflexivity|lia]. }
  destruct (OrchestrationLayer.notFalse (enableFallback options)
            && negb (isFallback options)).
  - destruct (routeRequest_returns env userInput userId options (t ++ extra)%list)
      as (label & _ & Hroute).
    unfold OrchestrationLayer.handleFallbackWith.
    unfold bind at 1. unfold tryCatch at 1, bind at 1. rewrite Hroute.
    cbv zeta. unfold bind at 1, emit at 1, ret at 1.
    set (options' := OrchestrationLayer.fallbackOptions options _).
    set (event := UsingFallback _ _).
    destruct (processRequestBody_effect userInput userId options'
                ((t ++ extra) ++ [event])%list)
      as (result' & extra' & Hbody' & Hcalls').
    unfold tryCatch at 1. rewrite Hbody'.
    exists (match result' with
            | JS.Return response => response
            | JS.Throw message' =>
                OrchestrationLayer.errorResponse
                  "I encountered an issue processing your request. Please try again."
                  message' None userId
            end), (extra ++ [event] ++ extra')%list.
    split.
    + rewrite !app_assoc. destruct result'; [reflexivity|].
      cbn. rewrite andb_false_r. reflexivity.
    + rewrite !providerCalls_app, !length_app. subst event. simpl. lia.
  - do 2 eexists. split; [reflexivity|lia].
Qed.

(** When classifier and store answer alike throughout a run, the routing
    decision is the same wherever it is taken, whatever the fallback hop
    puts into [isFallback], [isFallbackSecondary] and [overridePlatform]. *)
Lemma routeRequest_insensitive (userInput userId : string) (options : Options)
    (fallbackPlatform : option string) (t t' : Trace)
    (routingInfo : RoutingInfo) :
  traceInsensitive env ->
  TaskRouter.routeRequest env userInput userId options t
  = Some (JS.Return routingInfo, t) ->
  TaskRouter.routeRequest env userInput userId
    (OrchestrationLayer.fallbackOptions options fallbackPlatform) t'
  = Some (JS.Return routingInfo, t').
Proof.
  intros Hstable. rewrite routeRequest_ignores_overridePlatform.
  destruct (Hstable t t') as (Hinit & Hclassify & Hhistory & Hsearch).
  assert (Hcontext : forall context,
             ContextManager.getContext env userId
               ContextManager.noGetContextOptions t = Some (JS.Return context, t) ->
             ContextManager.getContext env userId
               ContextManager.noGetContextOptions t' = Some (JS.Return context, t')).
  { intros context. unfold ContextManager.getContext, tryCatch, bind, ask, lift, ret.
    cbn. rewrite Hhistory.
    destruct (getConversationHistory env t' userId _); intros [= <-]; reflexivity. }
  assert (Hlabel : forall label,
             TaskRouter.classifyTask env userInput userId options t
             = Some (JS.Return label, t) ->
             TaskRouter.classifyTask env userInput userId options t'
             = Some (JS.Return label, t')).
  { intros label.
    destruct (getContext_returns env userId ContextManager.noGetContextOptions t)
      as [context Hc].
    unfold TaskRouter.classifyTask, tryCatch, bind.
    rewrite Hc, (Hcontext context Hc). unfold ask, ret, throw.
    rewrite Hinit, Hclassify.
    destruct (classifier_isInitialized env t');
      [destruct (classifier_classify env t' userInput context) as [m| |c l];
       [| |destruct (TaskRouter.exceedsThreshold _ _)]|];
      intros [= <-]; reflexivity. }
  destruct (classifyTask_returns env userInput userId options t) as [label Hl].
  unfold TaskRouter.routeRequest, tryCatch, bind.
  rewrite Hl, (Hlabel label Hl). unfold ret.
  intros [= <-]. reflexivity.
Qed.

(** Then every provider call of a request, the fallback hop included, goes
    to the platform the first routing decided on. *)
Lemma processRequest_calls_one_platform (n : nat) (userInput userId : string)
    (options : Options) (t : Trace) (routingInfo : RoutingInfo) :
  traceInsensitive env ->
  TaskRouter.routeRequest env userInput userId options t
  = Some (JS.Return routingInfo, t) ->
  exists response extra,
    OrchestrationLayer.processRequest env (S (S n)) userInput userId options t
    = Some (JS.Return response, (t ++ extra)%list)
    /\ forall p, In p (providerCalls extra) ->
                 p = JS.showOpt (ri_platform routingInfo).
Proof.
  intros Hstable Hroute.
  destruct (processRequestBody_calls userInput userId options t _ Hroute)
    as (result & extra & Hbody & Hcalls).
  assert (Hextra : forall p, In p (providerCalls extra) ->
                     p = JS.showOpt (ri_platform routingInfo)).
  { intros p Hp. destruct Hcalls as [Hcalls|Hcalls]; rewrite Hcalls in Hp;
      simpl in Hp; intuition congruence. }
  cbn [OrchestrationLayer.processRequest]. unfold tryCatch at 1. rewrite Hbody.
  destruct result as [response|message].
  { exists response, extra. split; [reflexivity|exact Hextra]. }
  destruct (OrchestrationLayer.notFalse (enableFallback options)
            && negb (isFallback options)).
  - assert (Hroute1 : TaskRouter.routeRequest env userInput userId options
                        (t ++ extra)%list
                      = Some (JS.Return routingInfo, (t ++ extra)%list)).
    { rewrite <- (routeRequest_ignores_overridePlatform env userInput userId
                    options None).
      now apply routeRequest_insensitive with (t := t). }
    unfold OrchestrationLayer.handleFallbackWith.
    unfold bind at 1. unfold tryCatch at 1, bind at 1. rewrite Hroute1.
    unfold bind at 1, emit at 1, ret at 1.
    set (options' := OrchestrationLayer.fallbackOptions options _).
    set (event := UsingFallback _ _).
    assert (Hroute2 : TaskRouter.routeRequest env userInput userId options'
                        ((t ++ extra) ++ [event])%list
                      = Some (JS.Return routingInfo, ((t ++ extra) ++ [event])%list))
      by (now apply routeRequest_insensitive with (t := t)).
    destruct (processRequestBody_calls userInput userId options' _ _ Hroute2)
      as (result' & extra' & Hbody' & Hcalls').
    unfold tryCatch at 1. rewrite Hbody'.
    exists (match result' with
            | JS.Return response => response
            | JS.Throw message' =>
                OrchestrationLayer.errorResponse
                  "I encountered an issue processing your request. Please try again."
                  message' None userId
            end), (extra ++ [event] ++ extra')%list.
    split.
    + rewrite !app_assoc. destruct result'; [reflexivity|].
      cbn. rewrite andb_false_r. reflexivity.
    + intros p. rewrite !providerCalls_app, !in_app_iff.
      intros [Hp|[Hp|Hp]]; [now apply Hextra|subst event; destruct Hp|].
      destruct Hcalls' as [Hcalls'|Hcalls']; rewrite Hcalls' in Hp;
        simpl in Hp; intuition congruence.
  - do 2 eexists. split; [reflexivity|exact Hextra].
Qed.

(** The loop of [processMultiPlatformRequest] never skips a branch: since
    [processRequest] returns a response whatever happens, one response is
    collected for every entry of [platforms]. *)
Lemma processOnEach_collects_all (n : nat) (userInput userId : string)
    (platforms : list string) (options : Options) :
  forall (platformResponses : list Response) (t : Trace),
  exists collected t',
    OrchestrationLayer.processOnEach env (S (S n)) userInput userId platforms
      options platformResponses t
    = Some (JS.Return (platformResponses ++ collected)%list, t')
    /\ List.length collected = List.length platforms.
Proof.
  induction platforms as [|platform rest IH]; intros platformResponses t.
  - exists [], t. rewrite app_nil_r. split; reflexivity.
  - destruct (processRequest_returns n userInput userId
                (OrchestrationLayer.branchOptions options platform) t)
      as (response & extra & Hbranch & _).
    cbn [OrchestrationLayer.processOnEach].
    unfold bind at 1. unfold tryCatch at 1, bind at 1. rewrite Hbranch.
    unfold ret at 1.
    destruct (IH (platformResponses ++ [response])%list (t ++ extra)%list)
      as (collected & t' & Hrest & Hlen).
    rewrite Hrest. exists (response :: collected), t'.
    rewrite <- app_assoc. split; [reflexivity|]. simpl. now rewrite Hlen.
Qed.

End ChainFacts.

(** ** The fallback chain on concrete runs *)

(** C1: a run in which the first provider call fails.  Routing does not
    read [overridePlatform], so the fallback hop is routed exactly like the
    first attempt: the platform that just failed is invoked a second time,
    although [handleFallback] announced the secondary platform.  The chain
    itself is short: a request ends after at most two provider calls. *)
Theorem C1_fallback_invokes_the_failed_platform_again :
  (forall env userInput userId options fallbackPlatform t,
      TaskRouter.routeRequest env userInput userId
        (OrchestrationLayer.fallbackOptions options fallbackPlatform) t
      = TaskRouter.routeRequest env userInput userId options t)
  /\ (forall env n userInput userId options t,
         exists response extra,
           OrchestrationLayer.processRequest env (S (S n)) userInput userId
             options t
           = Some (JS.Return response, (t ++ extra)%list)
           /\ List.length (providerCalls extra) <= 2)
  /\ exists response t',
       OrchestrationLayer.processRequest Samples.firstFails 2 "debug this" "u1"
         noOptions []
       = Some (JS.Return response, t')
       /\ providerCalls t' = ["copilot"; "copilot"]
       /\ ~ NoDup (providerCalls t')
       /\ In (UsingFallback (Some "deepseek") (Some "copilot")) t'
       /\ platform response = Some "copilot"
       /\ error response = None.
Proof.
  split; [intros; apply routeRequest_ignores_overridePlatform|].
  split; [intros; apply processRequest_returns|].
  do 2 eexists. split; [vm_compute; reflexivity|].
  split; [reflexivity|]. split.
  - cbn. intros H. inversion H as [|x l Hnotin _]. apply Hnotin. now left.
  - split; [right; left; reflexivity|]. split; reflexivity.
Qed.

(** C2: a run in which every provider call fails.  [processRequest] always
    returns a response, here one with an [error]; but the only retry goes
    to the primary platform again, and since the retry runs with
    [isFallback] set, its failure ends the request: neither the secondary
    nor the fallback platform of the task is ever invoked. *)
Theorem C2_fallback_chain_stops_after_one_retry :
  (forall env n userInput userId options t,
      exists response t',
        OrchestrationLayer.processRequest env (S (S n)) userInput userId
          options t
        = Some (JS.Return response, t'))
  /\ exists routingInfo response t',
       TaskRouter.routeRequest Samples.allFail "debug this" "u1" noOptions []
       = Some (JS.Return routingInfo, [])
       /\ ri_platform routingInfo = Some "copilot"
       /\ ri_secondary routingInfo = Some "deepseek"
       /\ ri_fallback routingInfo = Some "local"
       /\ OrchestrationLayer.processRequest Samples.allFail 2 "debug this" "u1"
            noOptions []
          = Some (JS.Return response, t')
       /\ providerCalls t' = ["copilot"; "copilot"]
       /\ ~ In "deepseek" (providerCalls t')
       /\ ~ In "local" (providerCalls t')
       /\ error response
          = Some "copilot API error: Request failed with status code 401".
Proof.
  split.
  - intros env n userInput userId options t.
    destruct (processRequest_returns env n userInput userId options t)
      as (response & extra & H & _).
    eauto.
  - do 3 eexists. split; [vm_compute; reflexivity|].
    do 3 (split; [reflexivity|]).
    split; [vm_compute; reflexivity|].
    split; [reflexivity|].
    split; [|split; [|reflexivity]];
      cbn; intros H; repeat (destruct H as [H|H]; [discriminate H|]); exact H.
Qed.

(** C4: [processMultiPlatformRequest] collects one response per entry of
    [platforms], failed branches included, because no branch ever throws.
    On two runs that name chatgpt and gemini: when the providers work, both
    branches are dispatched to the routed platform (copilot) and neither
    named platform is invoked; when every provider fails, both error
    responses are collected and merged, and the result is the merged
    response, not an error response. *)
Theorem C4_multi_platform_branches_ignore_their_platform :
  (forall env n userInput userId platforms options t,
      exists collected t',
        OrchestrationLayer.processOnEach env (S (S n)) userInput userId
          platforms options [] t
        = Some (JS.Return collected, t')
        /\ List.length collected = List.length platforms)
  /\ (exists response t',
         OrchestrationLayer.processMultiPlatformRequest Samples.allWork 2
           "debug this" "u1" ["chatgpt"; "gemini"] noOptions []
         = Some (JS.Return response, t')
         /\ providerCalls t' = ["copilot"; "copilot"])
  /\ (exists response t',
         OrchestrationLayer.processMultiPlatformRequest Samples.allFail 2
           "debug this" "u1" ["chatgpt"; "gemini"] noOptions []
         = Some (JS.Return response, t')
         /\ providerCalls t' = ["copilot"; "copilot"]
         /\ error response = None
         /\ platform response = Some "merged"
         /\ List.length (sources response) = 2).
Proof.
  split; [|split].
  - intros env n userInput userId platforms options t.
    apply (processOnEach_collects_all env n userInput userId platforms options [] t).
  - do 2 eexists. split; [vm_compute; reflexivity|reflexivity].
  - do 2 eexists. split; [vm_compute; reflexivity|].
    repeat split; reflexivity.
Qed.

(** ** Context trimming *)

Section TrimmingFacts.

Import ContextManager.

Variable contextWindowSize : Q.

Let limit : Q := (contextWindowSize * 0.9)%Q.

Lemma gt_false_le (a b : Q) : gt a b = false -> (a <= b)%Q.
Proof.
  unfold gt. intros H. apply negb_false_iff in H. now apply Qle_bool_iff.
Qed.


(** The running total is the token count of what is held, and it never
    passes the limit. *)
Lemma optimizeLoop_within_limit (remaining : list Turn) :
  forall (totalTokens : Q) (optimizedContext : list Turn),
    (totalTokens == cumulativeTokens optimizedContext)%Q ->
    (totalTokens <= limit)%Q ->
    (cumulativeTokens
       (optimizeLoop contextWindowSize remaining totalTokens optimizedContext)
     <= limit)%Q.
Proof.
  induction remaining as [|turn older IH];
    intros totalTokens optimizedContext Htotal Hle; simpl.
  - now rewrite <- Htotal.
  - destruct (gt _ _) eqn:Hgt.
    + now rewrite <- Htotal.
    + apply IH.
      * simpl. rewrite Htotal. lra.
      * apply gt_false_le in Hgt. exact Hgt.
Qed.

End TrimmingFacts.



(** ** Prompt enhancement *)

Section ListFacts.

Context {A : Type}.

Lemma findIndex_Some (p : A -> bool) (l : list A) (i : nat) :
  findIndex p l = Some i ->
  exists x, nth_error l i = Some x /\ p x = true /\ find p l = Some x.
Proof.
  revert i. induction l as [|a l IH]; intros i; simpl; [discriminate|].
  destruct (p a) eqn:Hp.
  - intros [= <-]. exists a. auto.
  - destruct (findIndex p l) as [k|]; [|discriminate].
    intros [= <-]. destruct (IH k eq_refl) as (x & Hn & Hx & Hf). eauto.
Qed.

Lemma findLastIndex_Some (p : A -> bool) (l : list A) (j : nat) :
  ThinkingEngine.findLastIndex p l = Some j ->
  exists x, nth_error l j = Some x /\ p x = true.
Proof.
  revert j. induction l as [|a l IH]; intros j; simpl; [discriminate|].
  destruct (ThinkingEngine.findLastIndex p l) as [k|].
  - intros [= <-]. apply (IH k eq_refl).
  - destruct (p a) eqn:Hp; [|discriminate].
    intros [= <-]. exists a. auto.
Qed.

Lemma nth_error_updateAt_same (f : A -> A) (l : list A) (i : nat) :
  nth_error (updateAt i f l) i = option_map f (nth_error l i).
Proof.
  revert i. induction l as [|a l IH]; intros [|i]; simpl; auto.
Qed.

Lemma nth_error_updateAt_other (f : A -> A) (l : list A) (i j : nat) :
  i <> j -> nth_error (updateAt j f l) i = nth_error l i.
Proof.
  revert i j. induction l as [|a l IH]; intros [|i] [|j] H; simpl; auto;
    congruence.
Qed.

(** An update that does not change what [p] sees does not change what the
    searches find. *)
Lemma map_updateAt (p : A -> bool) (f : A -> A) (l : list A) (i : nat) :
  (forall x, p (f x) = p x) -> map p (updateAt i f l) = map p l.
Proof.
  intros H. revert i. induction l as [|a l IH]; intros [|i]; simpl;
    rewrite ?H, ?IH; reflexivity.
Qed.

Lemma findIndex_map (p : A -> bool) (l l' : list A) :
  map p l = map p l' -> findIndex p l = findIndex p l'.
Proof.
  revert l'. induction l as [|a l IH]; intros [|a' l']; simpl;
    try discriminate; [reflexivity|].
  intros [= Ha Hl]. now rewrite Ha, (IH l' Hl).
Qed.

Lemma findLastIndex_map (p : A -> bool) (l l' : list A) :
  map p l = map p l' ->
  ThinkingEngine.findLastIndex p l = ThinkingEngine.findLastIndex p l'.
Proof.
  revert l'. induction l as [|a l IH]; intros [|a' l']; simpl;
    try discriminate; [reflexivity|].
  intros [= Ha Hl]. now rewrite Ha, (IH l' Hl).
Qed.

Lemma filter_length_map (p : A -> bool) (l l' : list A) :
  map p l = map p l' ->
  List.length (filter p l) = List.length (filter p l').
Proof.
  revert l'. induction l as [|a l IH]; intros [|a' l']; simpl;
    try discriminate; [reflexivity|].
  intros [= Ha Hl]. rewrite Ha. destruct (p a'); simpl; rewrite (IH l' Hl);
    reflexivity.
Qed.

Lemma find_findIndex (p : A -> bool) (l : list A) :
  find p l
  = match findIndex p l with
    | Some i => nth_error l i
    | None => None
    end.
Proof.
  induction l as [|a l IH]; simpl; [reflexivity|].
  destruct (p a); [reflexivity|].
  rewrite IH. now destruct (findIndex p l).
Qed.

End ListFacts.

Section EnhancementFacts.

Import ThinkingEngine.

Variable instructions : ThinkingPrompts -> JS.Result string.
Variable thinkingPrompts : ThinkingPrompts.

Lemma message_role_clash (m : Message) :
  isSystem m = true -> isUser m = true -> False.
Proof.
  unfold isSystem, isUser. intros Hs Hu.
  apply String.eqb_eq in Hs. apply String.eqb_eq in Hu. congruence.
Qed.

Lemma content_role_clash (c : Content) :
  isSystemContent c = true -> isUserContent c = true -> False.
Proof.
  unfold isSystemContent, isUserContent. intros Hs Hu.
  apply String.eqb_eq in Hs. apply String.eqb_eq in Hu. congruence.
Qed.

(** One enhancement of a [messages] array, whatever becomes of the content
    of the system message: the roles stay, unless a system message had to
    be put in front; and if the result has a user message, the instructions
    were generated. *)
Lemma enhanceMessagesBy_Return (merge : string -> string -> string)
    (messages once : list Message) :
  enhanceMessagesBy instructions merge messages thinkingPrompts
  = JS.Return once ->
  map isSystem once
  = match findIndex isSystem messages with
    | Some _ => map isSystem messages
    | None => true :: map isSystem messages
    end
  /\ List.length once
     = match findIndex isSystem messages with
       | Some _ => List.length messages
       | None => S (List.length messages)
       end
  /\ (forall j, findLastIndex isUser once = Some j ->
        exists text, instructions thinkingPrompts = JS.Return text).
Proof.
  unfold enhanceMessagesBy. cbv zeta.
  set (messages1 := match findIndex isSystem messages with
                    | Some i => _
                    | None => _
                    end).
  assert (H1 : map isSystem messages1
               = match findIndex isSystem messages with
                 | Some _ => map isSystem messages
                 | None => true :: map isSystem messages
                 end).
  { subst messages1. destruct (findIndex isSystem messages).
    - apply map_updateAt. reflexivity.
    - reflexivity. }
  assert (H2 : List.length messages1
               = match findIndex isSystem messages with
                 | Some _ => List.length messages
                 | None => S (List.length messages)
                 end).
  { subst messages1. destruct (findIndex isSystem messages).
    - clear. revert n. induction messages as [|a l IH]; intros [|n]; simpl; auto.
    - reflexivity. }
  destruct (findLastIndex isUser messages1) as [j|] eqn:Hj.
  - destruct (instructions thinkingPrompts) as [text|m]; [|discriminate].
    cbn [JS.bindR]. intros [= <-]. split; [|split].
    + rewrite <- H1. apply map_updateAt. reflexivity.
    + rewrite <- H2. clear.
      revert j. induction messages1 as [|a l IH]; intros [|j]; simpl; auto.
    + intros _ _. now exists text.
  - intros [= <-]. split; [exact H1|]. split; [exact H2|].
    intros j Hj'. congruence.
Qed.

(** After one enhancement a [messages] array has a system message. *)
Lemma enhanceMessagesBy_has_system (merge : string -> string -> string)
    (messages once : list Message) :
  enhanceMessagesBy instructions merge messages thinkingPrompts
  = JS.Return once ->
  exists i m, findIndex isSystem once = Some i /\ nth_error once i = Some m.
Proof.
  intros H. destruct (enhanceMessagesBy_Return merge _ _ H) as [Hroles _].
  assert (Hfound : exists i, findIndex isSystem once = Some i).
  { destruct (findIndex isSystem messages) as [i|] eqn:Hi.
    - exists i. rewrite <- Hi. apply findIndex_map, Hroles.
    - exists 0.
      rewrite (findIndex_map isSystem once (mkMessage "system" "" :: messages));
        [reflexivity|exact Hroles]. }
  destruct Hfound as [i Hi]. exists i.
  destruct (findIndex_Some _ _ _ Hi) as (m & Hm & _). eauto.
Qed.

(** The enhancers of the sources, applied to a [messages] array with a
    system message: they succeed once the instructions can be generated,
    keep the roles, and prepend the system prompt to the first system
    message. *)
Lemma enhanceMessages_again (messages : list Message) (i : nat) (m : Message) :
  findIndex isSystem messages = Some i ->
  nth_error messages i = Some m ->
  (forall j, findLastIndex isUser messages = Some j ->
     exists text, instructions thinkingPrompts = JS.Return text) ->
  exists twice,
    enhanceMessages instructions messages thinkingPrompts = JS.Return twice
    /\ map isSystem twice = map isSystem messages
    /\ find isSystem twice
       = Some (mkMessage (msg_role m)
                 (systemPrompt thinkingPrompts ++ " " ++ msg_content m)).
Proof.
  intros Hi Hm Hcalled.
  destruct (findIndex_Some _ _ _ Hi) as (m' & Hm' & Hsys & _).
  rewrite Hm in Hm'. injection Hm' as <-.
  unfold enhanceMessages, enhanceMessagesBy. cbv zeta. rewrite Hi.
  set (prepend := fun m0 : Message =>
                    mkMessage (msg_role m0) (prependInstruction _ _)).
  set (messages1 := updateAt i prepend messages).
  assert (Hroles1 : map isSystem messages1 = map isSystem messages)
    by (apply map_updateAt; reflexivity).
  assert (Hnth1 : nth_error messages1 i = Some (prepend m))
    by (unfold messages1; now rewrite nth_error_updateAt_same, Hm).
  assert (Hlast : findLastIndex isUser messages1 = findLastIndex isUser messages)
    by (apply findLastIndex_map, map_updateAt; reflexivity).
  destruct (findLastIndex isUser messages1) as [j|] eqn:Hj.
  - destruct (Hcalled j (eq_sym Hlast)) as [text Htext]. rewrite Htext.
    cbn [JS.bindR].
    match goal with
    | |- context [updateAt j ?f messages1] => set (append := f)
    end.
    assert (Hroles2 : map isSystem (updateAt j append messages1)
                      = map isSystem messages)
      by (rewrite <- Hroles1; apply map_updateAt; reflexivity).
    eexists. split; [reflexivity|]. split; [exact Hroles2|].
    rewrite find_findIndex, (findIndex_map _ _ _ Hroles2), Hi.
    destruct (findLastIndex_Some _ _ _ Hj) as (x & Hx & Huser).
    rewrite nth_error_updateAt_other; [exact Hnth1|].
    intros ->. rewrite Hnth1 in Hx. injection Hx as <-.
    exact (message_role_clash (prepend m) Hsys Huser).
  - eexists. split; [reflexivity|]. split; [exact Hroles1|].
    now rewrite find_findIndex, (findIndex_map _ _ _ Hroles1), Hi.
Qed.

End EnhancementFacts.

Section ContentsFacts.

Import ThinkingEngine.

Variable instructions : ThinkingPrompts -> JS.Result string.
Variable thinkingPrompts : ThinkingPrompts.

Lemma updateFirstPart_defined (i : nat) (f : string -> string)
    (contents : list Content) (c : Content) (text : string)
    (rest : list string) :
  nth_error contents i = Some c ->
  cnt_parts c = text :: rest ->
  updateFirstPart i f contents
  = JS.Return (updateAt i (withFirstPart f) contents).
Proof.
  intros Hc Hp. unfold updateFirstPart. rewrite Hc.
  destruct c as [role parts]. simpl in Hp. now subst parts.
Qed.

Lemma updateFirstPart_Return (i : nat) (f : string -> string)
    (contents contents' : list Content) :
  updateFirstPart i f contents = JS.Return contents' ->
  contents' = updateAt i (withFirstPart f) contents
  /\ exists c text rest,
       nth_error contents i = Some c /\ cnt_parts c = text :: rest.
Proof.
  unfold updateFirstPart.
  destruct (nth_error contents i) as [[role [|text rest]]|]; try discriminate.
  intros [= <-]. split; [reflexivity|]. now exists (mkContent role (text :: rest)), text, rest.
Qed.

(** What one successful enhancement leaves behind: a first system entry
    with a first part, and a first part in the last user entry, for which
    the instructions were generated. *)
Lemma enhanceContents_shape (contents contents1 : list Content) :
  enhanceContents instructions contents thinkingPrompts = JS.Return contents1 ->
  (exists i c text rest,
      findIndex isSystemContent contents1 = Some i
      /\ nth_error contents1 i = Some c
      /\ cnt_parts c = text :: rest)
  /\ (forall j,
         findLastIndex isUserContent contents1 = Some j ->
         (exists text, instructions thinkingPrompts = JS.Return text)
         /\ exists c text rest,
              nth_error contents1 j = Some c /\ cnt_parts c = text :: rest).
Proof.
  unfold enhanceContents. cbv zeta.
  set (prepend := fun text : string => _ ++ " " ++ text).
  set (step1 := match findIndex isSystemContent contents with
                | Some i => _
                | None => _
                end).
  destruct step1 as [contentsA|message] eqn:Hstep; [|discriminate].
  cbn [JS.bindR].
  assert (HA : exists i c text rest,
             findIndex isSystemContent contentsA = Some i
             /\ nth_error contentsA i = Some c
             /\ isSystemContent c = true
             /\ cnt_parts c = text :: rest).
  { subst step1. destruct (findIndex isSystemContent contents) as [i|] eqn:Hi.
    - apply updateFirstPart_Return in Hstep as (-> & c & text & rest & Hc & Hp).
      destruct (findIndex_Some _ _ _ Hi) as (c' & Hc' & Hsys & _).
      rewrite Hc in Hc'. injection Hc' as <-.
      exists i, (withFirstPart prepend c), (prepend text), rest.
      split; [|split; [|split]].
      + rewrite <- Hi. apply findIndex_map, map_updateAt. reflexivity.
      + now rewrite nth_error_updateAt_same, Hc.
      + exact Hsys.
      + unfold withFirstPart. now rewrite Hp.
    - injection Hstep as <-.
      exists 0, (mkContent "system" [systemPrompt thinkingPrompts]),
        (systemPrompt thinkingPrompts), [].
      repeat split. }
  destruct HA as (i & c & text & rest & Hi & Hc & Hsys & Hp).
  destruct (findLastIndex isUserContent contentsA) as [j|] eqn:Hj.
  - destruct (instructions thinkingPrompts) as [itext|m]; [|discriminate].
    cbn [JS.bindR].
    match goal with
    | |- updateFirstPart j ?f contentsA = _ -> _ => set (append := f)
    end.
    intros Hret.
    apply updateFirstPart_Return in Hret as (-> & cj & textj & restj & Hcj & Hpj).
    destruct (findLastIndex_Some _ _ _ Hj) as (x & Hx & Huser).
    rewrite Hcj in Hx. injection Hx as <-.
    assert (Hij : i <> j).
    { intros ->. rewrite Hc in Hcj. injection Hcj as <-.
      exact (content_role_clash c Hsys Huser). }
    split.
    + exists i, c, text, rest. split; [|split; [|exact Hp]].
      * rewrite <- Hi. apply findIndex_map, map_updateAt. reflexivity.
      * now rewrite nth_error_updateAt_other.
    + intros j' Hj'. split; [now exists itext|].
      assert (Hsame : findLastIndex isUserContent
                        (updateAt j (withFirstPart append) contentsA)
                      = Some j)
        by (rewrite <- Hj; apply findLastIndex_map, map_updateAt; reflexivity).
      rewrite Hsame in Hj'. injection Hj' as <-.
      exists (withFirstPart append cj), (append textj), restj. split.
      * now rewrite nth_error_updateAt_same, Hcj.
      * unfold withFirstPart. now rewrite Hpj.
  - intros [= <-]. split.
    + exists i, c, text, rest. auto.
    + intros j' Hj'. congruence.
Qed.

(** On such a [contents] array a further enhancement succeeds, keeps the
    roles, and prepends the system prompt to the first system entry once
    more. *)
Lemma enhanceContents_again (contents : list Content) (i : nat) (c : Content)
    (text : string) (rest : list string) :
  findIndex isSystemContent contents = Some i ->
  nth_error contents i = Some c ->
  cnt_parts c = text :: rest ->
  (forall j,
      findLastIndex isUserContent contents = Some j ->
      (exists itext, instructions thinkingPrompts = JS.Return itext)
      /\ exists cj textj restj,
           nth_error contents j = Some cj /\ cnt_parts cj = textj :: restj) ->
  exists contents2 c2,
    enhanceContents instructions contents thinkingPrompts = JS.Return contents2
    /\ map isSystemContent contents2 = map isSystemContent contents
    /\ find isSystemContent contents2 = Some c2
    /\ hd_error (cnt_parts c2)
       = Some (systemPrompt thinkingPrompts ++ " " ++ text).
Proof.
  intros Hi Hc Hp Huserparts.
  destruct (findIndex_Some _ _ _ Hi) as (c' & Hc' & Hsys & _).
  rewrite Hc in Hc'. injection Hc' as <-.
  unfold enhanceContents. cbv zeta. rewrite Hi.
  set (prepend := fun text0 : string => _ ++ " " ++ text0).
  rewrite (updateFirstPart_defined i prepend contents c text rest Hc Hp).
  cbn [JS.bindR].
  set (contentsA := updateAt i (withFirstPart prepend) contents).
  assert (HrolesA : map isSystemContent contentsA = map isSystemContent contents)
    by (apply map_updateAt; reflexivity).
  assert (HnthA : nth_error contentsA i = Some (withFirstPart prepend c))
    by (unfold contentsA; now rewrite nth_error_updateAt_same, Hc).
  assert (Hhd : hd_error (cnt_parts (withFirstPart prepend c))
                = Some (prepend text))
    by (unfold withFirstPart; now rewrite Hp).
  assert (HlastA : findLastIndex isUserContent contentsA
                   = findLastIndex isUserContent contents)
    by (apply findLastIndex_map, map_updateAt; reflexivity).
  rewrite HlastA.
  destruct (findLastIndex isUserContent contents) as [j|] eqn:Hj.
  - destruct (Huserparts j eq_refl)
      as ([itext Hitext] & cj & textj & restj & Hcj & Hpj).
    rewrite Hitext. cbn [JS.bindR].
    match goal with
    | |- context [updateFirstPart j ?f contentsA] => set (append := f)
    end.
    destruct (findLastIndex_Some _ _ _ Hj) as (x & Hx & Huser).
    rewrite Hcj in Hx. injection Hx as <-.
    assert (Hij : i <> j).
    { intros ->. rewrite Hc in Hcj. injection Hcj as <-.
      exact (content_role_clash c Hsys Huser). }
    assert (HcjA : nth_error contentsA j = Some cj)
      by (unfold contentsA; rewrite nth_error_updateAt_other; auto).
    rewrite (updateFirstPart_defined j append contentsA cj textj restj HcjA Hpj).
    assert (Hroles2 : map isSystemContent
                        (updateAt j (withFirstPart append) contentsA)
                      = map isSystemContent contents)
      by (rewrite <- HrolesA; apply map_updateAt; reflexivity).
    do 2 eexists. split; [reflexivity|]. split; [exact Hroles2|].
    split; [|exact Hhd].
    rewrite find_findIndex, (findIndex_map _ _ _ Hroles2), Hi.
    now rewrite nth_error_updateAt_other.
  - do 2 eexists. split; [reflexivity|]. split; [exact HrolesA|].
    split; [|exact Hhd].
    now rewrite find_findIndex, (findIndex_map _ _ _ HrolesA), Hi.
Qed.

End ContentsFacts.

Lemma not_merging (platform : option string) :
  ~ In (JS.showOpt platform) ["vertix"; "local"] ->
  String.eqb (JS.showOpt platform) "vertix"
  || String.eqb (JS.showOpt platform) "local" = false.
Proof.
  intros H. apply orb_false_iff. split; apply String.eqb_neq; intros Heq;
    apply H; rewrite Heq; simpl; tauto.
Qed.

Section EnhanceTwice.

Import ThinkingEngine.

Variable instructions : ThinkingPrompts -> JS.Result string.
Variable thinkingPrompts : ThinkingPrompts.

Lemma enhanceChatGPTPrompt_twice (prompt once : PlatformPrompt) :
  enhanceChatGPTPrompt instructions prompt thinkingPrompts = JS.Return once ->
  exists twice text,
    enhanceChatGPTPrompt instructions once thinkingPrompts = JS.Return twice
    /\ systemCount twice = systemCount once
    /\ systemText once = Some text
    /\ systemText twice = Some (systemPrompt thinkingPrompts ++ " " ++ text).
Proof.
  destruct prompt as [messages extras|contents]; [|discriminate].
  cbn [enhanceChatGPTPrompt].
  destruct (enhanceMessages instructions messages thinkingPrompts)
    as [messages1|message] eqn:Hfirst; [|discriminate].
  intros [= <-]. unfold enhanceMessages in Hfirst.
  destruct (enhanceMessagesBy_has_system instructions thinkingPrompts _ _ _
              Hfirst) as (i & m & Hi & Hm).
  destruct (enhanceMessagesBy_Return instructions thinkingPrompts _ _ _ Hfirst)
    as (_ & _ & Hcalled).
  destruct (enhanceMessages_again instructions thinkingPrompts _ i m Hi Hm
              Hcalled) as (messages2 & Hsecond & Hroles & Hfind).
  destruct (findIndex_Some _ _ _ Hi) as (m' & Hm' & _ & Hfind1).
  rewrite Hm in Hm'. injection Hm' as <-.
  exists (MessagesPrompt messages2 extras), (msg_content m).
  cbn [enhanceChatGPTPrompt systemCount systemText]. rewrite Hsecond.
  split; [reflexivity|].
  split; [apply filter_length_map, Hroles|].
  now rewrite Hfind1, Hfind.
Qed.

Lemma enhanceGeminiPrompt_twice (prompt once : PlatformPrompt) :
  enhanceGeminiPrompt instructions prompt thinkingPrompts = JS.Return once ->
  exists twice text,
    enhanceGeminiPrompt instructions once thinkingPrompts = JS.Return twice
    /\ systemCount twice = systemCount once
    /\ systemText once = Some text
    /\ systemText twice = Some (systemPrompt thinkingPrompts ++ " " ++ text).
Proof.
  destruct prompt as [messages extras|contents]; [discriminate|].
  cbn [enhanceGeminiPrompt].
  destruct (enhanceContents instructions contents thinkingPrompts)
    as [contents1|message] eqn:Hfirst; [|discriminate].
  intros [= <-].
  destruct (enhanceContents_shape instructions thinkingPrompts _ _ Hfirst)
    as [(i & c & text & rest & Hi & Hc & Hp) Huser].
  destruct (enhanceContents_again instructions thinkingPrompts contents1 i c
              text rest Hi Hc Hp Huser)
    as (contents2 & c2 & Hsecond & Hroles & Hfind & Hhd).
  destruct (findIndex_Some _ _ _ Hi) as (c' & Hc' & _ & Hfind1).
  rewrite Hc in Hc'. injection Hc' as <-.
  exists (ContentsPrompt contents2), text.
  cbn [enhanceGeminiPrompt systemCount systemText]. rewrite Hsecond.
  split; [reflexivity|].
  split; [apply filter_length_map, Hroles|].
  now rewrite Hfind1, Hfind, Hp.
Qed.

(** The dispatch of [enhancePromptWithThinking]: gemini has its own
    enhancer, vertix and local the merging one, and every other platform
    is enhanced by the ChatGPT rule. *)
Lemma enhancePromptWithThinking_cases (prompt : PlatformPrompt)
    (platform : option string) :
  enhancePromptWithThinking instructions prompt thinkingPrompts platform
  = if String.eqb (JS.showOpt platform) "gemini"
    then enhanceGeminiPrompt instructions prompt thinkingPrompts
    else if String.eqb (JS.showOpt platform) "vertix"
            || String.eqb (JS.showOpt platform) "local"
    then enhanceMergingPrompt instructions prompt thinkingPrompts
    else enhanceChatGPTPrompt instructions prompt thinkingPrompts.
Proof.
  unfold enhancePromptWithThinking. cbv zeta.
  destruct (String.eqb (JS.showOpt platform) "gemini") eqn:Hg.
  - apply String.eqb_eq in Hg. now rewrite Hg.
  - destruct (String.eqb (JS.showOpt platform) "vertix") eqn:Hv.
    + apply String.eqb_eq in Hv. now rewrite Hv.
    + destruct (String.eqb (JS.showOpt platform) "local") eqn:Hl.
      * apply String.eqb_eq in Hl. now rewrite Hl.
      * repeat match goal with
               | |- context [String.eqb (JS.showOpt platform) ?k] =>
                   destruct (String.eqb (JS.showOpt platform) k)
               end; reflexivity || discriminate.
Qed.

End EnhanceTwice.

(** C6 (amended): for the platforms whose enhancer is part of the sources
    (all but vertix and local), applying [enhancePromptWithThinking] a
    second time to the result of the first application succeeds and does
    not add a system message (the number of system messages stays the
    same), but it does prepend the thinking system instruction once more
    to the first system message. *)
Theorem C6_second_enhancement_prepends_again
    (instructions : ThinkingPrompts -> JS.Result string)
    (prompt once : PlatformPrompt)
    (thinkingPrompts : ThinkingPrompts) (platform : option string) :
  ~ In (JS.showOpt platform) ["vertix"; "local"] ->
  ThinkingEngine.enhancePromptWithThinking instructions prompt thinkingPrompts
    platform = JS.Return once ->
  exists twice text,
    ThinkingEngine.enhancePromptWithThinking instructions once thinkingPrompts
      platform = JS.Return twice
    /\ systemCount twice = systemCount once
    /\ systemText once = Some text
    /\ systemText twice = Some (systemPrompt thinkingPrompts ++ " " ++ text).
Proof.
  intros Hsource. rewrite !enhancePromptWithThinking_cases.
  rewrite (not_merging platform Hsource).
  destruct (String.eqb (JS.showOpt platform) "gemini").
  - apply enhanceGeminiPrompt_twice.
  - apply enhanceChatGPTPrompt_twice.
Qed.

Lemma C6_witness :
  exists twice text,
    ThinkingEngine.enhancePromptWithThinking Samples.sampleInstructions
      Samples.enhancedOnce Samples.codeThinking (Some "gemini")
    = JS.Return twice
    /\ systemCount twice = systemCount Samples.enhancedOnce
    /\ systemText Samples.enhancedOnce = Some text
    /\ systemText twice = Some (systemPrompt Samples.codeThinking ++ " " ++ text).
Proof.
  apply (C6_second_enhancement_prepends_again Samples.sampleInstructions
           (ContextManager.formatForGemini Samples.threeTurns)
           Samples.enhancedOnce Samples.codeThinking (Some "gemini")).
  - simpl. intros [H|[H|H]]; [discriminate H|discriminate H|exact H].
  - reflexivity.
Defined.

(** C6 as stated fails: after two applications the system message of a
    ChatGPT prompt starts with the thinking system instruction twice. *)
Lemma C6_counterexample :
  ~ enhancementIdempotent Samples.sampleInstructions
      (ContextManager.formatForChatGPT Samples.threeTurns)
      Samples.codeThinking (Some "chatgpt").
Proof.
  intros H.
  destruct (H _ _ eq_refl eq_refl) as [_ Htext].
  vm_compute in Htext. discriminate Htext.
Qed.

(** ** Content extraction *)

(** C8: [extractContent] on provider answers whose shape differs from the
    expected one.  A Gemini answer whose first candidate carries no
    [content] (a blocked answer), a ChatGPT answer whose first choice
    carries no [message], and [null] make the extractor throw; a ChatGPT
    message whose [content] is [null] comes back as [null], which is no
    string.  Only the default branch of the [switch] stringifies whatever
    it is given. *)
Theorem C8_extractContent_throws_on_mismatched_shapes (builtins : Builtins) :
  ResponseSynthesizer.extractContent builtins
    (VObj [("candidates", VArr [VObj [("finishReason", VStr "SAFETY")]])])
    (Some "gemini")
  = JS.Throw "Cannot read properties of undefined (reading 'parts')"
  /\ ResponseSynthesizer.extractContent builtins
       (VObj [("choices", VArr [VObj [("text", VStr "hi")]])])
       (Some "chatgpt")
     = JS.Throw "Cannot read properties of undefined (reading 'content')"
  /\ ResponseSynthesizer.extractContent builtins VNull (Some "chatgpt")
     = JS.Throw "Cannot read properties of null (reading 'choices')"
  /\ ResponseSynthesizer.extractContent builtins
       (VObj [("choices", VArr [VObj [("message", VObj [("content", VNull)])]])])
       (Some "chatgpt")
     = JS.Return VNull
  /\ ResponseSynthesizer.isString VNull = false
  /\ forall response,
       exists v,
         ResponseSynthesizer.extractContent builtins response None = JS.Return v
         /\ (response = VUndefined \/ ResponseSynthesizer.isString v = true).
Proof.
  repeat split.
  intros response. unfold ResponseSynthesizer.extractContent. cbn.
  eexists. split; [reflexivity|].
  destruct response; cbn; auto.
Qed.

(* ================================================================== *)
(** * Further properties of the modelled code *)

(** ** ContextManager: trimming *)

Section MoreTrimming.

Import ContextManager.

Lemma estimateTokens_nonneg (text : string) : (0 <= estimateTokens text)%Q.
Proof.
  unfold estimateTokens. destruct (JS.truthyString text); [|lra].
  apply Qmult_le_0_compat; [|lra].
  change 0%Q with (inject_Z 0). rewrite <- Zle_Qle. lia.
Qed.

Lemma turnTokens_nonneg (turn : Turn) : (0 <= turnTokens turn)%Q.
Proof.
  unfold turnTokens.
  pose proof (estimateTokens_nonneg (turn_userInput turn)).
  pose proof (estimateTokens_nonneg (turn_aiResponse turn)). lra.
Qed.

Lemma cumulativeTokens_nonneg (turns : list Turn) :
  (0 <= cumulativeTokens turns)%Q.
Proof.
  induction turns as [|turn turns IH]; simpl; [lra|].
  pose proof (turnTokens_nonneg turn). lra.
Qed.

Lemma cumulativeTokens_append (a b : list Turn) :
  (cumulativeTokens (a ++ b) == cumulativeTokens a + cumulativeTokens b)%Q.
Proof.
  induction a as [|x a IH]; simpl; [lra|]. rewrite IH. lra.
Qed.

Lemma cumulativeTokens_rev (turns : list Turn) :
  (cumulativeTokens (rev turns) == cumulativeTokens turns)%Q.
Proof.
  induction turns as [|turn turns IH]; simpl; [lra|].
  rewrite cumulativeTokens_append, IH. simpl. lra.
Qed.

(** When everything that remains fits, the loop takes all of it. *)
Lemma optimizeLoop_takes_all (contextWindowSize : Q) (remaining : list Turn) :
  forall (totalTokens : Q) (optimizedContext : list Turn),
    (totalTokens + cumulativeTokens remaining <= contextWindowSize * 0.9)%Q ->
    optimizeLoop contextWindowSize remaining totalTokens optimizedContext
    = (rev remaining ++ optimizedContext)%list.
Proof.
  induction remaining as [|turn older IH]; intros totalTokens optimizedContext H;
    simpl in *; [reflexivity|].
  pose proof (cumulativeTokens_nonneg older) as Hpos.
  assert (Hfit : gt (totalTokens + turnTokens turn)%Q (contextWindowSize * 0.9)%Q
                 = false).
  { unfold gt. apply negb_false_iff, Qle_bool_iff. lra. }
  rewrite Hfit, IH; [now rewrite <- app_assoc|lra].
Qed.

(** The loop stops only at a turn that does not fit on top of what it
    holds. *)
Lemma optimizeLoop_stops_at_excess (contextWindowSize : Q)
    (remaining : list Turn) :
  forall (totalTokens : Q) (optimizedContext : list Turn),
    (totalTokens == cumulativeTokens optimizedContext)%Q ->
    exists kept dropped,
      remaining = (kept ++ dropped)%list
      /\ optimizeLoop contextWindowSize remaining totalTokens optimizedContext
         = (rev kept ++ optimizedContext)%list
      /\ match dropped with
         | [] => True
         | turn :: _ =>
             (contextWindowSize * 0.9
              < cumulativeTokens (turn :: rev kept ++ optimizedContext))%Q
         end.
Proof.
  induction remaining as [|turn older IH]; intros totalTokens optimizedContext Ht.
  - exists [], []. repeat split.
  - simpl. destruct (gt _ _) eqn:Hgt.
    + exists [], (turn :: older). split; [reflexivity|]. split; [reflexivity|].
      simpl. unfold gt in Hgt. apply negb_true_iff in Hgt.
      apply Qnot_le_lt. intros Hle. rewrite <- Ht in Hle.
      assert (Hle' : (totalTokens + turnTokens turn <= contextWindowSize * 0.9)%Q)
        by lra.
      apply Qle_bool_iff in Hle'. congruence.
    + destruct (IH (totalTokens + turnTokens turn)%Q (turn :: optimizedContext))
        as (kept & dropped & -> & Hres & Hdrop).
      { simpl. rewrite Ht. lra. }
      exists (turn :: kept), dropped. split; [reflexivity|].
      simpl. rewrite <- !app_assoc. simpl. split; [exact Hres|exact Hdrop].
Qed.

Lemma optimizeContext_fitting (context : list Turn) (contextWindowSize : Q) :
  (cumulativeTokens context <= contextWindowSize * 0.9)%Q ->
  optimizeContext context contextWindowSize = context.
Proof.
  intros H. unfold optimizeContext.
  rewrite optimizeLoop_takes_all.
  - now rewrite app_nil_r, rev_involutive.
  - rewrite cumulativeTokens_rev. lra.
Qed.

Lemma optimizeContext_within (context : list Turn) (contextWindowSize : Q) :
  (0 <= contextWindowSize)%Q ->
  (cumulativeTokens (optimizeContext context contextWindowSize)
   <= contextWindowSize * 0.9)%Q.
Proof.
  intros Hsize. apply optimizeLoop_within_limit; [reflexivity|lra].
Qed.


Lemma optimizeContext_twice (context : list Turn) (contextWindowSize : Q) :
  (0 <= contextWindowSize)%Q ->
  optimizeContext (optimizeContext context contextWindowSize) contextWindowSize
  = optimizeContext context contextWindowSize.
Proof.
  intros Hsize. apply optimizeContext_fitting. now apply optimizeContext_within.
Qed.

End MoreTrimming.

(** X1: for an integer window size, a context whose cumulative estimate
    is below 0.9 x contextWindowSize is returned unchanged.  (Estimates
    and limit are multiples of 0.1 then, so that below the limit means
    clear of it, also for the rounded arithmetic of the source.) *)
Theorem X1_optimizeContext_keeps_fitting_context (context : list Turn)
    (contextWindowSize : Z) :
  (cumulativeTokens context < inject_Z contextWindowSize * 0.9)%Q ->
  ContextManager.optimizeContext context (inject_Z contextWindowSize)
  = context.
Proof.
  intros H. apply optimizeContext_fitting. lra.
Qed.

Lemma X1_witness :
  ContextManager.optimizeContext Samples.threeTurns (inject_Z 20)
  = Samples.threeTurns.
Proof.
  apply X1_optimizeContext_keeps_fitting_context. vm_compute. reflexivity.
Defined.

(** X2: for an integer window size, [optimizeContext] drops a turn only
    when it must: what it returns is a suffix of the input, and when a
    turn was left out, the most recent turn left out would bring the
    estimate of what was kept up to 0.9 x contextWindowSize or beyond. *)
Theorem X2_optimizeContext_drops_only_turns_that_reach_the_limit
    (context : list Turn) (contextWindowSize : Z) :
  exists older,
    context
    = (older
       ++ ContextManager.optimizeContext context (inject_Z contextWindowSize))%list
    /\ match rev older with
       | [] => True
       | turn :: _ =>
           (inject_Z contextWindowSize * 0.9
            <= cumulativeTokens
                 (turn :: ContextManager.optimizeContext context
                            (inject_Z contextWindowSize)))%Q
       end.
Proof.
  unfold ContextManager.optimizeContext.
  destruct (optimizeLoop_stops_at_excess (inject_Z contextWindowSize)
              (rev context) 0%Q [])
    as (kept & dropped & Hsplit & Hres & Hdrop); [reflexivity|].
  rewrite Hres, app_nil_r in *.
  exists (rev dropped). rewrite rev_involutive. split.
  - rewrite <- (rev_involutive context), Hsplit. apply rev_app_distr.
  - destruct dropped as [|turn dropped]; [exact I|].
    apply Qlt_le_weak, Hdrop.
Qed.

(** X3: trimming twice is trimming once. *)
Theorem X3_optimizeContext_idempotent (context : list Turn)
    (contextWindowSize : Q) :
  (0 <= contextWindowSize)%Q ->
  ContextManager.optimizeContext
    (ContextManager.optimizeContext context contextWindowSize) contextWindowSize
  = ContextManager.optimizeContext context contextWindowSize.
Proof.
  apply optimizeContext_twice.
Qed.

Lemma X3_witness :
  ContextManager.optimizeContext
    (ContextManager.optimizeContext Samples.threeTurns 10) 10
  = ContextManager.optimizeContext Samples.threeTurns 10.
Proof.
  apply X3_optimizeContext_idempotent. vm_compute. discriminate.
Defined.

(** ** ContextManager: merging and reading *)

Section MoreContext.

Import ContextManager.



Lemma windowSizeFor_nonneg (platform : string) : (0 <= windowSizeFor platform)%Q.
Proof.
  unfold windowSizeFor, contextWindowSizes.
  repeat match goal with
         | |- context [String.eqb platform ?k] => destruct (String.eqb platform k)
         end; vm_compute; discriminate.
Qed.

Lemma optimizeFor_window (platform : string) (context : list Turn) :
  JS.isInheritedKey platform = false ->
  optimizeFor platform context
  = optimizeContext context (windowSizeFor platform).
Proof.
  intros H. unfold optimizeFor, windowSizeFor.
  destruct (contextWindowSizes platform); [reflexivity|now rewrite H].
Qed.

Lemma mergeAndOptimizeFor_window (platform : string)
    (recentContext relevantHistory : list Turn) :
  JS.isInheritedKey platform = false ->
  mergeAndOptimizeFor platform recentContext relevantHistory
  = mergeAndOptimizeContext recentContext relevantHistory
      (windowSizeFor platform).
Proof.
  intros H. unfold mergeAndOptimizeFor, windowSizeFor.
  destruct (contextWindowSizes platform); [reflexivity|now rewrite H].
Qed.

(** With nothing retrieved, merging leaves a trimmed context as it is. *)
Lemma mergeAndOptimizeFor_nothing (platform : string) (context : list Turn) :
  mergeAndOptimizeFor platform (optimizeFor platform context) []
  = optimizeFor platform context.
Proof.
  unfold mergeAndOptimizeFor, optimizeFor, mergeAndOptimizeContext.
  destruct (contextWindowSizes platform) as [size|] eqn:Hsize.
  - cbn. rewrite app_nil_r. apply optimizeContext_twice.
    pose proof (windowSizeFor_nonneg platform) as H.
    unfold windowSizeFor in H. now rewrite Hsize in H.
  - destruct (JS.isInheritedKey platform); cbn; rewrite app_nil_r;
      [reflexivity|].
    apply optimizeContext_twice. vm_compute. discriminate.
Qed.

End MoreContext.



(** X5: whatever the store answers, [getContext] returns a context (it
    never throws and has no effect), and for a platform that names no
    inherited property the context is within 0.9 x the window size of that
    platform (32000 for an unknown platform). *)
Theorem X5_getContext_respects_the_window (env : Env) (userId : string)
    (options : ContextManager.GetContextOptions) (t : Trace) :
  JS.isInheritedKey (contextPlatform options) = false ->
  exists context,
    ContextManager.getContext env userId options t
    = Some (JS.Return context, t)
    /\ (cumulativeTokens context
        <= windowSizeFor (contextPlatform options) * 0.9)%Q.
Proof.
  intros Hkey.
  pose proof (windowSizeFor_nonneg (contextPlatform options)) as Hsize.
  unfold ContextManager.getContext, tryCatch, bind, ask, lift, ret.
  fold (contextPlatform options).
  assert (Hempty : (cumulativeTokens []
                    <= windowSizeFor (contextPlatform options) * 0.9)%Q)
    by (simpl; lra).
  destruct (getConversationHistory env t userId _) as [history|m];
    [|eexists; split; [reflexivity|exact Hempty]].
  destruct (_ && _).
  - destruct (searchSimilarConversations env t userId _ _) as [relevant|m];
      [|eexists; split; [reflexivity|exact Hempty]].
    eexists. split; [reflexivity|].
    rewrite (mergeAndOptimizeFor_window _ _ _ Hkey).
    now apply optimizeContext_within.
  - eexists. split; [reflexivity|].
    rewrite (optimizeFor_window _ _ Hkey). now apply optimizeContext_within.
Qed.

Lemma X5_witness :
  exists context,
    ContextManager.getContext MoreSamples.storedThree "u1"
      (ContextManager.mkGetContextOptions (Some "local") (Some "third") true None)
      []
    = Some (JS.Return context, [])
    /\ (cumulativeTokens context <= windowSizeFor "local" * 0.9)%Q.
Proof.
  apply (X5_getContext_respects_the_window MoreSamples.storedThree "u1"
           (ContextManager.mkGetContextOptions (Some "local") (Some "third")
              true None) []).
  reflexivity.
Defined.

(** X6: a failing store read empties the context: when reading the history
    fails, or when the similarity search that semantic search asks for
    fails, [getContext] returns the empty context; in the second case the
    history it had already read is discarded with it. *)
Theorem X6_getContext_returns_empty_on_store_failure (env : Env)
    (userId : string) (options : ContextManager.GetContextOptions) (t : Trace) :
  (exists message,
      getConversationHistory env t userId (ContextManager.maxContextLength env)
      = JS.Throw message)
  \/ (ContextManager.gc_enableSemanticSearch options = true
      /\ JS.truthyOpt (ContextManager.gc_userInput options) = true
      /\ forall query topK, exists message,
           searchSimilarConversations env t userId query topK
           = JS.Throw message) ->
  ContextManager.getContext env userId options t = Some (JS.Return [], t).
Proof.
  intros H.
  unfold ContextManager.getContext, tryCatch, bind, ask, lift, ret.
  destruct H as [[m Hm]|(Hs & Hu & Hfail)].
  - now rewrite Hm.
  - rewrite Hs, Hu. cbn.
    destruct (getConversationHistory env t userId _); [|reflexivity].
    match goal with
    | |- context [searchSimilarConversations env t userId ?q ?k] =>
        destruct (Hfail q k) as [m Hm]; rewrite Hm
    end.
    reflexivity.
Qed.

Lemma X6_witness :
  ContextManager.getContext MoreSamples.searchFails "u1"
    (ContextManager.mkGetContextOptions (Some "local") (Some "third") true None)
    []
  = Some (JS.Return [], []).
Proof.
  apply X6_getContext_returns_empty_on_store_failure.
  right. split; [reflexivity|]. split; [reflexivity|].
  intros query topK. exists "index unavailable". reflexivity.
Defined.

(** X7: a similarity search that finds nothing changes nothing: with
    semantic search switched on and no turn retrieved, [getContext] returns
    what it returns with semantic search switched off. *)
Theorem X7_semantic_search_without_hits_is_neutral (env : Env)
    (userId : string) (options : ContextManager.GetContextOptions) (t : Trace) :
  (forall query topK,
      searchSimilarConversations env t userId query topK = JS.Return []) ->
  ContextManager.getContext env userId (withSemanticSearch true options) t
  = ContextManager.getContext env userId (withSemanticSearch false options) t.
Proof.
  intros Hnone.
  unfold ContextManager.getContext, tryCatch, bind, ask, lift, ret. cbn.
  destruct (getConversationHistory env t userId _) as [history|m];
    [|reflexivity].
  destruct (JS.truthyOpt (ContextManager.gc_userInput options)); [|reflexivity].
  rewrite Hnone. now rewrite mergeAndOptimizeFor_nothing.
Qed.

Lemma X7_witness :
  ContextManager.getContext MoreSamples.storedThree "u1"
    (withSemanticSearch true
       (ContextManager.mkGetContextOptions (Some "local") (Some "third") false None))
    []
  = ContextManager.getContext MoreSamples.storedThree "u1"
      (withSemanticSearch false
         (ContextManager.mkGetContextOptions (Some "local") (Some "third") false None))
      [].
Proof.
  apply X7_semantic_search_without_hits_is_neutral.
  intros query topK. reflexivity.
Defined.

(** ** Formatting and enhancing prompts *)

Section PromptFacts.

Import ContextManager ThinkingEngine.

Lemma turnMessages_users (context : list Turn) :
  map msg_content (filter isUser (flat_map turnMessages context))
  = userInputsOf context.
Proof.
  unfold userInputsOf.
  induction context as [|turn context IH]; [reflexivity|].
  change (flat_map turnMessages (turn :: context))
    with (turnMessages turn ++ flat_map turnMessages context)%list.
  rewrite filter_app, map_app, IH. unfold turnMessages. simpl.
  destruct (turn_isSystemMessage turn); [reflexivity|].
  destruct (JS.truthyString (turn_aiResponse turn)); reflexivity.
Qed.

Lemma turnMessages_systems (context : list Turn) :
  List.length (filter isSystem (flat_map turnMessages context))
  = List.length (filter turn_isSystemMessage context).
Proof.
  induction context as [|turn context IH]; [reflexivity|].
  change (flat_map turnMessages (turn :: context))
    with (turnMessages turn ++ flat_map turnMessages context)%list.
  rewrite filter_app, length_app, IH. unfold turnMessages. simpl.
  destruct (turn_isSystemMessage turn); [reflexivity|].
  destruct (JS.truthyString (turn_aiResponse turn)); reflexivity.
Qed.

Lemma formatMessages_users (system : string) (context : list Turn) :
  map msg_content (filter isUser (formatMessages system context))
  = userInputsOf context.
Proof. apply turnMessages_users. Qed.

Lemma formatMessages_systems (system : string) (context : list Turn) :
  List.length (filter isSystem (formatMessages system context))
  = S (List.length (filter turn_isSystemMessage context)).
Proof.
  unfold formatMessages.
  change (filter isSystem (mkMessage "system" system :: flat_map turnMessages context))
    with (mkMessage "system" system
          :: filter isSystem (flat_map turnMessages context)).
  simpl. now rewrite turnMessages_systems.
Qed.

Lemma turnContents_users (context : list Turn) :
  flat_map cnt_parts (filter isUserContent (flat_map turnContents context))
  = userInputsOf context.
Proof.
  unfold userInputsOf.
  induction context as [|turn context IH]; [reflexivity|].
  change (flat_map turnContents (turn :: context))
    with (turnContents turn ++ flat_map turnContents context)%list.
  rewrite filter_app, flat_map_app, IH. unfold turnContents. simpl.
  destruct (turn_isSystemMessage turn); [reflexivity|].
  destruct (JS.truthyString (turn_aiResponse turn)); reflexivity.
Qed.

Lemma turnContents_systems (context : list Turn) :
  List.length (filter isSystemContent (flat_map turnContents context))
  = List.length (filter turn_isSystemMessage context).
Proof.
  induction context as [|turn context IH]; [reflexivity|].
  change (flat_map turnContents (turn :: context))
    with (turnContents turn ++ flat_map turnContents context)%list.
  rewrite filter_app, length_app, IH. unfold turnContents. simpl.
  destruct (turn_isSystemMessage turn); [reflexivity|].
  destruct (JS.truthyString (turn_aiResponse turn)); reflexivity.
Qed.

Lemma formatForGemini_users (context : list Turn) :
  userTexts (formatForGemini context) = userInputsOf context.
Proof. apply turnContents_users. Qed.

Lemma formatForGemini_systems (context : list Turn) :
  systemCount (formatForGemini context)
  = S (List.length (filter turn_isSystemMessage context)).
Proof.
  unfold formatForGemini, systemCount.
  match goal with
  | |- context [filter isSystemContent (?c :: ?l)] =>
      change (filter isSystemContent (c :: l))
        with (c :: filter isSystemContent l)
  end.
  simpl. now rewrite turnContents_systems.
Qed.

(** Every formatter but the Gemini one builds [messages] with
    [formatMessages]. *)
Lemma formatContextForPlatform_cases (context : list Turn)
    (platform : option string) :
  (String.eqb (JS.showOpt platform) "gemini" = true
   /\ formatContextForPlatform context platform = formatForGemini context)
  \/ (String.eqb (JS.showOpt platform) "gemini" = false
      /\ exists system extras,
           formatContextForPlatform context platform
           = MessagesPrompt (formatMessages system context) extras).
Proof.
  unfold formatContextForPlatform. cbv zeta.
  destruct (String.eqb (JS.showOpt platform) "gemini") eqn:Hg.
  - left. split; [reflexivity|].
    apply String.eqb_eq in Hg. now rewrite Hg.
  - right. split; [reflexivity|].
    repeat match goal with
           | |- context [String.eqb (JS.showOpt platform) ?k] =>
               destruct (String.eqb (JS.showOpt platform) k)
           end; try discriminate; do 2 eexists; reflexivity.
Qed.

Lemma length_updateAt {A} (i : nat) (f : A -> A) (l : list A) :
  List.length (updateAt i f l) = List.length l.
Proof.
  revert i. induction l as [|a l IH]; intros [|i]; simpl; auto.
Qed.

Lemma filter_nil_of_findIndex {A} (p : A -> bool) (l : list A) :
  findIndex p l = None -> filter p l = [].
Proof.
  induction l as [|a l IH]; simpl; [reflexivity|].
  destruct (p a); [discriminate|].
  destruct (findIndex p l); [discriminate|]. auto.
Qed.

Lemma filter_pos_of_findIndex {A} (p : A -> bool) (l : list A) (i : nat) :
  findIndex p l = Some i -> 1 <= List.length (filter p l).
Proof.
  revert i. induction l as [|a l IH]; intros i; simpl; [discriminate|].
  destruct (p a); [simpl; lia|].
  destruct (findIndex p l) as [k|]; [|discriminate]. intros _. eauto.
Qed.

Lemma findLastIndex_None {A} (p : A -> bool) (l : list A) :
  findLastIndex p l = None <-> filter p l = [].
Proof.
  induction l as [|a l IH]; simpl; [tauto|].
  destruct (findLastIndex p l) as [j|].
  - split; [discriminate|]. intros H. destruct (p a); [discriminate|].
    apply IH in H. discriminate.
  - destruct (p a); split; try discriminate; intros _; [|reflexivity].
    now apply IH.
Qed.

Variable instructions : ThinkingPrompts -> JS.Result string.
Variable thinkingPrompts : ThinkingPrompts.

Lemma systemCount_of_roles {A} (p : A -> bool) (l : list A) :
  List.length (filter p l) = List.length (filter (fun b : bool => b) (map p l)).
Proof.
  induction l as [|a l IH]; simpl; [reflexivity|].
  destruct (p a); simpl; now rewrite IH.
Qed.

Lemma enhanceMessagesBy_systemCount (merge : string -> string -> string)
    (messages once : list Message) :
  enhanceMessagesBy instructions merge messages thinkingPrompts
  = JS.Return once ->
  List.length (filter isSystem once)
  = Nat.max 1 (List.length (filter isSystem messages)).
Proof.
  intros H.
  destruct (enhanceMessagesBy_Return instructions thinkingPrompts merge _ _ H)
    as [Hroles _].
  rewrite (systemCount_of_roles isSystem once), Hroles.
  destruct (findIndex isSystem messages) as [i|] eqn:Hi.
  - rewrite <- systemCount_of_roles.
    pose proof (filter_pos_of_findIndex _ _ _ Hi). lia.
  - cbn. rewrite <- systemCount_of_roles, (filter_nil_of_findIndex _ _ Hi).
    reflexivity.
Qed.

Lemma enhanceContents_systemCount (contents contents1 : list Content) :
  enhanceContents instructions contents thinkingPrompts = JS.Return contents1 ->
  List.length (filter isSystemContent contents1)
  = Nat.max 1 (List.length (filter isSystemContent contents)).
Proof.
  unfold enhanceContents. cbv zeta.
  set (step1 := match findIndex isSystemContent contents with
                | Some i => _
                | None => _
                end).
  destruct step1 as [contentsA|message] eqn:Hstep; [|discriminate].
  cbn [JS.bindR].
  assert (HA : List.length (filter isSystemContent contentsA)
               = Nat.max 1 (List.length (filter isSystemContent contents))).
  { subst step1. destruct (findIndex isSystemContent contents) as [i|] eqn:Hi.
    - apply updateFirstPart_Return in Hstep as [-> _].
      rewrite (filter_length_map isSystemContent _ contents)
        by (apply map_updateAt; reflexivity).
      pose proof (filter_pos_of_findIndex _ _ _ Hi). lia.
    - injection Hstep as <-. cbn.
      now rewrite (filter_nil_of_findIndex _ _ Hi). }
  destruct (findLastIndex isUserContent contentsA) as [j|].
  - destruct (instructions thinkingPrompts) as [text|m]; [|discriminate].
    cbn [JS.bindR].
    intros Hret. apply updateFirstPart_Return in Hret as [-> _].
    etransitivity; [|exact HA].
    apply filter_length_map, map_updateAt. reflexivity.
  - intros [= <-]. exact HA.
Qed.

End PromptFacts.

(** X9: every formatter keeps the conversation in order: the user entries
    of the formatted prompt are the user inputs of the turns that are not
    system messages, one for one and in the same order, and the prompt has
    one system entry more than the context has system turns (the
    platform's own system message, which comes first). *)
Theorem X9_formatted_prompt_keeps_user_inputs_in_order (context : list Turn)
    (platform : option string) :
  userTexts (ContextManager.formatContextForPlatform context platform)
  = userInputsOf context
  /\ systemCount (ContextManager.formatContextForPlatform context platform)
     = S (List.length (filter turn_isSystemMessage context)).
Proof.
  destruct (formatContextForPlatform_cases context platform)
    as [[_ ->]|[_ (system & extras & ->)]].
  - split; [apply formatForGemini_users|apply formatForGemini_systems].
  - split; [apply formatMessages_users|apply formatMessages_systems].
Qed.

(** X10: an enhancement that succeeds leaves a prompt with a system
    message and never adds one to a prompt that has one: afterwards the
    number of system messages is the number before, or one if there was
    none. *)
Theorem X10_enhancement_creates_a_system_message_only_if_missing
    (instructions : ThinkingPrompts -> JS.Result string)
    (prompt enhanced : PlatformPrompt)
    (thinkingPrompts : ThinkingPrompts) (platform : option string) :
  ThinkingEngine.enhancePromptWithThinking instructions prompt thinkingPrompts
    platform = JS.Return enhanced ->
  systemCount enhanced = Nat.max 1 (systemCount prompt).
Proof.
  rewrite enhancePromptWithThinking_cases.
  destruct (String.eqb (JS.showOpt platform) "gemini");
    [|destruct (_ || _)].
  - destruct prompt as [messages extras|contents]; [discriminate|].
    cbn [ThinkingEngine.enhanceGeminiPrompt].
    destruct (ThinkingEngine.enhanceContents instructions contents thinkingPrompts)
      as [contents1|m] eqn:H; [|discriminate].
    intros [= <-]. cbn [systemCount].
    now apply (enhanceContents_systemCount instructions thinkingPrompts).
  - destruct prompt as [messages extras|contents]; [|discriminate].
    cbn [ThinkingEngine.enhanceMergingPrompt].
    destruct (ThinkingEngine.enhanceMessagesBy instructions _ messages
                thinkingPrompts) as [messages1|m] eqn:H; [|discriminate].
    intros [= <-]. cbn [systemCount].
    now apply (enhanceMessagesBy_systemCount instructions thinkingPrompts
                 ThinkingEngine.mergeInstruction).
  - destruct prompt as [messages extras|contents]; [|discriminate].
    cbn [ThinkingEngine.enhanceChatGPTPrompt].
    unfold ThinkingEngine.enhanceMessages.
    destruct (ThinkingEngine.enhanceMessagesBy instructions _ messages
                thinkingPrompts) as [messages1|m] eqn:H; [|discriminate].
    intros [= <-]. cbn [systemCount].
    now apply (enhanceMessagesBy_systemCount instructions thinkingPrompts
                 ThinkingEngine.prependInstruction).
Qed.

Lemma X10_witness :
  exists enhanced,
    ThinkingEngine.enhancePromptWithThinking Samples.sampleInstructions
      (MessagesPrompt [mkMessage "user" "hello"] NoExtras)
      Samples.codeThinking (Some "chatgpt")
    = JS.Return enhanced
    /\ systemCount enhanced
       = Nat.max 1
           (systemCount (MessagesPrompt [mkMessage "user" "hello"] NoExtras)).
Proof.
  eexists. split; [reflexivity|].
  apply (X10_enhancement_creates_a_system_message_only_if_missing
           Samples.sampleInstructions
           (MessagesPrompt [mkMessage "user" "hello"] NoExtras) _
           Samples.codeThinking (Some "chatgpt")).
  reflexivity.
Defined.

Section FormatThenEnhance.

Import ContextManager ThinkingEngine.

Variable instructions : ThinkingPrompts -> JS.Result string.
Variable thinkingPrompts : ThinkingPrompts.

(** Enhancing a formatted [messages] array: the one step that can fail is
    the generation of the instructions, which is reached when there is a
    user message. *)
Lemma enhanceMessagesBy_formatted (merge : string -> string -> string)
    (system : string) (context : list Turn) :
  match userInputsOf context, instructions thinkingPrompts with
  | _ :: _, JS.Throw message =>
      enhanceMessagesBy instructions merge (formatMessages system context)
        thinkingPrompts
      = JS.Throw message
  | _, _ =>
      exists once,
        enhanceMessagesBy instructions merge (formatMessages system context)
          thinkingPrompts
        = JS.Return once
        /\ List.length once = List.length (formatMessages system context)
  end.
Proof.
  unfold enhanceMessagesBy, formatMessages. cbv zeta.
  change (findIndex isSystem
            (mkMessage "system" system :: flat_map turnMessages context))
    with (Some 0).
  cbv iota. cbn [updateAt msg_role msg_content].
  rewrite <- (turnMessages_users context).
  set (rest := flat_map turnMessages context).
  set (head := mkMessage "system" _).
  assert (Hlast : findLastIndex isUser (head :: rest)
                  = option_map S (findLastIndex isUser rest)).
  { cbn [findLastIndex]. destruct (findLastIndex isUser rest); reflexivity. }
  rewrite Hlast.
  destruct (findLastIndex isUser rest) as [j|] eqn:Hj.
  - assert (Hne : filter isUser rest <> []).
    { intros H. apply findLastIndex_None in H. congruence. }
    destruct (filter isUser rest) as [|u us]; [congruence|].
    cbn [map option_map].
    destruct (instructions thinkingPrompts) as [text|message];
      cbn [JS.bindR]; [|reflexivity].
    eexists. split; [reflexivity|]. now rewrite length_updateAt.
  - apply findLastIndex_None in Hj. rewrite Hj. cbn [map option_map].
    eexists. split; reflexivity.
Qed.

Lemma turnContents_have_parts (context : list Turn) :
  Forall (fun c => cnt_parts c <> []) (flat_map turnContents context).
Proof.
  induction context as [|turn context IH]; [constructor|].
  change (flat_map turnContents (turn :: context))
    with (turnContents turn ++ flat_map turnContents context)%list.
  apply Forall_app. split; [|exact IH].
  unfold turnContents.
  destruct (turn_isSystemMessage turn);
    [|destruct (JS.truthyString (turn_aiResponse turn))];
    repeat constructor; discriminate.
Qed.

Lemma enhanceContents_formatted (context : list Turn) :
  match userInputsOf context, instructions thinkingPrompts with
  | _ :: _, JS.Throw message =>
      enhanceContents instructions
        (mkContent "system" ["You are Majd, an advanced AI assistant with exceptional reasoning capabilities. Show your thinking process step by step."]
         :: flat_map turnContents context) thinkingPrompts
      = JS.Throw message
  | _, _ =>
      exists contents1,
        enhanceContents instructions
          (mkContent "system" ["You are Majd, an advanced AI assistant with exceptional reasoning capabilities. Show your thinking process step by step."]
           :: flat_map turnContents context) thinkingPrompts
        = JS.Return contents1
        /\ List.length contents1 = S (List.length (flat_map turnContents context))
  end.
Proof.
  unfold enhanceContents. cbv zeta.
  match goal with
  | |- context [findIndex isSystemContent (?c :: ?l)] =>
      change (findIndex isSystemContent (c :: l)) with (Some 0)
  end.
  cbv iota.
  set (prepend := fun text : string => _ ++ " " ++ text).
  match goal with
  | |- context [updateFirstPart 0 prepend ?l] =>
      change (updateFirstPart 0 prepend l)
        with (JS.Return (updateAt 0 (withFirstPart prepend) l))
  end.
  cbn [updateAt JS.bindR].
  rewrite <- (turnContents_users context).
  set (rest := flat_map turnContents context).
  set (contentsA := (withFirstPart prepend _ :: rest)).
  assert (Hparts : Forall (fun c => cnt_parts c <> []) contentsA).
  { constructor; [discriminate|apply turnContents_have_parts]. }
  assert (Hlast : findLastIndex isUserContent contentsA
                  = option_map S (findLastIndex isUserContent rest)).
  { unfold contentsA. cbn [findLastIndex].
    destruct (findLastIndex isUserContent rest); reflexivity. }
  destruct (findLastIndex isUserContent contentsA) as [j|] eqn:Hj.
  - assert (Hsome : exists u us, filter isUserContent rest = u :: us).
    { destruct (filter isUserContent rest) as [|u us] eqn:Hf; [|eauto].
      apply findLastIndex_None in Hf. rewrite Hf in Hlast. discriminate. }
    destruct Hsome as (u & us & Hf). rewrite Hf.
    assert (Hu : cnt_parts u <> []).
    { pose proof (turnContents_have_parts context) as Hall.
      rewrite Forall_forall in Hall. apply Hall.
      apply (proj1 (filter_In isUserContent u rest)). rewrite Hf. now left. }
    destruct (cnt_parts u) as [|part parts] eqn:Hpu; [congruence|].
    cbn [flat_map]. rewrite Hpu. cbn [app].
    destruct (instructions thinkingPrompts) as [itext|message];
      cbn [JS.bindR]; [|reflexivity].
    destruct (findLastIndex_Some _ _ _ Hj) as (c & Hc & _).
    assert (Hne : cnt_parts c <> []).
    { rewrite Forall_forall in Hparts. apply Hparts.
      now apply nth_error_In with (n := j). }
    destruct (cnt_parts c) as [|text rest'] eqn:Hp; [congruence|].
    match goal with
    | |- context [updateFirstPart j ?f contentsA] =>
        rewrite (updateFirstPart_defined j f contentsA c text rest' Hc Hp)
    end.
    eexists. split; [reflexivity|]. now rewrite length_updateAt.
  - destruct (findLastIndex isUserContent rest) as [k|] eqn:Hk;
      [discriminate|].
    apply findLastIndex_None in Hk. rewrite Hk. cbn [flat_map].
    eexists. split; reflexivity.
Qed.

End FormatThenEnhance.

(** X11: for the platforms whose enhancer is part of the sources (all but
    vertix and local), enhancing the prompt that [formatContextForPlatform]
    built for the same platform can fail in one way only: when the context
    holds a user turn and [generateThinkingInstructions] throws, the
    enhancement throws that error.  In every other case it succeeds and
    adds no entry (the system instruction goes into the system message the
    formatter put first). *)
Theorem X11_formatted_prompts_fail_only_with_the_instructions
    (instructions : ThinkingPrompts -> JS.Result string) (context : list Turn)
    (thinkingPrompts : ThinkingPrompts) (platform : option string) :
  ~ In (JS.showOpt platform) ["vertix"; "local"] ->
  match userInputsOf context, instructions thinkingPrompts with
  | _ :: _, JS.Throw message =>
      ThinkingEngine.enhancePromptWithThinking instructions
        (ContextManager.formatContextForPlatform context platform)
        thinkingPrompts platform
      = JS.Throw message
  | _, _ =>
      exists enhanced,
        ThinkingEngine.enhancePromptWithThinking instructions
          (ContextManager.formatContextForPlatform context platform)
          thinkingPrompts platform
        = JS.Return enhanced
        /\ entryCount enhanced
           = entryCount
               (ContextManager.formatContextForPlatform context platform)
  end.
Proof.
  intros Hsource. rewrite enhancePromptWithThinking_cases.
  rewrite (not_merging platform Hsource).
  destruct (formatContextForPlatform_cases context platform)
    as [[-> ->]|[-> (system & extras & ->)]].
  - pose proof (enhanceContents_formatted instructions thinkingPrompts context)
      as H.
    unfold ContextManager.formatForGemini.
    cbn [ThinkingEngine.enhanceGeminiPrompt entryCount List.length].
    destruct (userInputsOf context) as [|input inputs];
      [|destruct (instructions thinkingPrompts) as [text|message]];
      try (destruct H as (contents1 & -> & Hlen);
           eexists; split; [reflexivity|exact Hlen]).
    now rewrite H.
  - pose proof (enhanceMessagesBy_formatted instructions thinkingPrompts
                  ThinkingEngine.prependInstruction system context) as H.
    cbn [ThinkingEngine.enhanceChatGPTPrompt entryCount].
    unfold ThinkingEngine.enhanceMessages.
    destruct (userInputsOf context) as [|input inputs];
      [|destruct (instructions thinkingPrompts) as [text|message]];
      try (destruct H as (once & -> & Hlen);
           eexists; split; [reflexivity|exact Hlen]).
    now rewrite H.
Qed.

Lemma X11_witness :
  ThinkingEngine.enhancePromptWithThinking
    (fun _ => JS.Throw "Cannot read properties of undefined (reading 'replace')")
    (ContextManager.formatContextForPlatform Samples.threeTurns (Some "gemini"))
    Samples.codeThinking (Some "gemini")
  = JS.Throw "Cannot read properties of undefined (reading 'replace')".
Proof.
  apply (X11_formatted_prompts_fail_only_with_the_instructions
           (fun _ => JS.Throw "Cannot read properties of undefined (reading 'replace')")
           Samples.threeTurns Samples.codeThinking (Some "gemini")).
  simpl. intros [H|[H|H]]; [discriminate H|discriminate H|exact H].
Defined.

(** ** ThinkingEngine: thinking prompts *)

(** X12: for every task type that names no inherited property,
    [generateThinkingPrompts] returns reasoning phases from the fixed
    vocabulary that start with problem_understanding and end with
    conclusion; the template table it builds has one entry per phase and
    every entry is [undefined], because the templates are looked up under
    the phase key while [reasoningTemplates] is keyed by the phase label. *)
Theorem X12_thinking_prompts_carry_phases_but_no_templates
    (taskType userInput : string) :
  JS.isInheritedKey taskType = false ->
  exists thinkingPrompts middle,
    ThinkingEngine.generateThinkingPrompts taskType userInput
    = JS.Return thinkingPrompts
    /\ reasoningSteps thinkingPrompts
       = ("problem_understanding" :: middle ++ ["conclusion"])%list
    /\ Forall (fun label => In label reasoningLabels)
              (reasoningSteps thinkingPrompts)
    /\ map fst (templates thinkingPrompts) = reasoningSteps thinkingPrompts
    /\ Forall (fun entry => snd entry = None) (templates thinkingPrompts).
Proof.
  intros Hkey. unfold ThinkingEngine.generateThinkingPrompts. rewrite Hkey.
  unfold ThinkingEngine.taskTypeReasoningMap.
  repeat match goal with
         | |- context [String.eqb taskType ?k] => destruct (String.eqb taskType k)
         end;
    match goal with
    | |- context [JS.Return ?tp] =>
        exists tp, (removelast (tl (reasoningSteps tp)))
    end;
    (split; [reflexivity|]); cbn;
    (split; [reflexivity|]);
    (split; [repeat constructor; simpl; tauto|]);
    (split; [reflexivity|]); repeat constructor.
Qed.

Lemma X12_witness :
  exists thinkingPrompts middle,
    ThinkingEngine.generateThinkingPrompts "creative" "write a poem"
    = JS.Return thinkingPrompts
    /\ reasoningSteps thinkingPrompts
       = ("problem_understanding" :: middle ++ ["conclusion"])%list
    /\ Forall (fun label => In label reasoningLabels)
              (reasoningSteps thinkingPrompts)
    /\ map fst (templates thinkingPrompts) = reasoningSteps thinkingPrompts
    /\ Forall (fun entry => snd entry = None) (templates thinkingPrompts).
Proof.
  apply X12_thinking_prompts_carry_phases_but_no_templates. reflexivity.
Defined.

(** ** TaskRouter *)

Section MoreRouting.

Lemma toLowerCaseChar_idempotent (c : ascii) :
  Text.toLowerCaseChar (Text.toLowerCaseChar c) = Text.toLowerCaseChar c.
Proof.
  destruct c as [[] [] [] [] [] [] [] []]; reflexivity.
Qed.

Lemma toLowerCase_idempotent (s : string) :
  Text.toLowerCase (Text.toLowerCase s) = Text.toLowerCase s.
Proof.
  induction s as [|c s IH]; simpl; [reflexivity|].
  now rewrite toLowerCaseChar_idempotent, IH.
Qed.

Lemma ruleBased_in_taskTypes (userInput : string) (context : list Turn) :
  In (TaskRouter.ruleBasedClassification userInput context) taskTypes.
Proof.
  unfold TaskRouter.ruleBasedClassification. cbv zeta.
  repeat match goal with
         | |- context [if ?b then _ else _] => destruct b
         end; simpl; tauto.
Qed.

Lemma taskTypes_not_inherited (label : string) :
  In label taskTypes -> JS.isInheritedKey label = false.
Proof.
  simpl. intros H.
  repeat (destruct H as [<-|H]; [reflexivity|]). destruct H.
Qed.

(** Every own entry of the mapping table: three different providers, the
    last of them the local one. *)
Lemma platformMapFor_distinct (label : string) :
  JS.isInheritedKey label = false ->
  exists p s f,
    TaskRouter.platformMapFor label = TaskRouter.entry p s f
    /\ In p providers /\ In s providers
    /\ f = "local" /\ p <> s /\ p <> f /\ s <> f.
Proof.
  intros H. unfold TaskRouter.platformMapFor, TaskRouter.platformMapping.
  rewrite H.
  repeat match goal with
         | |- context [String.eqb label ?k] => destruct (String.eqb label k)
         end;
    do 3 eexists; (split; [reflexivity|]); simpl;
    repeat split; try tauto; discriminate.
Qed.

End MoreRouting.

(** X13: the rule-based classifier answers with one of the seven task
    types, whatever the input, and it looks at the input in lower case
    only: an input and its lower-case form are classified alike, and the
    context plays no part. *)
Theorem X13_rule_based_classification_is_closed_and_ignores_case
    (userInput : string) (context context' : list Turn) :
  In (TaskRouter.ruleBasedClassification userInput context) taskTypes
  /\ TaskRouter.ruleBasedClassification (Text.toLowerCase userInput) context'
     = TaskRouter.ruleBasedClassification userInput context.
Proof.
  split; [apply ruleBased_in_taskTypes|].
  unfold TaskRouter.ruleBasedClassification.
  now rewrite toLowerCase_idempotent.
Qed.

(** X14: under a configuration that defines no ML_CONFIDENCE_THRESHOLD (the
    configuration of the repository defines none), the label of the
    learned classifier is never used: [classifyTask] answers with the
    rule-based label or with general, so with one of the seven task
    types. *)
Theorem X14_without_threshold_the_learned_label_is_never_used (env : Env)
    (userInput userId : string) (options : Options) (t : Trace) :
  ML_CONFIDENCE_THRESHOLD env = None ->
  exists label,
    TaskRouter.classifyTask env userInput userId options t
    = Some (JS.Return label, t)
    /\ (label = TaskRouter.GENERAL
        \/ exists context,
             label = TaskRouter.ruleBasedClassification userInput context)
    /\ In label taskTypes.
Proof.
  intros Hth.
  destruct (getContext_returns env userId ContextManager.noGetContextOptions t)
    as [context Hc].
  unfold TaskRouter.classifyTask, tryCatch, bind. rewrite Hc.
  unfold ask, ret, throw. rewrite Hth.
  assert (Hrule : exists label,
             Some (JS.Return (TaskRouter.ruleBasedClassification userInput context), t)
             = Some (JS.Return label, t)
             /\ (label = TaskRouter.GENERAL
                 \/ exists context0,
                      label = TaskRouter.ruleBasedClassification userInput context0)
             /\ In label taskTypes).
  { eexists. split; [reflexivity|]. split; [right; eauto|].
    apply ruleBased_in_taskTypes. }
  assert (Hgen : exists label,
             Some (JS.Return TaskRouter.GENERAL, t) = Some (JS.Return label, t)
             /\ (label = TaskRouter.GENERAL
                 \/ exists context0,
                      label = TaskRouter.ruleBasedClassification userInput context0)
             /\ In label taskTypes).
  { eexists. split; [reflexivity|]. split; [now left|]. simpl. tauto. }
  destruct (classifier_isInitialized env t); [|exact Hrule].
  destruct (classifier_classify env t userInput context) as [m| |c l];
    [exact Hgen|exact Hgen|].
  unfold TaskRouter.exceedsThreshold.
  destruct (TaskRouter.toNumber (builtins env) c); exact Hrule.
Qed.

Lemma X14_witness :
  exists label,
    TaskRouter.classifyTask (RouterSamples.noThreshold "custom_label")
      "solve this riddle" "u1" noOptions []
    = Some (JS.Return label, [])
    /\ (label = TaskRouter.GENERAL
        \/ exists context,
             label = TaskRouter.ruleBasedClassification "solve this riddle" context)
    /\ In label taskTypes.
Proof.
  apply X14_without_threshold_the_learned_label_is_never_used. reflexivity.
Defined.

(** X15: every task type of the mapping table (and every unknown one,
    which is mapped like general) has three different platforms: a primary
    and a secondary provider and, as fallback, always the local one. *)
Theorem X15_mapping_entries_are_three_distinct_platforms (label : string) :
  JS.isInheritedKey label = false ->
  exists p s f,
    TaskRouter.getPlatformForTask label noOptions
    = TaskRouter.mkPlatformInfo (Some p) label (Some s) (Some f) false false
    /\ In p providers /\ In s providers
    /\ f = "local" /\ p <> s /\ p <> f /\ s <> f.
Proof.
  intros H.
  destruct (platformMapFor_distinct label H) as (p & s & f & Hmap & Hrest).
  exists p, s, f. split; [|exact Hrest].
  unfold TaskRouter.getPlatformForTask. cbn. now rewrite Hmap.
Qed.

Lemma X15_witness :
  exists p s f,
    TaskRouter.getPlatformForTask "translation" noOptions
    = TaskRouter.mkPlatformInfo (Some p) "translation" (Some s) (Some f)
        false false
    /\ In p providers /\ In s providers
    /\ f = "local" /\ p <> s /\ p <> f /\ s <> f.
Proof.
  apply X15_mapping_entries_are_three_distinct_platforms. reflexivity.
Defined.

(** X16: cost optimisation sends every request of a non-premium user
    without a preferred platform to the local platform, whatever the task
    type; for a premium user the flag changes nothing. *)
Theorem X16_cost_optimisation_routes_to_local (label : string)
    (options : Options) :
  JS.isInheritedKey label = false ->
  TaskRouter.preferredPlatformOf options = None ->
  optimizeCost options = true ->
  (isPremiumUser options = false ->
   TaskRouter.pi_platform (TaskRouter.getPlatformForTask label options)
   = Some "local")
  /\ (isPremiumUser options = true ->
      TaskRouter.getPlatformForTask label options
      = TaskRouter.getPlatformForTask label noOptions).
Proof.
  intros Hkey Hpref Hcost.
  destruct (platformMapFor_distinct label Hkey)
    as (p & s & f & Hmap & _ & _ & -> & _).
  unfold TaskRouter.getPlatformForTask. rewrite Hpref, Hcost, Hmap. cbn.
  split; intros ->; reflexivity.
Qed.

Lemma X16_witness :
  TaskRouter.pi_platform
    (TaskRouter.getPlatformForTask "research" Samples.costOptimized)
  = Some "local".
Proof.
  apply (proj1 (X16_cost_optimisation_routes_to_local "research"
                  Samples.costOptimized eq_refl eq_refl eq_refl)).
  reflexivity.
Defined.

(** X17: [routeRequest] never throws, has no effect, and never returns the
    default routing of its [catch] block: the decision is never marked
    [isErrorFallback], it carries the user and the input it was given, and
    its platform fields are those [getPlatformForTask] gives for the
    classified task type. *)
Theorem X17_routeRequest_never_takes_its_error_branch (env : Env)
    (userInput userId : string) (options : Options) (t : Trace) :
  exists routingInfo,
    TaskRouter.routeRequest env userInput userId options t
    = Some (JS.Return routingInfo, t)
    /\ ri_isErrorFallback routingInfo = false
    /\ ri_userId routingInfo = userId
    /\ ri_userInput routingInfo = userInput
    /\ TaskRouter.classifyTask env userInput userId options t
       = Some (JS.Return (ri_taskType routingInfo), t)
    /\ ri_platform routingInfo
       = TaskRouter.pi_platform
           (TaskRouter.getPlatformForTask (ri_taskType routingInfo) options).
Proof.
  destruct (routeRequest_returns env userInput userId options t)
    as (label & Hl & Hroute).
  eexists. split; [exact Hroute|]. cbn. repeat split. exact Hl.
Qed.

(** ** ResponseSynthesizer *)

Section MoreExtraction.

Variable builtins : Builtins.

Lemma string_append_assoc (a b c : string) : (a ++ b) ++ c = a ++ (b ++ c).
Proof.
  induction a as [|x a IH]; simpl; [reflexivity|]. now rewrite IH.
Qed.

Lemma string_append_empty (a : string) : a ++ "" = a.
Proof.
  induction a as [|x a IH]; simpl; [reflexivity|]. now rewrite IH.
Qed.

Lemma gtZero_length (n : nat) :
  ResponseSynthesizer.gtZero builtins (ResponseSynthesizer.lengthValue (S n))
  = true.
Proof.
  unfold ResponseSynthesizer.gtZero, ResponseSynthesizer.lengthValue.
  unfold Qle_bool, inject_Z. cbn [Qnum Qden].
  apply Bool.negb_true_iff, Z.leb_gt. lia.
Qed.

Lemma appendCitations_lines (sources : list (string * string)) :
  forall (index : nat) (content : string),
    ResponseSynthesizer.appendCitations builtins
      (map Shapes.citation sources) index content
    = JS.Return (content ++ sourceLines (index + 1) sources).
Proof.
  induction sources as [|source rest IH]; intros index content.
  - simpl. now rewrite string_append_empty.
  - cbn [map ResponseSynthesizer.appendCitations].
    unfold Shapes.citation at 1 2. cbn -[Nat.add String.append JS.newline
      NilEmpty.string_of_uint Nat.to_uint ResponseSynthesizer.appendCitations].
    rewrite IH. cbn [sourceLines]. unfold sourceLine.
    now rewrite !string_append_assoc.
Qed.

Lemma extract_without_keys (fields : list (string * Value))
    (platform : option string) :
  (forall key, In key extractorKeys ->
               ResponseSynthesizer.lookupField key fields = None) ->
  ResponseSynthesizer.extractContent builtins (VObj fields) platform
  = JS.Return (VStr (JSON_stringify builtins (VObj fields))).
Proof.
  intros H.
  assert (H1 := H "choices"). assert (H2 := H "answer").
  assert (H3 := H "candidates"). assert (H4 := H "output").
  assert (H5 := H "content").
  unfold extractorKeys in *. simpl in H1, H2, H3, H4, H5.
  unfold ResponseSynthesizer.extractContent.
  cbv zeta.
  repeat match goal with
         | |- context [String.eqb ?x ?k] =>
             lazymatch k with
             | EmptyString => fail
             | _ => destruct (String.eqb x k)
             end
         end;
    unfold ResponseSynthesizer.extractChatGPTContent,
      ResponseSynthesizer.extractCopilotContent,
      ResponseSynthesizer.extractDeepSeekContent,
      ResponseSynthesizer.extractPerplexityContent,
      ResponseSynthesizer.extractGeminiContent,
      ResponseSynthesizer.extractGrok3Content,
      ResponseSynthesizer.extractVertixContent,
      ResponseSynthesizer.extractLocalContent,
      ResponseSynthesizer.extractChatGPTContent,
      ResponseSynthesizer.getProp;
    rewrite ?H1, ?H2, ?H3, ?H4, ?H5 by tauto; reflexivity.
Qed.

End MoreExtraction.

(** X18: [extractContent] gives back the text of a well-formed answer, for
    the providers whose extractor checks the presence of the answer's
    container (ChatGPT, Copilot, DeepSeek, Gemini, and Perplexity without
    citations), whatever the text, the empty one included. *)
Theorem X18_extractContent_recovers_the_answer_text (builtins : Builtins)
    (text : string) :
  (forall platform, In platform ["chatgpt"; "copilot"; "deepseek"] ->
     ResponseSynthesizer.extractContent builtins (Shapes.chat text)
       (Some platform) = JS.Return (VStr text))
  /\ ResponseSynthesizer.extractContent builtins (Shapes.gemini text)
       (Some "gemini") = JS.Return (VStr text)
  /\ ResponseSynthesizer.extractContent builtins (Shapes.perplexity text [])
       (Some "perplexity") = JS.Return (VStr text).
Proof.
  split; [|split; reflexivity].
  intros platform H. simpl in H.
  repeat (destruct H as [<-|H]; [reflexivity|]). destruct H.
Qed.

(** X19: the Grok3, Vertix and local extractors test the answer text
    itself: a non-empty text is returned, an empty one is replaced by the
    JSON text of the whole response. *)
Theorem X19_empty_answers_become_the_serialised_response
    (builtins : Builtins) (text : string) :
  let extracted (response : Value) :=
    JS.Return (if String.eqb text "" then VStr (JSON_stringify builtins response)
               else VStr text) in
  ResponseSynthesizer.extractContent builtins (Shapes.grok3 text)
    (Some "grok3") = extracted (Shapes.grok3 text)
  /\ ResponseSynthesizer.extractContent builtins (Shapes.vertix text)
       (Some "vertix") = extracted (Shapes.vertix text)
  /\ ResponseSynthesizer.extractContent builtins (Shapes.localModel text)
       (Some "local") = extracted (Shapes.localModel text).
Proof.
  cbv zeta. destruct text as [|c text]; repeat split; reflexivity.
Qed.

(** X20: a response that is already a string is returned unchanged, for
    every platform name, known or not. *)
Theorem X20_extractContent_passes_strings_through (builtins : Builtins)
    (text : string) (platform : option string) :
  ResponseSynthesizer.extractContent builtins (VStr text) platform
  = JS.Return (VStr text).
Proof.
  unfold ResponseSynthesizer.extractContent. cbv zeta.
  repeat match goal with
         | |- context [String.eqb (JS.showOpt platform) ?k] =>
             destruct (String.eqb (JS.showOpt platform) k)
         end; reflexivity.
Qed.

(** X21: an object response with none of the properties the extractors
    read (an error body, say) is not rejected: for every platform the
    content is the JSON text of the whole response. *)
Theorem X21_foreign_objects_are_serialised (builtins : Builtins)
    (fields : list (string * Value)) (platform : option string) :
  (forall key, In key extractorKeys ->
               ResponseSynthesizer.lookupField key fields = None) ->
  ResponseSynthesizer.extractContent builtins (VObj fields) platform
  = JS.Return (VStr (JSON_stringify builtins (VObj fields))).
Proof.
  apply extract_without_keys.
Qed.

Lemma X21_witness :
  ResponseSynthesizer.extractContent Samples.sampleBuiltins
    (VObj [("error", VStr "rate limited")]) (Some "gemini")
  = JS.Return (VStr (JSON_stringify Samples.sampleBuiltins
                       (VObj [("error", VStr "rate limited")]))).
Proof.
  apply X21_foreign_objects_are_serialised.
  intros key H. simpl in H.
  repeat (destruct H as [<-|H]; [reflexivity|]). destruct H.
Defined.

(** X22: the Perplexity extractor appends to the answer text a Sources
    heading and one line per citation, numbered from 1 in the order of the
    citations; without citations the text is returned alone. *)
Theorem X22_perplexity_sources_are_numbered_from_one (builtins : Builtins)
    (text : string) (sources : list (string * string)) :
  ResponseSynthesizer.extractContent builtins (Shapes.perplexity text sources)
    (Some "perplexity")
  = JS.Return
      (VStr (match sources with
             | [] => text
             | _ :: _ =>
                 text ++ JS.newline ++ JS.newline ++ "**Sources:**"
                 ++ JS.newline ++ sourceLines 1 sources
             end)).
Proof.
  destruct sources as [|source rest]; [reflexivity|].
  change (ResponseSynthesizer.extractContent builtins
            (Shapes.perplexity text (source :: rest)) (Some "perplexity"))
    with (JS.bindR
            (ResponseSynthesizer.nonEmpty builtins
               (VArr (map Shapes.citation (source :: rest))))
            (fun guard =>
               if guard
               then JS.bindR
                      (ResponseSynthesizer.appendCitations builtins
                         (map Shapes.citation (source :: rest)) 0
                         (text ++ JS.newline ++ JS.newline ++ "**Sources:**"
                          ++ JS.newline))
                      (fun c => JS.Return (VStr c))
               else JS.Return (VStr text))).
  rewrite appendCitations_lines. unfold ResponseSynthesizer.nonEmpty.
  cbn [ResponseSynthesizer.truthy ResponseSynthesizer.getProp JS.bindR
       String.eqb Ascii.eqb Bool.eqb map List.length].
  rewrite gtZero_length. cbn [JS.bindR Nat.add].
  now rewrite !string_append_assoc.
Qed.

Section MoreSynthesis.

Variable env : Env.

(** [processResponse] catches what its steps throw. *)
Lemma processResponse_returns (response : Value) (requestInfo : RoutingInfo)
    (thinkingPrompts : option ThinkingPrompts)
    (options : ResponseSynthesizer.ProcessOptions) :
  exists processed,
    ResponseSynthesizer.processResponse env response requestInfo
      thinkingPrompts options
    = JS.Return processed
    /\ platform processed = ri_platform requestInfo
    /\ taskType processed = Some (ri_taskType requestInfo)
    /\ userId processed = Some (ri_userId requestInfo)
    /\ routingInfo processed = None
    /\ match ResponseSynthesizer.extractContent (builtins env) response
               (ri_platform requestInfo) with
       | JS.Throw message =>
           error processed = Some message
           /\ content processed = VStr processingIssue
       | JS.Return extracted =>
           (error processed = None /\ content processed = extracted)
           \/ (exists message,
                 error processed = Some message
                 /\ content processed = VStr processingIssue)
       end.
Proof.
  unfold ResponseSynthesizer.processResponse. cbv zeta.
  destruct (ResponseSynthesizer.extractContent (builtins env) response
              (ri_platform requestInfo)) as [extracted|message];
    [|eexists; cbn; repeat split].
  unfold JS.tryCatchR, JS.bindR.
  destruct thinkingPrompts as [prompts|];
    [destruct (ResponseSynthesizer.po_extractThinking options);
     [destruct (extractThinkingProcess env extracted prompts)|]|];
    try destruct (formatResponse env extracted _ _ _);
    eexists; cbn; repeat split;
    solve [left; split; reflexivity | right; eexists; split; reflexivity].
Qed.

End MoreSynthesis.

(** X23: [processResponse] never throws.  Its result always names the
    platform, task type and user of the request; when the extraction of the
    content throws, the result carries the thrown message as [error] and
    the canned apology as content, and otherwise either the extracted
    content without an error or, again, the canned apology with one. *)
Theorem X23_processResponse_never_throws (env : Env) (response : Value)
    (requestInfo : RoutingInfo) (thinkingPrompts : option ThinkingPrompts)
    (options : ResponseSynthesizer.ProcessOptions) :
  exists processed,
    ResponseSynthesizer.processResponse env response requestInfo
      thinkingPrompts options
    = JS.Return processed
    /\ platform processed = ri_platform requestInfo
    /\ taskType processed = Some (ri_taskType requestInfo)
    /\ userId processed = Some (ri_userId requestInfo)
    /\ match ResponseSynthesizer.extractContent (builtins env) response
               (ri_platform requestInfo) with
       | JS.Throw message =>
           error processed = Some message
           /\ content processed = VStr processingIssue
       | JS.Return extracted =>
           (error processed = None /\ content processed = extracted)
           \/ (exists message,
                 error processed = Some message
                 /\ content processed = VStr processingIssue)
       end.
Proof.
  destruct (processResponse_returns env response requestInfo thinkingPrompts
              options) as (processed & H & Hp & Ht & Hu & _ & Hc).
  exists processed. repeat split; assumption.
Qed.

(** X24: [mergeResponses] never throws.  Without responses it answers with
    the error "No responses to merge" for an unknown task type and user; a
    single response is returned as it is; several responses give a response
    of the platform "merged" which either lists the platform and task type
    of every response, in order, under the task type and user of the first,
    or is the canned apology with an error and no sources. *)
Theorem X24_mergeResponses_never_throws (env : Env)
    (responses : list Response) (options : ResponseSynthesizer.MergeOptions) :
  exists merged,
    ResponseSynthesizer.mergeResponses env responses options = JS.Return merged
    /\ match responses with
       | [] =>
           error merged = Some "No responses to merge"
           /\ content merged = VStr mergingIssue
           /\ taskType merged = Some "unknown"
           /\ userId merged = Some "unknown"
       | [single] => merged = single
       | first :: _ :: _ =>
           platform merged = Some "merged"
           /\ ((error merged = None
                /\ sources merged
                   = map (fun r => (platform r, taskType r)) responses
                /\ taskType merged = taskType first
                /\ userId merged = userId first)
               \/ (exists message,
                     error merged = Some message
                     /\ sources merged = []
                     /\ content merged = VStr mergingIssue))
       end.
Proof.
  unfold ResponseSynthesizer.mergeResponses.
  destruct responses as [|first [|second rest]].
  - eexists. cbn. repeat split.
  - eexists. split; reflexivity.
  - cbv zeta. unfold JS.tryCatchR, JS.bindR.
    set (strategy := ResponseSynthesizer.orElse _ "sequential").
    destruct (if String.eqb strategy "sequential" then _ else _)
      as [merged|message];
      [destruct (formatResponse env (VStr merged) _ _ _)|];
      eexists; cbn; (split; [reflexivity|]); (split; [reflexivity|]);
      solve [left; repeat split | right; eexists; repeat split].
Qed.

(** X25: a merge strategy that is neither best_first nor task_specific (an
    unknown name, the empty string or none at all) merges like sequential. *)
Theorem X25_unknown_merge_strategy_is_sequential (env : Env)
    (responses : list Response) (options : ResponseSynthesizer.MergeOptions)
    (strategy : option string) :
  ~ In (JS.showOpt strategy) ["best_first"; "task_specific"] ->
  ResponseSynthesizer.mergeResponses env responses (withStrategy strategy options)
  = ResponseSynthesizer.mergeResponses env responses
      (withStrategy (Some "sequential") options).
Proof.
  intros H. simpl in H.
  assert (Hb : String.eqb (JS.showOpt strategy) "best_first" = false).
  { apply String.eqb_neq. intros Heq. apply H. left. now symmetry. }
  assert (Ht : String.eqb (JS.showOpt strategy) "task_specific" = false).
  { apply String.eqb_neq. intros Heq. apply H. right. left. now symmetry. }
  unfold ResponseSynthesizer.mergeResponses, withStrategy,
    ResponseSynthesizer.orElse.
  cbn [ResponseSynthesizer.mo_mergeStrategy ResponseSynthesizer.mo_format
       ResponseSynthesizer.mo_includeSectionHeaders].
  destruct responses as [|first [|second rest]]; try reflexivity.
  destruct strategy as [name|]; cbn [JS.truthyOpt JS.showOpt] in *;
    [destruct (JS.truthyString name)|]; rewrite ?Hb, ?Ht;
    try destruct (String.eqb name "sequential"); reflexivity.
Qed.

Lemma X25_witness :
  ResponseSynthesizer.mergeResponses Samples.allWork
    [OrchestrationLayer.errorResponse "first" "e1" None "u1";
     OrchestrationLayer.errorResponse "second" "e2" None "u1"]
    (withStrategy (Some "majority_vote")
       (ResponseSynthesizer.mkMergeOptions None None true))
  = ResponseSynthesizer.mergeResponses Samples.allWork
      [OrchestrationLayer.errorResponse "first" "e1" None "u1";
       OrchestrationLayer.errorResponse "second" "e2" None "u1"]
      (withStrategy (Some "sequential")
         (ResponseSynthesizer.mkMergeOptions None None true)).
Proof.
  apply X25_unknown_merge_strategy_is_sequential.
  simpl. intros [H|[H|H]]; [discriminate H|discriminate H|exact H].
Defined.

(** ** OrchestrationLayer: what a request does *)

Section MoreOrchestration.

Variable env : Env.

(** One pass through the [try] block always ends, in one of the three ways
    of [Attempt]. *)
Lemma processRequestBody_attempt (userInput userId : string)
    (options : Options) (t : Trace) :
  exists result extra,
    OrchestrationLayer.processRequestBody env userInput userId options t
    = Some (result, (t ++ extra)%list)
    /\ Attempt env userInput userId options t result extra.
Proof.
  destruct (routeRequest_returns env userInput userId options t)
    as (label & _ & Hroute).
  set (routingInfo := mkRoutingInfo _ _ _ _ _ _ _) in Hroute.
  cbv zeta in Hroute. fold routingInfo in Hroute.
  destruct (getContext_returns env userId
              (contextOptionsFor userInput options routingInfo) t)
    as [context Hc].
  unfold OrchestrationLayer.processRequestBody.
  unfold bind at 1. rewrite Hroute.
  change (ContextManager.mkGetContextOptions (ri_platform routingInfo)
            (Some userInput) (enableSemanticSearch options) None)
    with (contextOptionsFor userInput options routingInfo).
  unfold bind at 1. rewrite Hc.
  assert (Hquiet : forall m : string,
             exists (result : JS.Result Response) (extra : Trace),
               Some (JS.Throw (A:=Response) m, t) = Some (result, (t ++ extra)%list)
               /\ Attempt env userInput userId options t result extra).
  { intros m. exists (JS.Throw m), []. rewrite app_nil_r.
    split; [reflexivity|constructor]. }
  unfold bind at 1, lift at 1.
  destruct (ThinkingEngine.generateThinkingPrompts _ userInput)
    as [thinkingPrompts|m]; [|apply Hquiet].
  unfold bind at 1, lift at 1.
  destruct (ThinkingEngine.enhancePromptWithThinking _ _ _ _)
    as [enhancedPrompt|m] eqn:Henh; [|apply Hquiet].
  unfold bind at 1, OrchestrationLayer.getPlatformModule, bind at 1, ask.
  destruct (platformModulesLoad env t); [|apply Hquiet].
  destruct (existsb _ providers); [|destruct (JS.isInheritedKey _); apply Hquiet].
  unfold ret at 1.
  unfold bind at 1, OrchestrationLayer.callGenerateResponse, bind at 1, ask,
    bind at 1, emit, lift at 1.
  destruct (generateResponse env t _ enhancedPrompt)
    as [platformResponse|m] eqn:Hgen.
  - unfold bind at 1, lift at 1.
    change (ResponseSynthesizer.mkProcessOptions _ _ _ true)
      with (processOptionsFor options).
    destruct (processResponse_returns env platformResponse routingInfo
                (Some thinkingPrompts) (processOptionsFor options))
      as (processed & Hproc & _).
    rewrite Hproc.
    unfold bind at 1, ContextManager.saveContext, tryCatch, bind, ask, emit,
      lift, ret.
    exists (JS.Return (withRoutingInfo processed routingInfo)),
      [ProviderCall (JS.showOpt (ri_platform routingInfo)) enhancedPrompt;
       savedEvent userId userInput (content processed) routingInfo].
    split.
    + unfold savedEvent. rewrite <- app_assoc.
      destruct (saveConversationTurn env _ _); reflexivity.
    + eapply Answered; eassumption.
  - do 2 eexists. split; [reflexivity|].
    eapply ProviderFailed; eassumption.
Qed.

(** Without a fallback in prospect a single pass decides, and fuel for one
    pass is enough. *)
Lemma processRequest_final (n : nat) (userInput userId : string)
    (options : Options) (t : Trace) :
  fallbackAllowed options = false ->
  exists result extra,
    Attempt env userInput userId options t result extra
    /\ OrchestrationLayer.processRequest env (S n) userInput userId options t
       = Some (JS.Return
                 (match result with
                  | JS.Return response => response
                  | JS.Throw message =>
                      OrchestrationLayer.errorResponse requestIssue message
                        None userId
                  end), (t ++ extra)%list).
Proof.
  intros Hguard.
  destruct (processRequestBody_attempt userInput userId options t)
    as (result & extra & Hbody & Hattempt).
  exists result, extra. split; [exact Hattempt|].
  cbn [OrchestrationLayer.processRequest]. unfold tryCatch at 1. rewrite Hbody.
  destruct result as [response|message]; [reflexivity|].
  unfold fallbackAllowed in Hguard. rewrite Hguard. reflexivity.
Qed.

Lemma fallbackOptions_final (options : Options) (platform : option string) :
  fallbackAllowed (OrchestrationLayer.fallbackOptions options platform) = false.
Proof.
  unfold fallbackAllowed. cbn. apply andb_false_r.
Qed.

(** With fuel for two passes every request ends in one of the ways of
    [Run]. *)
Lemma processRequest_run (n : nat) (userInput userId : string)
    (options : Options) (t : Trace) :
  exists response extra,
    OrchestrationLayer.processRequest env (S (S n)) userInput userId options t
    = Some (JS.Return response, (t ++ extra)%list)
    /\ Run env userInput userId options t response extra.
Proof.
  destruct (fallbackAllowed options) eqn:Hguard.
  2:{ destruct (processRequest_final (S n) userInput userId options t Hguard)
        as (result & extra & Hattempt & Hrun).
      do 2 eexists. split; [exact Hrun|].
      destruct result; [now apply FirstAnswers|now apply FirstFails]. }
  destruct (processRequestBody_attempt userInput userId options t)
    as (result & extra & Hbody & Hattempt).
  change (OrchestrationLayer.processRequest env (S (S n)) userInput userId
            options)
    with (tryCatch
            (OrchestrationLayer.processRequestBody env userInput userId options)
            (fun message =>
               if OrchestrationLayer.notFalse (enableFallback options)
                  && negb (isFallback options)
               then OrchestrationLayer.handleFallbackWith env
                      (OrchestrationLayer.processRequest env (S n))
                      userInput userId message options
               else
                 ret (OrchestrationLayer.errorResponse
                        "I encountered an issue processing your request. Please try again."
                        message None userId))).
  unfold tryCatch at 1. rewrite Hbody.
  destruct result as [response|message].
  { exists response, extra. split; [reflexivity|now apply FirstAnswers]. }
  unfold fallbackAllowed in Hguard. rewrite Hguard.
  destruct (routeRequest_returns env userInput userId options (t ++ extra)%list)
    as (label & _ & Hroute).
  set (routingInfo := mkRoutingInfo _ _ _ _ _ _ _) in Hroute.
  cbv zeta in Hroute. fold routingInfo in Hroute.
  unfold OrchestrationLayer.handleFallbackWith.
  unfold bind at 1. unfold tryCatch at 1, bind at 1. rewrite Hroute.
  cbv zeta. unfold bind at 1, emit at 1, ret at 1.
  set (options' := OrchestrationLayer.fallbackOptions options _).
  set (hop := UsingFallback _ _).
  destruct (processRequest_final n userInput userId options'
              ((t ++ extra) ++ [hop])%list (fallbackOptions_final _ _))
    as (result' & extra' & Hattempt' & Hrun').
  rewrite Hrun'.
  do 2 eexists. split.
  - rewrite <- !app_assoc. reflexivity.
  - eapply FallbackEnds; eassumption.
Qed.

Lemma savedTurns_app (a b : Trace) :
  savedTurns (a ++ b)%list = (savedTurns a ++ savedTurns b)%list.
Proof. apply flat_map_app. Qed.


Lemma fallbackHops_app (a b : Trace) :
  fallbackHops (a ++ b)%list = fallbackHops a + fallbackHops b.
Proof.
  unfold fallbackHops. now rewrite filter_app, length_app.
Qed.

(** What an attempt leaves in the log. *)
Lemma attempt_log (userInput userId : string) (options : Options) (t : Trace)
    (result : JS.Result Response) (extra : Trace) :
  Attempt env userInput userId options t result extra ->
  fallbackHops extra = 0
  /\ List.length (providerCalls extra) <= 1
  /\ savedTurns extra
     = match result with
       | JS.Return response => [(userId, userInput, content response)]
       | JS.Throw _ => []
       end
  /\ match result with
     | JS.Return response => routingInfo response <> None
     | JS.Throw _ => True
     end.
Proof.
  intros [message|ri context tp prompt message _ _ _ _
          |ri context tp prompt raw processed _ _ _ _ _]; cbn;
    repeat split; try lia; discriminate.
Qed.

End MoreOrchestration.

Section RunFacts.

Variable env : Env.

Lemma fallbackAllowed_off (options : Options) :
  enableFallback options = Some false \/ isFallback options = true ->
  fallbackAllowed options = false.
Proof.
  unfold fallbackAllowed. intros [H|H]; rewrite H; [reflexivity|].
  apply andb_false_r.
Qed.

Lemma run_log (userInput userId : string) (options : Options) (t : Trace)
    (response : Response) (extra : Trace) :
  Run env userInput userId options t response extra ->
  fallbackHops extra <= 1
  /\ savedTurns extra
     = match routingInfo response with
       | Some _ => [(userId, userInput, content response)]
       | None => []
       end.
Proof.
  intros [response' extra' Hattempt
         |message extra' Hattempt Hguard
         |message extra1 ri result extra2 Hattempt Hguard Hroute fp hop Hattempt'].
  - destruct (attempt_log env _ _ _ _ _ _ Hattempt) as (Hhops & _ & Hsaved & Hinfo).
    rewrite Hhops, Hsaved. split; [lia|].
    destruct (routingInfo response'); [reflexivity|now destruct Hinfo].
  - destruct (attempt_log env _ _ _ _ _ _ Hattempt) as (Hhops & _ & Hsaved & _).
    rewrite Hhops, Hsaved. split; [lia|reflexivity].
  - destruct (attempt_log env _ _ _ _ _ _ Hattempt) as (Hhops & _ & Hsaved & _).
    destruct (attempt_log env _ _ _ _ _ _ Hattempt')
      as (Hhops' & _ & Hsaved' & Hinfo').
    rewrite fallbackHops_app, savedTurns_app, Hhops, Hsaved.
    change (fallbackHops (hop :: extra2)) with (S (fallbackHops extra2)).
    change (savedTurns (hop :: extra2)) with (savedTurns extra2).
    rewrite Hhops', Hsaved'. split; [lia|].
    destruct result as [response'|message']; [|reflexivity].
    cbn. destruct (routingInfo response'); [reflexivity|now destruct Hinfo'].
Qed.

(** A response that carries routing information and an error is the canned
    apology of [processResponse]. *)
Lemma attempt_apology (userInput userId : string) (options : Options)
    (t : Trace) (response : Response) (extra : Trace) (message : string) :
  Attempt env userInput userId options t (JS.Return response) extra ->
  error response = Some message ->
  content response = VStr processingIssue.
Proof.
  intros Hattempt. inversion Hattempt as [| |ri context tp prompt raw processed
                                           _ _ _ _ Hproc]; subst.
  destruct (processResponse_returns env raw ri (Some tp)
              (processOptionsFor options))
    as (processed' & Hproc' & _ & _ & _ & _ & Hcases).
  rewrite Hproc in Hproc'. injection Hproc' as <-.
  cbn. intros Herror.
  destruct (ResponseSynthesizer.extractContent _ raw _).
  - destruct Hcases as [[Hnone _]|(m & _ & Hcontent)]; [congruence|exact Hcontent].
  - apply Hcases.
Qed.

Lemma run_apology (userInput userId : string) (options : Options) (t : Trace)
    (response : Response) (extra : Trace) :
  Run env userInput userId options t response extra ->
  error response = None \/ routingInfo response = None
  \/ content response = VStr processingIssue.
Proof.
  intros [response' extra' Hattempt
         |message extra' Hattempt Hguard
         |message extra1 ri result extra2 Hattempt Hguard Hroute fp hop Hattempt'].
  - destruct (error response') as [m|] eqn:He; [|now left].
    right. right. eapply attempt_apology; eassumption.
  - right. left. reflexivity.
  - destruct result as [response'|message']; [|right; left; reflexivity].
    destruct (error response') as [m|] eqn:He; [|now left].
    right. right. eapply attempt_apology; eassumption.
Qed.




End RunFacts.

(** X26: when fallback is switched off for a request, or the request is
    itself a fallback, [processRequest] decides in a single pass: it
    returns a response, invokes at most one provider and announces no
    fallback. *)
Theorem X26_without_fallback_a_single_pass_decides (env : Env) (n : nat)
    (userInput userId : string) (options : Options) (t : Trace) :
  enableFallback options = Some false \/ isFallback options = true ->
  exists response extra,
    OrchestrationLayer.processRequest env (S n) userInput userId options t
    = Some (JS.Return response, (t ++ extra)%list)
    /\ List.length (providerCalls extra) <= 1
    /\ fallbackHops extra = 0.
Proof.
  intros H. apply fallbackAllowed_off in H.
  destruct (processRequest_final env n userInput userId options t H)
    as (result & extra & Hattempt & Hrun).
  destruct (attempt_log env _ _ _ _ _ _ Hattempt) as (Hhops & Hcalls & _).
  do 2 eexists. split; [exact Hrun|]. split; assumption.
Qed.

Lemma X26_witness :
  exists response extra,
    OrchestrationLayer.processRequest Samples.allFail 1 "hello" "u1"
      RunSamples.withoutFallback []
    = Some (JS.Return response, ([] ++ extra)%list)
    /\ List.length (providerCalls extra) <= 1
    /\ fallbackHops extra = 0.
Proof.
  apply X26_without_fallback_a_single_pass_decides. left. reflexivity.
Defined.

(** X27: a request saves a turn exactly when its response carries routing
    information, that is, when an attempt got an answer from a provider:
    then the one saved turn holds the user, the input and the content of
    the returned response, and otherwise nothing is saved.  At most one
    fallback is announced.  A response with routing information and an
    error has the canned apology of [processResponse] as content, so it is
    this apology that is saved as the answer. *)
Theorem X27_a_turn_is_saved_exactly_for_answered_requests (env : Env)
    (n : nat) (userInput userId : string) (options : Options) (t : Trace) :
  exists response extra,
    OrchestrationLayer.processRequest env (S (S n)) userInput userId options t
    = Some (JS.Return response, (t ++ extra)%list)
    /\ savedTurns extra
       = match routingInfo response with
         | Some _ => [(userId, userInput, content response)]
         | None => []
         end
    /\ fallbackHops extra <= 1
    /\ (error response = None \/ routingInfo response = None
        \/ content response = VStr processingIssue).
Proof.
  destruct (processRequest_run env n userInput userId options t)
    as (response & extra & Hrun & Hcases).
  exists response, extra. split; [exact Hrun|].
  destruct (run_log env _ _ _ _ _ _ Hcases) as [Hhops Hsaved].
  repeat split; [exact Hsaved|exact Hhops|].
  eapply run_apology, Hcases.
Qed.



(** X29: [processMultiPlatformRequest] without platforms invokes no
    provider and changes nothing; it returns the merge error "No responses
    to merge" with the canned merge apology, under the platform "merged"
    and with routing information, not its own error response. *)
Theorem X29_multi_platform_request_without_platforms (env : Env)
    (fuel : nat) (userInput userId : string) (options : Options) (t : Trace) :
  exists response,
    OrchestrationLayer.processMultiPlatformRequest env fuel userInput userId
      [] options t
    = Some (JS.Return response, t)
    /\ error response = Some "No responses to merge"
    /\ content response = VStr mergingIssue
    /\ platform response = Some "merged"
    /\ routingInfo response <> None.
Proof.
  destruct (routeRequest_returns env userInput userId options t)
    as (label & _ & Hroute).
  unfold OrchestrationLayer.processMultiPlatformRequest.
  unfold tryCatch at 1, bind at 1. rewrite Hroute.
  eexists. split; [reflexivity|]. cbn. repeat split. discriminate.
Qed.

Section MultiFacts.

Variable env : Env.

Lemma mergeResponses_returns (responses : list Response)
    (options : ResponseSynthesizer.MergeOptions) :
  exists merged,
    ResponseSynthesizer.mergeResponses env responses options = JS.Return merged.
Proof.
  unfold ResponseSynthesizer.mergeResponses.
  destruct responses as [|first [|second rest]]; [eexists; reflexivity..|].
  cbv zeta. unfold JS.tryCatchR, JS.bindR.
  destruct (if String.eqb _ "sequential" then _ else _) as [merged|message];
    [destruct (formatResponse env (VStr merged) _ _ _)|]; eexists; reflexivity.
Qed.

Lemma branchOptions_final (options : Options) (platform : string) :
  fallbackAllowed (OrchestrationLayer.branchOptions options platform) = false.
Proof. reflexivity. Qed.

(** The loop over the platforms: one decided pass per platform. *)
Lemma processOnEach_log (n : nat) (userInput userId : string)
    (options : Options) (platforms : list string) :
  forall (platformResponses : list Response) (t : Trace),
  exists collected extra,
    OrchestrationLayer.processOnEach env (S n) userInput userId platforms
      options platformResponses t
    = Some (JS.Return (platformResponses ++ collected)%list, (t ++ extra)%list)
    /\ List.length collected = List.length platforms
    /\ List.length (providerCalls extra) <= List.length platforms
    /\ fallbackHops extra = 0.
Proof.
  induction platforms as [|platform rest IH]; intros platformResponses t.
  - exists [], []. rewrite !app_nil_r. repeat split. simpl. lia.
  - destruct (processRequest_final env n userInput userId
                (OrchestrationLayer.branchOptions options platform) t
                (branchOptions_final options platform))
      as (result & extra & Hattempt & Hrun).
    destruct (attempt_log env _ _ _ _ _ _ Hattempt) as (Hhops & Hcalls & _).
    change (OrchestrationLayer.processOnEach env (S n) userInput userId
              (platform :: rest) options platformResponses)
      with (platformResponses' <-
              tryCatch
                (platformResponse <-
                   OrchestrationLayer.processRequest env (S n) userInput userId
                     (OrchestrationLayer.branchOptions options platform) ;;
                 ret (platformResponses ++ [platformResponse])%list)
                (fun _ => ret platformResponses) ;;
            OrchestrationLayer.processOnEach env (S n) userInput userId rest
              options platformResponses')%monad.
    unfold bind at 1. unfold tryCatch at 1, bind at 1. rewrite Hrun.
    unfold ret at 1.
    match goal with
    | |- context [OrchestrationLayer.processOnEach env (S n) userInput userId
                    rest options (platformResponses ++ [?r])%list] =>
        destruct (IH (platformResponses ++ [r])%list (t ++ extra)%list)
          as (collected & extra' & Hrest & Hlen & Hcalls' & Hhops');
        exists (r :: collected), (extra ++ extra')%list
    end.
    rewrite Hrest, <- !app_assoc. split; [reflexivity|].
    rewrite providerCalls_app, length_app, fallbackHops_app, Hhops, Hhops'.
    simpl. repeat split; lia.
Qed.

End MultiFacts.

(** X8: [processMultiPlatformRequest] makes one decided pass per requested
    platform: it returns a response, invokes at most as many providers as
    platforms were requested and never falls back; the response carries
    routing information, so it is never the error response of its own
    [catch] block.  Fuel for a single pass per platform is enough. *)
Theorem X8_multi_platform_requests_make_one_pass_per_platform (env : Env)
    (n : nat) (userInput userId : string) (platforms : list string)
    (options : Options) (t : Trace) :
  exists response extra,
    OrchestrationLayer.processMultiPlatformRequest env (S n) userInput userId
      platforms options t
    = Some (JS.Return response, (t ++ extra)%list)
    /\ List.length (providerCalls extra) <= List.length platforms
    /\ fallbackHops extra = 0
    /\ routingInfo response <> None.
Proof.
  destruct (routeRequest_returns env userInput userId options t)
    as (label & _ & Hroute).
  destruct (processOnEach_log env n userInput userId options platforms [] t)
    as (collected & extra & Heach & _ & Hcalls & Hhops).
  unfold OrchestrationLayer.processMultiPlatformRequest.
  unfold tryCatch at 1, bind at 1. rewrite Hroute.
  unfold bind at 1. rewrite Heach.
  match goal with
  | |- context [ResponseSynthesizer.mergeResponses env ?rs ?o] =>
      destruct (mergeResponses_returns env rs o) as [merged Hmerged]
  end.
  unfold bind at 1, lift at 1. rewrite Hmerged. unfold ret.
  do 2 eexists. split; [reflexivity|].
  repeat split; [exact Hcalls|exact Hhops|discriminate].
Qed.

(** ** ResponseSynthesizer: rendering *)

Section RenderingFacts.

Variable builtins : Builtins.
Variable formatThinkingProcess : Value -> string -> JS.Result string.
Variable markdownToHTML : Value -> JS.Result string.
Variable formatJSON : Value -> option Value -> FormatOptions -> string.
Variable inheritedText : string -> string.

Lemma formatResponse_without_platform (content : Value)
    (thinkingProcess : option Value) (format : string)
    (includeThinking includeAttribution : bool)
    (thinkingPosition : option string) :
  String.eqb format "json" = false ->
  ResponseFormatting.formatResponse builtins formatThinkingProcess
    markdownToHTML formatJSON inheritedText content thinkingProcess format
    (mkFormatOptions includeThinking includeAttribution None) thinkingPosition
  = ResponseFormatting.formatResponse builtins formatThinkingProcess
      markdownToHTML formatJSON inheritedText content thinkingProcess format
      (mkFormatOptions includeThinking false None) thinkingPosition.
Proof.
  intros Hjson. unfold ResponseFormatting.formatResponse.
  cbn [fo_includeAttribution fo_platform fo_includeThinking].
  rewrite Hjson. destruct includeAttribution; reflexivity.
Qed.

End RenderingFacts.

(** X30: the options [processResponse] passes on to [formatResponse] name
    no platform, so [generateAttribution] gives the empty text: for every
    format but JSON the processed response is the same whether attribution
    is asked for or not. *)
Theorem X30_processed_responses_carry_no_attribution (env : Env)
    (formatThinkingProcess : Value -> string -> JS.Result string)
    (markdownToHTML : Value -> JS.Result string)
    (formatJSON : Value -> option Value -> FormatOptions -> string)
    (inheritedText : string -> string)
    (response : Value) (requestInfo : RoutingInfo)
    (thinkingPrompts : option ThinkingPrompts)
    (options : ResponseSynthesizer.ProcessOptions) (enabled : bool) :
  rendersWith env formatThinkingProcess markdownToHTML formatJSON
    inheritedText ->
  String.eqb
    (ResponseSynthesizer.orElse (ResponseSynthesizer.po_format options)
       "markdown") "json" = false ->
  ResponseSynthesizer.processResponse env response requestInfo thinkingPrompts
    (withAttribution enabled options)
  = ResponseSynthesizer.processResponse env response requestInfo
      thinkingPrompts (withAttribution false options).
Proof.
  intros Hrender Hjson.
  unfold ResponseSynthesizer.processResponse, withAttribution.
  cbn [ResponseSynthesizer.po_format ResponseSynthesizer.po_includeThinking
       ResponseSynthesizer.po_includeAttribution
       ResponseSynthesizer.po_extractThinking].
  cbv zeta. unfold JS.tryCatchR, JS.bindR.
  destruct (ResponseSynthesizer.extractContent _ response _) as [content|m];
    [|reflexivity].
  destruct (match thinkingPrompts with Some _ => _ | None => _ end)
    as [thinking|m]; [|reflexivity].
  rewrite !Hrender.
  now rewrite (formatResponse_without_platform (builtins env)
                 formatThinkingProcess markdownToHTML formatJSON inheritedText
                 content thinking _ _ enabled None Hjson).
Qed.

Lemma X30_witness :
  ResponseSynthesizer.processResponse RenderSamples.rendering
    (Shapes.chat "Paris.") RenderSamples.chatRouting None
    (withAttribution true
       (ResponseSynthesizer.mkProcessOptions (Some "markdown") true true true))
  = ResponseSynthesizer.processResponse RenderSamples.rendering
      (Shapes.chat "Paris.") RenderSamples.chatRouting None
      (withAttribution false
         (ResponseSynthesizer.mkProcessOptions (Some "markdown") true true true)).
Proof.
  apply (X30_processed_responses_carry_no_attribution RenderSamples.rendering
           RenderSamples.sampleThinking RenderSamples.sampleHTML
           RenderSamples.sampleJSON RenderSamples.sampleInherited).
  - intros content thinkingProcess format options. reflexivity.
  - reflexivity.
Defined.
